(** * The gofer client of gVisor: dentry metadata, references, handles

    A shallow embedding of [pkg/sentry/fsimpl/gofer/gofer.go].  Go's fixed
    width integers are integers of [Z] with the wrap-around written out,
    pointers to dentries are addresses into a finite map, and every call that
    leaves the client (the 9P server, the VFS layer, host system calls) is
    recorded in a trace of events so that "the server is not contacted" is a
    statement about that trace. *)

From Stdlib Require Import ZArith Lia Bool.
From stdpp Require Import gmap strings list.

Local Open Scope Z_scope.

(** ** Fixed-width arithmetic *)

Module Int.

Definition u64 (x : Z) : Z := x mod 2 ^ 64.
Definition u32 (x : Z) : Z := x mod 2 ^ 32.
Definition u16 (x : Z) : Z := x mod 2 ^ 16.
Definition i64 (x : Z) : Z := (x + 2 ^ 63) mod 2 ^ 64 - 2 ^ 63.

Definition MaxInt64 : Z := 2 ^ 63 - 1.
Definition MinInt64 : Z := - 2 ^ 63.

(** [x &^ y] of Go. *)
Definition andnot (x y : Z) : Z := Z.ldiff x y.

Definition has (x bit : Z) : bool := negb (Z.land x bit =? 0).

End Int.

(** ** Constants of the Linux ABI ([pkg/abi/linux]) *)

Module linux.

Definition STATX_TYPE : Z := 1.
Definition STATX_MODE : Z := 2.
Definition STATX_NLINK : Z := 4.
Definition STATX_UID : Z := 8.
Definition STATX_GID : Z := 16.
Definition STATX_ATIME : Z := 32.
Definition STATX_MTIME : Z := 64.
Definition STATX_CTIME : Z := 128.
Definition STATX_INO : Z := 256.
Definition STATX_SIZE : Z := 512.
Definition STATX_BLOCKS : Z := 1024.
Definition STATX_BTIME : Z := 2048.

Definition AT_STATX_DONT_SYNC : Z := 16384.
Definition UTIME_NOW : Z := 2 ^ 30 - 1.
Definition S_IFMT : Z := 61440.
Definition S_IFREG : Z := 32768.
Definition S_IFDIR : Z := 16384.
Definition XATTR_USER_PREFIX : string := "user.".

Record StatxTimestamp := mkStatxTimestamp { Sec : Z; Nsec : Z }.

Record Statx := mkStatx {
  Mask : Z;
  Blksize : Z;
  Nlink : Z;
  UID : Z;
  GID : Z;
  Mode : Z;
  Ino : Z;
  Size : Z;
  Blocks : Z;
  Atime : StatxTimestamp;
  Btime : StatxTimestamp;
  Ctime : StatxTimestamp;
  Mtime : StatxTimestamp
}.

Definition zeroTimestamp : StatxTimestamp := mkStatxTimestamp 0 0.

(** The zero value [linux.Statx{}]. *)
Definition zeroStatx : Statx :=
  mkStatx 0 0 0 0 0 0 0 0 0 zeroTimestamp zeroTimestamp zeroTimestamp
    zeroTimestamp.

Definition set_Mask (v : Z) (s : Statx) : Statx :=
  mkStatx v (Blksize s) (Nlink s) (UID s) (GID s) (Mode s) (Ino s) (Size s)
    (Blocks s) (Atime s) (Btime s) (Ctime s) (Mtime s).

Definition set_Mtime_Nsec (v : Z) (s : Statx) : Statx :=
  mkStatx (Mask s) (Blksize s) (Nlink s) (UID s) (GID s) (Mode s) (Ino s)
    (Size s) (Blocks s) (Atime s) (Btime s) (Ctime s)
    (mkStatxTimestamp (Sec (Mtime s)) v).

End linux.

(** ** Error numbers ([pkg/syserror]) *)

Inductive errno : Type :=
| EPERM
| EACCES
| EIO
| EROFS
| EOPNOTSUPP
| Eserver (code : Z).

Definition errno_eqb (a b : errno) : bool :=
  match a, b with
  | EPERM, EPERM | EACCES, EACCES | EIO, EIO | EROFS, EROFS
  | EOPNOTSUPP, EOPNOTSUPP => true
  | Eserver x, Eserver y => x =? y
  | _, _ => false
  end.

(** ** Offset ranges

    [fsutil.FileRangeSet], [fsutil.DirtySet] and [memmap.MappingSet] are
    segment sets keyed by half-open ranges of file offsets.  Only the keys
    matter here, so each is a list of ranges [(start, end)]. *)

Definition Range : Type := Z * Z.
Definition RangeSet : Type := list Range.



(** Removal of the offsets of [mr] from a segment set: a segment that
    straddles a boundary of [mr] is split and the outer pieces are kept.  A
    range that is not well formed selects no segment. *)
Definition cut_segment (mr seg : Range) : RangeSet :=
  (if seg.1 <? Z.min seg.2 mr.1 then [(seg.1, Z.min seg.2 mr.1)] else []) ++
  (if Z.max seg.1 mr.2 <? seg.2 then [(Z.max seg.1 mr.2, seg.2)] else []).

Definition RemoveRange (mr : Range) (s : RangeSet) : RangeSet :=
  if mr.1 <? mr.2 then flat_map (cut_segment mr) s else s.

Definition PageSize : Z := 4096.

(** Modelled from the spec: [pageRoundDown] and [pageRoundUp] are declared in
    a file of the package that is not at hand; scenario 3 of the testable
    properties fixes the page size (3000 rounds up to 4096, 8192 to itself). *)
Definition pageRoundDown (x : Z) : Z := Int.andnot x (PageSize - 1).

(** Modelled from the spec: see [pageRoundDown].  The operand is a [uint64],
    so the addition wraps. *)
Definition pageRoundUp (x : Z) : Z := pageRoundDown (Int.u64 (x + PageSize - 1)).

(** Modelled from the spec: [memmap.MappingSet.Invalidate] ("mappings over
    the truncated range are invalidated").  The mapping set of the model
    holds the offset ranges that application address spaces currently map;
    invalidation withdraws the given range from them. *)
Definition Invalidate (mr : Range) (ms : RangeSet) : RangeSet :=
  RemoveRange mr ms.

(** The part of a segment below [pgend]. *)
Definition clip_segment (pgend : Z) (seg : Range) : RangeSet :=
  if seg.1 <? pgend then [(seg.1, Z.min seg.2 pgend)] else [].

(** Modelled from the spec: [fsutil.FileRangeSet.Truncate] ("drops pages at
    and beyond a new size"; scenario 3: for a new size of 3000 the pages
    beyond offset 4096 are dropped).  Pages are dropped from the new size
    rounded up to a page; when rounding up overflows no page lies beyond. *)
Definition Truncate (end_ : Z) (frs : RangeSet) : RangeSet :=
  if end_ + PageSize - 1 <? 2 ^ 64
  then flat_map (clip_segment (pageRoundUp end_)) frs
  else frs.

(** Modelled from the spec: [fsutil.DirtySet.KeepClean] ("keep-clean over a
    range"): every offset of the range stops being dirty. *)
Definition KeepClean (mr : Range) (ds : RangeSet) : RangeSet :=
  RemoveRange mr ds.

(** ** Handles and dentries *)

(** A [p9file] wraps a 9P fid; [None] is the nil file. *)
Definition p9file : Type := option nat.

Definition isNil (f : p9file) : bool :=
  match f with None => true | Some _ => false end.

(** [handle]: an opened fid and the host file descriptor donated by the
    server, [-1] if there is none. *)
Record Handle := mkHandle { h_file : p9file; fd : Z }.

Inductive InteropMode : Type :=
| InteropModeExclusive
| InteropModeWritethrough
| InteropModeShared.

Definition isShared (m : InteropMode) : bool :=
  match m with InteropModeShared => true | _ => false end.

(** The [dentry] struct.  The locks, the back pointer to the filesystem and
    the directory and symlink caches play no part in the functions below and
    are left out; [vfsd_parent] and [vfsd_disowned] stand for
    [d.vfsd.Parent()] and [d.vfsd.IsDisowned()]. *)
Record dentry := mkDentry {
  vfsd_parent : option nat;
  vfsd_disowned : bool;
  refs : Z;
  file : p9file;
  deleted : Z;
  cached : bool;
  ino : Z;
  mode : Z;
  uid : Z;
  gid : Z;
  blockSize : Z;
  atime : Z;
  mtime : Z;
  ctime : Z;
  btime : Z;
  size : Z;
  nlink : Z;
  mappings : RangeSet;
  handle : Handle;
  handleReadable : bool;
  handleWritable : bool;
  cache : RangeSet;
  dirty : RangeSet
}.

Definition set_vfsd_disowned (v : bool) (d : dentry) : dentry :=
  mkDentry (vfsd_parent d) v (refs d) (file d) (deleted d) (cached d)
    (ino d) (mode d) (uid d) (gid d) (blockSize d) (atime d) (mtime d)
    (ctime d) (btime d) (size d) (nlink d) (mappings d) (handle d)
    (handleReadable d) (handleWritable d) (cache d) (dirty d).

Definition set_refs (v : Z) (d : dentry) : dentry :=
  mkDentry (vfsd_parent d) (vfsd_disowned d) v (file d) (deleted d)
    (cached d) (ino d) (mode d) (uid d) (gid d) (blockSize d) (atime d)
    (mtime d) (ctime d) (btime d) (size d) (nlink d) (mappings d) (handle d)
    (handleReadable d) (handleWritable d) (cache d) (dirty d).

Definition set_file (v : p9file) (d : dentry) : dentry :=
  mkDentry (vfsd_parent d) (vfsd_disowned d) (refs d) v (deleted d)
    (cached d) (ino d) (mode d) (uid d) (gid d) (blockSize d) (atime d)
    (mtime d) (ctime d) (btime d) (size d) (nlink d) (mappings d) (handle d)
    (handleReadable d) (handleWritable d) (cache d) (dirty d).

Definition set_cached (v : bool) (d : dentry) : dentry :=
  mkDentry (vfsd_parent d) (vfsd_disowned d) (refs d) (file d) (deleted d) v
    (ino d) (mode d) (uid d) (gid d) (blockSize d) (atime d) (mtime d)
    (ctime d) (btime d) (size d) (nlink d) (mappings d) (handle d)
    (handleReadable d) (handleWritable d) (cache d) (dirty d).

Definition set_mode (v : Z) (d : dentry) : dentry :=
  mkDentry (vfsd_parent d) (vfsd_disowned d) (refs d) (file d) (deleted d)
    (cached d) (ino d) v (uid d) (gid d) (blockSize d) (atime d) (mtime d)
    (ctime d) (btime d) (size d) (nlink d) (mappings d) (handle d)
    (handleReadable d) (handleWritable d) (cache d) (dirty d).

Definition set_uid (v : Z) (d : dentry) : dentry :=
  mkDentry (vfsd_parent d) (vfsd_disowned d) (refs d) (file d) (deleted d)
    (cached d) (ino d) (mode d) v (gid d) (blockSize d) (atime d) (mtime d)
    (ctime d) (btime d) (size d) (nlink d) (mappings d) (handle d)
    (handleReadable d) (handleWritable d) (cache d) (dirty d).

Definition set_gid (v : Z) (d : dentry) : dentry :=
  mkDentry (vfsd_parent d) (vfsd_disowned d) (refs d) (file d) (deleted d)
    (cached d) (ino d) (mode d) (uid d) v (blockSize d) (atime d) (mtime d)
    (ctime d) (btime d) (size d) (nlink d) (mappings d) (handle d)
    (handleReadable d) (handleWritable d) (cache d) (dirty d).

Definition set_blockSize (v : Z) (d : dentry) : dentry :=
  mkDentry (vfsd_parent d) (vfsd_disowned d) (refs d) (file d) (deleted d)
    (cached d) (ino d) (mode d) (uid d) (gid d) v (atime d) (mtime d)
    (ctime d) (btime d) (size d) (nlink d) (mappings d) (handle d)
    (handleReadable d) (handleWritable d) (cache d) (dirty d).

Definition set_atime (v : Z) (d : dentry) : dentry :=
  mkDentry (vfsd_parent d) (vfsd_disowned d) (refs d) (file d) (deleted d)
    (cached d) (ino d) (mode d) (uid d) (gid d) (blockSize d) v (mtime d)
    (ctime d) (btime d) (size d) (nlink d) (mappings d) (handle d)
    (handleReadable d) (handleWritable d) (cache d) (dirty d).

Definition set_mtime (v : Z) (d : dentry) : dentry :=
  mkDentry (vfsd_parent d) (vfsd_disowned d) (refs d) (file d) (deleted d)
    (cached d) (ino d) (mode d) (uid d) (gid d) (blockSize d) (atime d) v
    (ctime d) (btime d) (size d) (nlink d) (mappings d) (handle d)
    (handleReadable d) (handleWritable d) (cache d) (dirty d).

Definition set_ctime (v : Z) (d : dentry) : dentry :=
  mkDentry (vfsd_parent d) (vfsd_disowned d) (refs d) (file d) (deleted d)
    (cached d) (ino d) (mode d) (uid d) (gid d) (blockSize d) (atime d)
    (mtime d) v (btime d) (size d) (nlink d) (mappings d) (handle d)
    (handleReadable d) (handleWritable d) (cache d) (dirty d).

Definition set_btime (v : Z) (d : dentry) : dentry :=
  mkDentry (vfsd_parent d) (vfsd_disowned d) (refs d) (file d) (deleted d)
    (cached d) (ino d) (mode d) (uid d) (gid d) (blockSize d) (atime d)
    (mtime d) (ctime d) v (size d) (nlink d) (mappings d) (handle d)
    (handleReadable d) (handleWritable d) (cache d) (dirty d).

Definition set_size (v : Z) (d : dentry) : dentry :=
  mkDentry (vfsd_parent d) (vfsd_disowned d) (refs d) (file d) (deleted d)
    (cached d) (ino d) (mode d) (uid d) (gid d) (blockSize d) (atime d)
    (mtime d) (ctime d) (btime d) v (nlink d) (mappings d) (handle d)
    (handleReadable d) (handleWritable d) (cache d) (dirty d).

Definition set_nlink (v : Z) (d : dentry) : dentry :=
  mkDentry (vfsd_parent d) (vfsd_disowned d) (refs d) (file d) (deleted d)
    (cached d) (ino d) (mode d) (uid d) (gid d) (blockSize d) (atime d)
    (mtime d) (ctime d) (btime d) (size d) v (mappings d) (handle d)
    (handleReadable d) (handleWritable d) (cache d) (dirty d).

Definition set_mappings (v : RangeSet) (d : dentry) : dentry :=
  mkDentry (vfsd_parent d) (vfsd_disowned d) (refs d) (file d) (deleted d)
    (cached d) (ino d) (mode d) (uid d) (gid d) (blockSize d) (atime d)
    (mtime d) (ctime d) (btime d) (size d) (nlink d) v (handle d)
    (handleReadable d) (handleWritable d) (cache d) (dirty d).

Definition set_handle (v : Handle) (d : dentry) : dentry :=
  mkDentry (vfsd_parent d) (vfsd_disowned d) (refs d) (file d) (deleted d)
    (cached d) (ino d) (mode d) (uid d) (gid d) (blockSize d) (atime d)
    (mtime d) (ctime d) (btime d) (size d) (nlink d) (mappings d) v
    (handleReadable d) (handleWritable d) (cache d) (dirty d).

Definition set_handleReadable (v : bool) (d : dentry) : dentry :=
  mkDentry (vfsd_parent d) (vfsd_disowned d) (refs d) (file d) (deleted d)
    (cached d) (ino d) (mode d) (uid d) (gid d) (blockSize d) (atime d)
    (mtime d) (ctime d) (btime d) (size d) (nlink d) (mappings d) (handle d)
    v (handleWritable d) (cache d) (dirty d).

Definition set_handleWritable (v : bool) (d : dentry) : dentry :=
  mkDentry (vfsd_parent d) (vfsd_disowned d) (refs d) (file d) (deleted d)
    (cached d) (ino d) (mode d) (uid d) (gid d) (blockSize d) (atime d)
    (mtime d) (ctime d) (btime d) (size d) (nlink d) (mappings d) (handle d)
    (handleReadable d) v (cache d) (dirty d).

Definition set_cache (v : RangeSet) (d : dentry) : dentry :=
  mkDentry (vfsd_parent d) (vfsd_disowned d) (refs d) (file d) (deleted d)
    (cached d) (ino d) (mode d) (uid d) (gid d) (blockSize d) (atime d)
    (mtime d) (ctime d) (btime d) (size d) (nlink d) (mappings d) (handle d)
    (handleReadable d) (handleWritable d) v (dirty d).

Definition set_dirty (v : RangeSet) (d : dentry) : dentry :=
  mkDentry (vfsd_parent d) (vfsd_disowned d) (refs d) (file d) (deleted d)
    (cached d) (ino d) (mode d) (uid d) (gid d) (blockSize d) (atime d)
    (mtime d) (ctime d) (btime d) (size d) (nlink d) (mappings d) (handle d)
    (handleReadable d) (handleWritable d) (cache d) v.

(** ** Timestamps ([time.go]) *)

(** Modelled from the spec: the timestamp conversions are declared in a file
    of the package that is not at hand; dentry timestamps are "nanoseconds
    since the Unix epoch", a [StatxTimestamp] is seconds and nanoseconds. *)
Definition dentryTimestampFromP9 (s ns : Z) : Z :=
  Int.i64 (s * 1000000000 + ns).

(** Modelled from the spec: see [dentryTimestampFromP9]. *)
Definition dentryTimestampFromStatx (ts : linux.StatxTimestamp) : Z :=
  Int.i64 (linux.Sec ts * 1000000000 + linux.Nsec ts).

(** Modelled from the spec: see [dentryTimestampFromP9].  Go's [/] and [%]
    truncate towards zero. *)
Definition statxTimestampFromDentry (ns : Z) : linux.StatxTimestamp :=
  linux.mkStatxTimestamp (Z.quot ns 1000000000)
    (Int.u32 (Z.rem ns 1000000000)).

(** ** The 9P attribute structures ([pkg/p9]) *)

Module p9.

Record AttrMask := mkAttrMask {
  Mode : bool; NLink : bool; UID : bool; GID : bool; ATime : bool;
  MTime : bool; CTime : bool; Size : bool; BTime : bool
}.

Record Attr := mkAttr {
  aMode : Z; aUID : Z; aGID : Z; aNLink : Z; aSize : Z; aBlockSize : Z;
  ATimeSeconds : Z; ATimeNanoSeconds : Z;
  MTimeSeconds : Z; MTimeNanoSeconds : Z;
  CTimeSeconds : Z; CTimeNanoSeconds : Z;
  BTimeSeconds : Z; BTimeNanoSeconds : Z
}.

Record SetAttrMask := mkSetAttrMask {
  mPermissions : bool; mUID : bool; mGID : bool; mSize : bool;
  mATime : bool; mMTime : bool;
  ATimeNotSystemTime : bool; MTimeNotSystemTime : bool
}.

Record SetAttr := mkSetAttr {
  sPermissions : Z; sUID : Z; sGID : Z; sSize : Z;
  sATimeSeconds : Z; sATimeNanoSeconds : Z;
  sMTimeSeconds : Z; sMTimeNanoSeconds : Z
}.

(** [FileMode.FileType]. *)
Definition FileType (m : Z) : Z := Z.land m linux.S_IFMT.

End p9.

(** [dentryAttrMask]. *)
Definition dentryAttrMask : p9.AttrMask :=
  p9.mkAttrMask true false true true true true true true true.

(** ** Events: every call that leaves the gofer client *)

Inductive event : Type :=
| EvCheckSetStat
| EvCheckBeginWrite
| EvEndWrite
| EvGetAttr (f : p9file)
| EvSetAttr (m : p9.SetAttrMask) (a : p9.SetAttr)
| EvInvalidate (mr : Range) (InvalidatePrivate : bool)
| EvInvalidateAll
| EvListXattr (sz : Z)
| EvGetXattr (name : string) (sz : Z)
| EvSetXattr (name value : string) (flags : Z)
| EvRemoveXattr (name : string)
| EvOpenHandle (f : p9file) (r w trunc : bool)
| EvHandleClose (h : Handle)
| EvFileClose (f : p9file)
| EvDup3 (newfd oldfd : Z)
| EvCloseFD (n : Z)
| EvRegenerateMappings (n : Z)
| EvWarning
| EvForceDeleteDentry (victim : nat)
| EvSyncDirtyAll (d : nat).

(** The events that are requests to the 9P server. *)
Definition is_server_event (e : event) : bool :=
  match e with
  | EvGetAttr _ | EvSetAttr _ _ | EvListXattr _ | EvGetXattr _ _
  | EvSetXattr _ _ _ | EvRemoveXattr _ | EvOpenHandle _ _ _ _
  | EvHandleClose _ | EvFileClose _ | EvSyncDirtyAll _ => true
  | _ => false
  end.

Definition contacts_server (t : list event) : bool := existsb is_server_event t.

(** A Go function either returns or panics. *)
Inductive outcome (A : Type) : Type :=
| Returns (a : A)
| Panics (msg : string).
Arguments Returns {A} a.
Arguments Panics {A} msg.

(** ** Metadata *)

(** [dentry.fileType]. *)
Definition fileType (d : dentry) : Z := Z.land (mode d) linux.S_IFMT.

(** [dentry.updateFromP9Attrs]; the panic is raised before any store. *)
Definition updateFromP9Attrs (mask : p9.AttrMask) (attr : p9.Attr)
    (d : dentry) : outcome dentry :=
  if p9.Mode mask && negb (Int.u32 (p9.FileType (p9.aMode attr)) =? fileType d)
  then Panics "gofer.dentry file type changed"
  else
    let d := if p9.Mode mask then set_mode (Int.u32 (p9.aMode attr)) d else d in
    let d := if p9.UID mask then set_uid (Int.u32 (p9.aUID attr)) d else d in
    let d := if p9.GID mask then set_gid (Int.u32 (p9.aGID attr)) d else d in
    let d := if negb (p9.aBlockSize attr =? 0)
             then set_blockSize (Int.u32 (p9.aBlockSize attr)) d else d in
    let d := if p9.ATime mask
             then set_atime (dentryTimestampFromP9 (p9.ATimeSeconds attr)
                               (p9.ATimeNanoSeconds attr)) d else d in
    let d := if p9.MTime mask
             then set_mtime (dentryTimestampFromP9 (p9.MTimeSeconds attr)
                               (p9.MTimeNanoSeconds attr)) d else d in
    let d := if p9.CTime mask
             then set_ctime (dentryTimestampFromP9 (p9.CTimeSeconds attr)
                               (p9.CTimeNanoSeconds attr)) d else d in
    let d := if p9.BTime mask
             then set_btime (dentryTimestampFromP9 (p9.BTimeSeconds attr)
                               (p9.BTimeNanoSeconds attr)) d else d in
    let d := if p9.NLink mask then set_nlink (Int.u32 (p9.aNLink attr)) d else d in
    let d := if p9.Size mask then set_size (p9.aSize attr) d else d in
    Returns d.

(** The server as seen by one operation: what each request is answered. *)
Record Server := mkServer {
  getAttr : p9file -> p9.AttrMask -> errno + (p9.AttrMask * p9.Attr);
  setAttr : p9.SetAttrMask -> p9.SetAttr -> option errno;
  listXattr : Z -> errno + list string;
  getXattr : string -> Z -> errno + string;
  setXattr : string -> string -> Z -> option errno;
  removeXattr : string -> option errno
}.

(** [dentry.updateFromGetattr]: the open handle's fid is preferred. *)
Definition updateFromGetattr (srv : Server) (d : dentry)
    : outcome (option errno * dentry) * list event :=
  let f := if negb (isNil (h_file (handle d))) then h_file (handle d) else file d in
  match getAttr srv f dentryAttrMask with
  | inl err => (Returns (Some err, d), [EvGetAttr f])
  | inr (attrMask, attr) =>
    match updateFromP9Attrs attrMask attr d with
    | Panics msg => (Panics msg, [EvGetAttr f])
    | Returns d' => (Returns (None, d'), [EvGetAttr f])
    end
  end.

Definition statMask : Z :=
  Z.lor linux.STATX_TYPE (Z.lor linux.STATX_MODE (Z.lor linux.STATX_NLINK
  (Z.lor linux.STATX_UID (Z.lor linux.STATX_GID (Z.lor linux.STATX_ATIME
  (Z.lor linux.STATX_MTIME (Z.lor linux.STATX_CTIME (Z.lor linux.STATX_INO
  (Z.lor linux.STATX_SIZE (Z.lor linux.STATX_BLOCKS linux.STATX_BTIME)))))))))).

(** [dentry.statTo], filling the zero [Statx]. *)
Definition statTo (d : dentry) : linux.Statx :=
  let sz := size d in
  linux.mkStatx
    statMask
    (blockSize d)
    (nlink d)
    (uid d)
    (gid d)
    (Int.u16 (mode d))
    (ino d)
    sz
    (Int.u64 (sz + 511) / 512)
    (statxTimestampFromDentry (atime d))
    (statxTimestampFromDentry (btime d))
    (statxTimestampFromDentry (ctime d))
    (statxTimestampFromDentry (mtime d)).

Definition validMask : Z :=
  Z.lor linux.STATX_MODE (Z.lor linux.STATX_UID (Z.lor linux.STATX_GID
  (Z.lor linux.STATX_ATIME (Z.lor linux.STATX_MTIME (Z.lor linux.STATX_CTIME
  (Z.lor linux.STATX_SIZE (Z.lor linux.STATX_BLOCKS linux.STATX_BTIME))))))).

Record StatOptions := mkStatOptions { optMask : Z; optSync : Z }.

(** [fileDescription.Stat]: the snapshot or the error, the dentry after the
    call and the events. *)
Definition Stat (interop : InteropMode) (srv : Server) (d : dentry)
    (opts : StatOptions)
    : outcome (errno + linux.Statx) * dentry * list event :=
  if isShared interop && negb (Z.land (optMask opts) validMask =? 0)
     && negb (optSync opts =? linux.AT_STATX_DONT_SYNC)
  then
    match updateFromGetattr srv d with
    | (Panics msg, t) => (Panics msg, d, t)
    | (Returns (Some err, _), t) => (Returns (inl err), d, t)
    | (Returns (None, d'), t) => (Returns (inr (statTo d')), d', t)
    end
  else (Returns (inr (statTo d)), d, []).

(** ** SetStat *)

(** What surrounds one call of [setStat]: the VFS permission check for the
    caller's credentials, the mount's [CheckBeginWrite], the server and the
    clock. *)
Record SetStatEnv := mkSetStatEnv {
  CheckSetStat : linux.Statx -> Z -> Z -> Z -> option errno;
  CheckBeginWrite : option errno;
  server : Server;
  Now : Z
}.

Definition writableStatxMask : Z :=
  Z.lor linux.STATX_MODE (Z.lor linux.STATX_UID (Z.lor linux.STATX_GID
  (Z.lor linux.STATX_ATIME (Z.lor linux.STATX_MTIME linux.STATX_SIZE)))).

Definition setAttrMaskOf (stat : linux.Statx) : p9.SetAttrMask :=
  p9.mkSetAttrMask
    (Int.has (linux.Mask stat) linux.STATX_MODE)
    (Int.has (linux.Mask stat) linux.STATX_UID)
    (Int.has (linux.Mask stat) linux.STATX_GID)
    (Int.has (linux.Mask stat) linux.STATX_SIZE)
    (Int.has (linux.Mask stat) linux.STATX_ATIME)
    (Int.has (linux.Mask stat) linux.STATX_MTIME)
    (negb (linux.Nsec (linux.Atime stat) =? linux.UTIME_NOW))
    (negb (linux.Nsec (linux.Mtime stat) =? linux.UTIME_NOW)).

Definition setAttrOf (stat : linux.Statx) : p9.SetAttr :=
  p9.mkSetAttr
    (linux.Mode stat)
    (linux.UID stat)
    (linux.GID stat)
    (linux.Size stat)
    (Int.u64 (linux.Sec (linux.Atime stat)))
    (linux.Nsec (linux.Atime stat))
    (Int.u64 (linux.Sec (linux.Mtime stat)))
    (linux.Nsec (linux.Mtime stat)).

(** The tail of [setStat] that runs when the size is in the mask: the size
    is stored and, on a shrink, mappings, cache and dirty set are cut. *)
Definition setStatSize (stat : linux.Statx) (d : dentry)
    : dentry * list event :=
  let oldSize := size d in
  let d := set_size (linux.Size stat) d in
  if size d <? oldSize then
    let oldpgend := pageRoundUp oldSize in
    let newpgend := pageRoundUp (size d) in
    let inval := negb (oldpgend =? newpgend) in
    let d := if inval
             then set_mappings (Invalidate (newpgend, oldpgend) (mappings d)) d
             else d in
    let d := set_cache (Truncate (size d) (cache d)) d in
    let d := set_dirty (KeepClean (size d, oldpgend) (dirty d)) d in
    (d, if inval then [EvInvalidate (newpgend, oldpgend) true] else [])
  else (d, []).

(** The head of [setStat] after the two checks: outside Shared mode the
    timestamps are handled locally, so their bits leave the mask sent to the
    server, and a truncation without an mtime asks for "now".  The result is
    the edited request with [setLocalAtime] and [setLocalMtime]. *)
Definition setStatLocalTimes (interop : InteropMode) (stat : linux.Statx)
    : linux.Statx * bool * bool :=
  if negb (isShared interop) then
    let setLocalAtime := Int.has (linux.Mask stat) linux.STATX_ATIME in
    let setLocalMtime := Int.has (linux.Mask stat) linux.STATX_MTIME in
    let stat :=
      linux.set_Mask
        (Int.andnot (linux.Mask stat)
           (Z.lor linux.STATX_ATIME linux.STATX_MTIME)) stat in
    if negb setLocalMtime && Int.has (linux.Mask stat) linux.STATX_SIZE
    then (linux.set_Mtime_Nsec linux.UTIME_NOW stat, setLocalAtime, true)
    else (stat, setLocalAtime, setLocalMtime)
  else (stat, false, false).

(** The part of [setStat] that follows a successful server call outside
    Shared mode: the stores into the cached metadata. *)
Definition setStatApply (now : Z) (setLocalAtime setLocalMtime : bool)
    (stat : linux.Statx) (d : dentry) : dentry * list event :=
  let d := if Int.has (linux.Mask stat) linux.STATX_MODE
           then set_mode (Z.lor (fileType d) (linux.Mode stat)) d
           else d in
  let d := if Int.has (linux.Mask stat) linux.STATX_UID
           then set_uid (linux.UID stat) d else d in
  let d := if Int.has (linux.Mask stat) linux.STATX_GID
           then set_gid (linux.GID stat) d else d in
  let d := if setLocalAtime
           then if linux.Nsec (linux.Atime stat) =? linux.UTIME_NOW
                then set_atime now d
                else set_atime (dentryTimestampFromStatx (linux.Atime stat)) d
           else d in
  let d := if setLocalMtime
           then if linux.Nsec (linux.Mtime stat) =? linux.UTIME_NOW
                then set_mtime now d
                else set_mtime (dentryTimestampFromStatx (linux.Mtime stat)) d
           else d in
  let d := set_ctime now d in
  if Int.has (linux.Mask stat) linux.STATX_SIZE
  then setStatSize stat d
  else (d, []).

(** [dentry.setStat]: the two mask tests, the permission check and
    [mnt.CheckBeginWrite], the server call with the residual mask, then the
    local stores.  [mnt.EndWrite] is deferred, so it ends every trace in
    which [CheckBeginWrite] succeeded. *)
Definition setStat (interop : InteropMode) (env : SetStatEnv) (d : dentry)
    (stat : linux.Statx) : option errno * dentry * list event :=
  if linux.Mask stat =? 0 then (None, d, [])
  else if negb (Int.andnot (linux.Mask stat) writableStatxMask =? 0)
  then (Some EPERM, d, [])
  else
    match CheckSetStat env stat (Int.u16 (mode d)) (uid d) (gid d) with
    | Some err => (Some err, d, [EvCheckSetStat])
    | None =>
      match CheckBeginWrite env with
      | Some err => (Some err, d, [EvCheckSetStat; EvCheckBeginWrite])
      | None =>
        let pre := [EvCheckSetStat; EvCheckBeginWrite] in
        let '(stat, setLocalAtime, setLocalMtime) :=
          setStatLocalTimes interop stat in
        let call := negb (linux.Mask stat =? 0) in
        let sent :=
          if call then [EvSetAttr (setAttrMaskOf stat) (setAttrOf stat)]
          else [] in
        match (if call
               then setAttr (server env) (setAttrMaskOf stat) (setAttrOf stat)
               else None) with
        | Some err => (Some err, d, pre ++ sent ++ [EvEndWrite])
        | None =>
          if isShared interop then (None, d, pre ++ sent ++ [EvEndWrite])
          else
            let '(d, inv) :=
              setStatApply (Now env) setLocalAtime setLocalMtime stat d in
            (None, d, pre ++ sent ++ inv ++ [EvEndWrite])
        end
      end
    end.

(** [fileDescription.SetStat] hands the request to the dentry. *)
Definition SetStat := setStat.

(** ** Permissions and extended attributes *)

Module vfs.

Definition MayExec : Z := 1.
Definition MayWrite : Z := 2.
Definition MayRead : Z := 4.

(** The part of [auth.Credentials] that the permission check reads. *)
Record Credentials := mkCredentials {
  EffectiveKUID : Z;
  EffectiveKGID : Z;
  ExtraKGIDs : list Z;
  HasCapDacOverride : bool;
  HasCapDacReadSearch : bool
}.

Definition InGroup (creds : Credentials) (kgid : Z) : bool :=
  (EffectiveKGID creds =? kgid) || existsb (Z.eqb kgid) (ExtraKGIDs creds).

(** Modelled from the spec: [vfs.GenericCheckPermissions] belongs to the VFS
    layer, which is not at hand; it is the "standard POSIX check against the
    cached mode/uid/gid (no server round trip)".  The owner, group or other
    bits of the mode are chosen by the caller's identity, and the DAC
    capabilities override a refusal. *)
Definition GenericCheckPermissions (creds : Credentials) (ats : Z)
    (mode kuid kgid : Z) : option errno :=
  let perms := Z.land mode 511 in
  let perms :=
    if EffectiveKUID creds =? kuid then Z.shiftr perms 6
    else if InGroup creds kgid then Z.shiftr perms 3
    else perms in
  if Z.land ats perms =? ats then None
  else
    let isDir := Z.land mode linux.S_IFMT =? linux.S_IFDIR in
    if ((isDir && negb (Int.has ats MayWrite)) || (ats =? MayRead))
       && HasCapDacReadSearch creds
    then None
    else if (isDir || negb (Int.has ats MayExec)
             || negb (Z.land mode 73 =? 0))
            && HasCapDacOverride creds
    then None
    else Some EACCES.

End vfs.

(** [dentry.checkPermissions]. *)
Definition checkPermissions (creds : vfs.Credentials) (ats : Z) (d : dentry)
    : option errno :=
  vfs.GenericCheckPermissions creds ats (Int.u16 (mode d)) (uid d) (gid d).

Definition HasPrefix (s pre : string) : bool := String.prefix pre s.

(** [dentry.listxattr]. *)
Definition listxattr (srv : Server) (sz : Z) : (errno + list string) * list event :=
  match listXattr srv sz with
  | inl err => (inl err, [EvListXattr sz])
  | inr xattrMap =>
    (inr (List.filter (fun x => HasPrefix x linux.XATTR_USER_PREFIX) xattrMap),
     [EvListXattr sz])
  end.

(** [dentry.getxattr]. *)
Definition getxattr (srv : Server) (creds : vfs.Credentials) (d : dentry)
    (name : string) (sz : Z) : (errno + string) * list event :=
  match checkPermissions creds vfs.MayRead d with
  | Some err => (inl err, [])
  | None =>
    if negb (HasPrefix name linux.XATTR_USER_PREFIX) then (inl EOPNOTSUPP, [])
    else (getXattr srv name sz, [EvGetXattr name sz])
  end.

(** [dentry.setxattr]. *)
Definition setxattr (srv : Server) (creds : vfs.Credentials) (d : dentry)
    (name value : string) (flags : Z) : option errno * list event :=
  match checkPermissions creds vfs.MayWrite d with
  | Some err => (Some err, [])
  | None =>
    if negb (HasPrefix name linux.XATTR_USER_PREFIX) then (Some EOPNOTSUPP, [])
    else (setXattr srv name value flags, [EvSetXattr name value flags])
  end.

(** [dentry.removexattr]. *)
Definition removexattr (srv : Server) (creds : vfs.Credentials) (d : dentry)
    (name : string) : option errno * list event :=
  match checkPermissions creds vfs.MayWrite d with
  | Some err => (Some err, [])
  | None =>
    if negb (HasPrefix name linux.XATTR_USER_PREFIX) then (Some EOPNOTSUPP, [])
    else (removeXattr srv name, [EvRemoveXattr name])
  end.

(** ** Reference counting *)

(** [dentry.IncRef]. *)
Definition IncRef (d : dentry) : dentry := set_refs (Int.i64 (refs d + 1)) d.

(** [dentry.TryIncRef].  The loop repeats when the compare-and-swap loses
    against another thread: [others] gives, for each round, the count that
    another thread stored between this round's load and its CAS ([None]: no
    store).  With no interference left the CAS succeeds. *)
Fixpoint TryIncRef (others : list (option Z)) (d : dentry) : bool * dentry :=
  let r := refs d in
  if r <=? 0 then (false, d)
  else
    match others with
    | Some r' :: others' =>
      if r' =? r then (true, set_refs (Int.i64 (r + 1)) d)
      else TryIncRef others' (set_refs r' d)
    | None :: _ | [] => (true, set_refs (Int.i64 (r + 1)) d)
    end.

(** ** The handle-upgrade protocol *)

(** What [ensureSharedHandle] calls outside the dentry: the server-side open
    ([openHandle]) and the host ([syscall.Dup3], the host file mapper). *)
Record HandleEnv := mkHandleEnv {
  openHandle : p9file -> bool -> bool -> bool -> errno + Handle;
  Dup3 : Z -> Z -> option errno;
  RegenerateMappings : Z -> option errno
}.

(** [dentry.ensureSharedHandle]. *)
Definition ensureSharedHandle (overlayfsStaleRead : bool) (env : HandleEnv)
    (d : dentry) (read write trunc : bool)
    : option errno * dentry * list event :=
  if negb trunc
     && ((negb read || handleReadable d) && (negb write || handleWritable d))
  then (None, d, [])
  else
    (* [after] is the code that follows the release of [handleMu]. *)
    let after (haveOldFD : bool) (d : dentry) (t : list event) :=
      if overlayfsStaleRead && haveOldFD
      then (None, set_mappings [] d, t ++ [EvInvalidateAll])
      else (None, d, t) in
    if (read && negb (handleReadable d)) || (write && negb (handleWritable d))
       || trunc
    then
      let wantReadable := handleReadable d || read in
      let wantWritable := handleWritable d || write in
      let opened := [EvOpenHandle (file d) wantReadable wantWritable trunc] in
      let switch (h : Handle) (d : dentry) :=
        set_handleWritable wantWritable
          (set_handleReadable wantReadable (set_handle h d)) in
      match openHandle env (file d) wantReadable wantWritable trunc with
      | inl err => (Some err, d, opened)
      | inr h =>
        if negb (isNil (h_file (handle d))) then
          let haveOldFD := 0 <=? fd (handle d) in
          let haveNewFD := 0 <=? fd h in
          if negb (eqb haveOldFD haveNewFD)
          then (Some EIO, d, opened ++ [EvWarning; EvHandleClose h])
          else if haveOldFD then
            match Dup3 env (fd h) (fd (handle d)) with
            | Some err =>
              (Some err, d,
               opened ++ [EvDup3 (fd h) (fd (handle d)); EvWarning;
                          EvHandleClose h])
            | None =>
              let t := opened ++ [EvDup3 (fd h) (fd (handle d));
                                  EvCloseFD (fd h)] in
              let h := mkHandle (h_file h) (fd (handle d)) in
              match (if overlayfsStaleRead
                     then RegenerateMappings env (fd h) else None) with
              | Some err =>
                (Some err, d,
                 t ++ [EvRegenerateMappings (fd h); EvWarning; EvHandleClose h])
              | None =>
                let t := if overlayfsStaleRead
                         then t ++ [EvRegenerateMappings (fd h)] else t in
                after haveOldFD (switch h d)
                  (t ++ [EvFileClose (h_file (handle d))])
              end
            end
          else after haveOldFD (switch h d) opened
        else after false (switch h d) opened
      end
    else after false d [].

(** ** The dentry cache *)

(** The filesystem as the caching code sees it.  Dentries are referred to by
    address; [heap] holds the object at each address (an object stays
    readable after its destruction), [dentries] is the set [fs.dentries] and
    [cachedDentries] the LRU list, most recently used first.  [trace] has the
    calls that leave the client, [evicted] the victims taken off the tail of
    the list and [calls] the number of times [checkCachingLocked] was
    entered; the last two are bookkeeping of the model. *)
Record filesystem := mkFilesystem {
  maxCachedDentries : Z;
  cachedDentries : list nat;
  cachedDentriesLen : Z;
  dentries : gset nat;
  heap : gmap nat dentry;
  trace : list event;
  evicted : list nat;
  calls : nat
}.

Definition set_list (l : list nat) (fs : filesystem) : filesystem :=
  mkFilesystem (maxCachedDentries fs) l (cachedDentriesLen fs) (dentries fs)
    (heap fs) (trace fs) (evicted fs) (calls fs).

Definition set_len (n : Z) (fs : filesystem) : filesystem :=
  mkFilesystem (maxCachedDentries fs) (cachedDentries fs) n (dentries fs)
    (heap fs) (trace fs) (evicted fs) (calls fs).

Definition set_dentries (s : gset nat) (fs : filesystem) : filesystem :=
  mkFilesystem (maxCachedDentries fs) (cachedDentries fs)
    (cachedDentriesLen fs) s (heap fs) (trace fs) (evicted fs) (calls fs).

Definition store (p : nat) (d : dentry) (fs : filesystem) : filesystem :=
  mkFilesystem (maxCachedDentries fs) (cachedDentries fs)
    (cachedDentriesLen fs) (dentries fs) (<[p := d]> (heap fs)) (trace fs)
    (evicted fs) (calls fs).

Definition emit (e : event) (fs : filesystem) : filesystem :=
  mkFilesystem (maxCachedDentries fs) (cachedDentries fs)
    (cachedDentriesLen fs) (dentries fs) (heap fs) (trace fs ++ [e])
    (evicted fs) (calls fs).

Definition note_evicted (p : nat) (fs : filesystem) : filesystem :=
  mkFilesystem (maxCachedDentries fs) (cachedDentries fs)
    (cachedDentriesLen fs) (dentries fs) (heap fs) (trace fs)
    (evicted fs ++ [p]) (calls fs).

Definition note_call (fs : filesystem) : filesystem :=
  mkFilesystem (maxCachedDentries fs) (cachedDentries fs)
    (cachedDentriesLen fs) (dentries fs) (heap fs) (trace fs) (evicted fs)
    (S (calls fs)).

(** How a run of the caching code ends. *)
Inductive run : Type :=
| Done (fs : filesystem)
| Panic (msg : string)
| OutOfFuel.

(** [dentryList.Remove], [PushFront] and [Back]. *)
Definition Remove (p : nat) (l : list nat) : list nat :=
  List.filter (fun q => negb (Nat.eqb q p)) l.
Definition PushFront (p : nat) (l : list nat) : list nat := p :: l.
Definition Back (l : list nat) : option nat := last l.

(** The three statements that take a cached dentry off the list. *)
Definition uncache (p : nat) (d : dentry) (fs : filesystem) : filesystem :=
  store p (set_cached false d)
    (set_len (Int.u64 (cachedDentriesLen fs - 1))
       (set_list (Remove p (cachedDentries fs)) fs)).

(** [dentry.destroyLocked]; [check] is [checkCachingLocked], called on the
    parent when the reference the dentry held on it was the last one. *)
Definition destroyLocked (check : nat -> filesystem -> run) (p : nat)
    (fs : filesystem) : run :=
  match heap fs !! p with
  | None => Panic "nil dentry"
  | Some d =>
    if refs d =? 0 then
      let d := set_refs (-1) d in
      let '(d, fs) :=
        if negb (isNil (h_file (handle d))) then
          let fs := if handleWritable d then emit (EvSyncDirtyAll p) fs else fs in
          (set_dirty [] (set_cache [] d), emit (EvHandleClose (handle d)) fs)
        else (d, fs) in
      let '(d, fs) :=
        if negb (isNil (file d))
        then (set_file None d, emit (EvFileClose (file d)) fs)
        else (d, fs) in
      let fs := set_dentries (dentries fs ∖ {[p]}) (store p d fs) in
      match vfsd_parent d with
      | None => Done fs
      | Some pp =>
        match heap fs !! pp with
        | None => Panic "nil dentry"
        | Some parent =>
          let r := Int.i64 (refs parent - 1) in
          let fs := store pp (set_refs r parent) fs in
          if r =? 0 then check pp fs
          else if r <? 0
          then Panic "gofer.dentry.DecRef() called without holding a reference"
          else Done fs
        end
      end
    else if refs d =? -1
    then Panic "dentry.destroyLocked() called on already destroyed dentry"
    else Panic "dentry.destroyLocked() called with references on the dentry"
  end.

(** [dentry.checkCachingLocked].  The function and [destroyLocked] call each
    other; every such call follows the destruction of one more dentry, and
    [fuel] bounds their number.  [ForceDeleteDentry] belongs to the VFS layer:
    it is recorded in the trace and leaves the victim disowned, its parent
    pointer in place (a dentry "holds a reference on its parent, even if
    disowned"). *)
Fixpoint checkCachingLocked (fuel : nat) (p : nat) (fs : filesystem) : run :=
  match fuel with
  | O => OutOfFuel
  | S fuel =>
    let fs := note_call fs in
    match heap fs !! p with
    | None => Panic "nil dentry"
    | Some d =>
      if 0 <? refs d then
        Done (if cached d then uncache p d fs else fs)
      else if refs d =? -1 then Done fs
      else if negb (bool_decide (is_Some (vfsd_parent d))) || vfsd_disowned d then
        destroyLocked (checkCachingLocked fuel) p
          (if cached d then uncache p d fs else fs)
      else if cached d then
        Done (set_list (PushFront p (Remove p (cachedDentries fs))) fs)
      else
        let fs := set_list (PushFront p (cachedDentries fs)) fs in
        let fs := set_len (Int.u64 (cachedDentriesLen fs + 1)) fs in
        let fs := store p (set_cached true d) fs in
        if maxCachedDentries fs <? cachedDentriesLen fs then
          match Back (cachedDentries fs) with
          | None => Panic "nil dentry"
          | Some v =>
            match heap fs !! v with
            | None => Panic "nil dentry"
            | Some victim =>
              let fs := note_evicted v (uncache v victim fs) in
              if refs victim =? 0 then
                let fs :=
                  if bool_decide (is_Some (vfsd_parent victim))
                     && negb (vfsd_disowned victim)
                  then emit (EvForceDeleteDentry v)
                         (store v (set_vfsd_disowned true
                                     (set_cached false victim)) fs)
                  else fs in
                destroyLocked (checkCachingLocked fuel) v fs
              else Done fs
            end
          end
        else Done fs
    end
  end.

(** [dentry.DecRef]: the decrement, then the caching decision when the
    count reached zero. *)
Definition DecRef (fuel : nat) (p : nat) (fs : filesystem) : run :=
  match heap fs !! p with
  | None => Panic "nil dentry"
  | Some d =>
    let r := Int.i64 (refs d - 1) in
    let fs := store p (set_refs r d) fs in
    if r =? 0 then checkCachingLocked fuel p fs
    else if r <? 0
    then Panic "gofer.dentry.DecRef() called without holding a reference"
    else Done fs
  end.


(** ** The invariant of the dentry cache *)

(** The list and its counter agree, no dentry is listed twice, the [cached]
    flag of a dentry says whether it is listed, and every listed address
    holds a dentry.  Between the push and the eviction the list is one over
    the cap, and the cap leaves room for that in 64 bits. *)
Record lru_wf (fs : filesystem) : Prop := mk_lru_wf {
  wf_len : cachedDentriesLen fs = Z.of_nat (length (cachedDentries fs));
  wf_max : 0 <= maxCachedDentries fs < 2 ^ 64 - 1;
  wf_room : cachedDentriesLen fs <= maxCachedDentries fs + 1;
  wf_nodup : NoDup (cachedDentries fs);
  wf_cached : forall p d, heap fs !! p = Some d ->
                          (cached d = true <-> p ∈ cachedDentries fs);
  wf_heap : forall p, p ∈ cachedDentries fs -> is_Some (heap fs !! p)
}.

(** The invariant with the bound: the cache holds no more than its cap. *)
Definition lru_ok (fs : filesystem) : Prop :=
  lru_wf fs /\ cachedDentriesLen fs <= maxCachedDentries fs.

(** What a run of the caching code guarantees from [fs] to [fs']: the
    invariant again, the same cap, and no more evictions than entries into
    [checkCachingLocked]. *)
Definition lru_post (fs fs' : filesystem) : Prop :=
  lru_ok fs'
  /\ maxCachedDentries fs' = maxCachedDentries fs
  /\ (length (evicted fs') + calls fs <= length (evicted fs) + calls fs')%nat.


(** ** Sample states used by the examples *)

Definition noHandle : Handle := mkHandle None (-1).

(** A regular file of 8192 bytes, mode 0644, owned by uid 1000, with one
    reference, its two pages cached, dirty and mapped. *)
Definition sampleFile : dentry :=
  mkDentry (Some 0%nat) false 1 (Some 7%nat) 0 false 42 33188 1000 1000 4096
    100 200 300 50 8192 1 [(0, 8192)] noHandle false false [(0, 8192)]
    [(0, 8192)].

Definition okServer : Server :=
  mkServer
    (fun _ _ => inl EIO)
    (fun _ _ => None)
    (fun _ => inr ["user.a"; "security.selinux"])
    (fun _ _ => inr "value")
    (fun _ _ _ => None)
    (fun _ => None).

Definition okEnv : SetStatEnv := mkSetStatEnv (fun _ _ _ _ => None) None okServer 5000.

Definition sizeRequest (n : Z) : linux.Statx :=
  linux.mkStatx linux.STATX_SIZE 0 0 0 0 0 0 n 0 linux.zeroTimestamp
    linux.zeroTimestamp linux.zeroTimestamp linux.zeroTimestamp.

Definition sharedTruncateTrace : list event :=
  [EvCheckSetStat; EvCheckBeginWrite;
   EvSetAttr (setAttrMaskOf (sizeRequest 3000)) (setAttrOf (sizeRequest 3000));
   EvEndWrite].

Definition exclusiveTruncateTrace : list event :=
  [EvCheckSetStat; EvCheckBeginWrite;
   EvSetAttr
     (p9.mkSetAttrMask false false false true false false true false)
     (p9.mkSetAttr 0 0 0 3000 0 0 0 linux.UTIME_NOW);
   EvInvalidate (4096, 8192) true; EvEndWrite].

(** The sample file after its truncation to 3000 bytes at time 5000. *)
Definition truncatedFile : dentry :=
  mkDentry (Some 0%nat) false 1 (Some 7%nat) 0 false 42 33188 1000 1000 4096
    100 5000 5000 50 3000 1 [(0, 4096)] noHandle false false [(0, 4096)]
    [(0, 3000)].

Definition statBits : list Z :=
  [linux.STATX_TYPE; linux.STATX_MODE; linux.STATX_NLINK; linux.STATX_UID;
   linux.STATX_GID; linux.STATX_ATIME; linux.STATX_MTIME; linux.STATX_CTIME;
   linux.STATX_INO; linux.STATX_SIZE; linux.STATX_BLOCKS; linux.STATX_BTIME].


Definition owner : vfs.Credentials := vfs.mkCredentials 1000 1000 [] false false.
Definition stranger : vfs.Credentials := vfs.mkCredentials 2000 2000 [] false false.

(** A file that only its owner may read: mode 0600. *)
Definition privateFile : dentry := set_mode 33152 sampleFile.

(** A file opened read-only with host descriptor 5 on fid 8. *)
Definition readOnlyFile : dentry :=
  set_handleReadable true (set_handle (mkHandle (Some 8%nat) 5) sampleFile).

(** A server that opens the file but donates no host descriptor. *)
Definition noFDEnv : HandleEnv :=
  mkHandleEnv (fun _ _ _ _ => inr (mkHandle (Some 9%nat) (-1)))
    (fun _ _ => None) (fun _ => None).

(** A directory-tree dentry with the given parent and count, nothing open. *)
Definition node (parent : option nat) (r : Z) (inLRU : bool) : dentry :=
  mkDentry parent false r (Some 7%nat) 0 inLRU 42 16877 0 0 4096 0 0 0 0 0 1
    [] noHandle false false [] [].

(** A cache of capacity 1.  Address 0 is the root, 1 the directory P, 2 its
    child A, which is cached, and 3 the root's child B, which is open.  P is
    held by A alone. *)
Definition cascadeFs : filesystem :=
  mkFilesystem 1 [2%nat] 1 {[0%nat; 1%nat; 2%nat; 3%nat]}
    (<[0%nat := node None 4 false]>
       (<[1%nat := node (Some 0%nat) 1 false]>
          (<[2%nat := node (Some 1%nat) 0 true]>
             (<[3%nat := node (Some 0%nat) 1 false]> ∅))))
    [] [] 0.

(** Scenario 2 of the spec: a cap of 2, the root at address 0 and its
    children A, B and C at 1, 2 and 3, each open once. *)
Definition scenarioFs : filesystem :=
  mkFilesystem 2 [] 0 {[0%nat; 1%nat; 2%nat; 3%nat]}
    (<[0%nat := node None 5 false]>
       (<[1%nat := node (Some 0%nat) 1 false]>
          (<[2%nat := node (Some 0%nat) 1 false]>
             (<[3%nat := node (Some 0%nat) 1 false]> ∅))))
    [] [] 0.

(** One run after another. *)
Definition andThen (r : run) (k : filesystem -> run) : run :=
  match r with
  | Done fs => k fs
  | other => other
  end.

(** What a test can observe of a finished run: the LRU list, the addresses
    in [fs.dentries] and the count of every dentry. *)
Definition observe (r : run) : option (list nat * list nat * list (nat * Z)) :=
  match r with
  | Done fs =>
    Some (cachedDentries fs, elements (dentries fs),
          map_to_list (refs <$> heap fs))
  | _ => None
  end.

(** A server that donates host descriptor 6 with every open. *)
Definition fdEnv : HandleEnv :=
  mkHandleEnv (fun _ _ _ _ => inr (mkHandle (Some 9%nat) 6))
    (fun _ _ => None) (fun _ => None).

(** ** Link counts *)

(** [dentry.incLinks]: the count is a [uint32]; the function panics when the
    incremented count is below 2. *)
Definition incLinks (d : dentry) : outcome dentry :=
  let v := Int.u32 (nlink d + 1) in
  if v <? 2
  then Panics "dentry.nlink is invalid (was 0 or overflowed)"
  else Returns (set_nlink v d).

(** [dentry.decLinks]: adds [^uint32(0)], which is 2^32 - 1, and panics when
    the result is 0. *)
Definition decLinks (d : dentry) : outcome dentry :=
  let v := Int.u32 (nlink d + (2 ^ 32 - 1)) in
  if v =? 0
  then Panics "dentry.nlink must be greater than 0"
  else Returns (set_nlink v d).

(** ** Creation of dentries *)

(** [p9.ModeRegular]. *)
Definition ModeRegular : Z := 32768.

(** [filesystem.newDentry].  [fsuid] and [fsgid] are [fs.uid] and [fs.gid],
    [p] is the address of the new object and [path] is [qid.Path].  The new
    dentry has no references and no parent, and joins [fs.dentries]. *)
Definition newDentry (fsuid fsgid : Z) (p : nat) (f : p9file) (path : Z)
    (mask : p9.AttrMask) (attr : p9.Attr) (fs : filesystem)
    : (errno + nat) * filesystem :=
  if negb (p9.Mode mask) then (inl EIO, emit EvWarning fs)
  else if (p9.FileType (p9.aMode attr) =? ModeRegular) && negb (p9.Size mask)
  then (inl EIO, emit EvWarning fs)
  else
    let d :=
      mkDentry None false 0 f 0 false path (Int.u32 (p9.aMode attr))
        (Int.u32 fsuid) (Int.u32 fsgid) PageSize 0 0 0 0 0 0 []
        (mkHandle None (-1)) false false [] [] in
    let d := if p9.UID mask then set_uid (Int.u32 (p9.aUID attr)) d else d in
    let d := if p9.GID mask then set_gid (Int.u32 (p9.aGID attr)) d else d in
    let d := if p9.Size mask then set_size (p9.aSize attr) d else d in
    let d := if negb (p9.aBlockSize attr =? 0)
             then set_blockSize (Int.u32 (p9.aBlockSize attr)) d else d in
    let d := if p9.ATime mask
             then set_atime (dentryTimestampFromP9 (p9.ATimeSeconds attr)
                               (p9.ATimeNanoSeconds attr)) d else d in
    let d := if p9.MTime mask
             then set_mtime (dentryTimestampFromP9 (p9.MTimeSeconds attr)
                               (p9.MTimeNanoSeconds attr)) d else d in
    let d := if p9.CTime mask
             then set_ctime (dentryTimestampFromP9 (p9.CTimeSeconds attr)
                               (p9.CTimeNanoSeconds attr)) d else d in
    let d := if p9.BTime mask
             then set_btime (dentryTimestampFromP9 (p9.BTimeSeconds attr)
                               (p9.BTimeNanoSeconds attr)) d else d in
    let d := if p9.NLink mask then set_nlink (Int.u32 (p9.aNLink attr)) d else d in
    (inr p, set_dentries (dentries fs ∪ {[p]}) (store p d fs)).

(** ** Mount options *)

Module mount.

(** [filesystemOptions]. *)
Record filesystemOptions := mkOptions {
  fd : Z;
  aname : string;
  interop : InteropMode;
  msize : Z;
  version : string;
  maxCachedDentries : Z;
  forcePageCache : bool;
  limitHostFDTranslation : bool;
  overlayfsStaleRead : bool;
  regularFilesUseSpecialFileFD : bool
}.

Section GetFilesystem.

(** Go's [strconv.Atoi] and [strconv.ParseUint] in base 10 at a bit size, and
    [p9.HighestVersionString()]. *)
Variable Atoi : string -> option Z.
Variable ParseUint : string -> Z -> option Z.
Variable HighestVersionString : string.

(** [v, ok := mopts[k]] followed, when [ok], by [delete(mopts, k)]. *)
Definition take (k : string) (mopts : gmap string string)
    : option string * gmap string string :=
  match mopts !! k with
  | Some v => (Some v, delete k mopts)
  | None => (None, mopts)
  end.

(** The part of [FilesystemType.GetFilesystem] that reads the mount options,
    from the parsed option map to the check for unparsed options.  Every
    failure of this part is EINVAL after a warning, here [None]. *)
Definition parseOptions (mopts : gmap string string)
    : option filesystemOptions :=
  let '(trans, mopts) := take "trans" mopts in
  trans ← trans;
  if negb (String.eqb trans "fd") then None else
  let '(rfdstr, mopts) := take "rfdno" mopts in
  rfdstr ← rfdstr;
  rfd ← Atoi rfdstr;
  let '(wfdstr, mopts) := take "wfdno" mopts in
  wfdstr ← wfdstr;
  wfd ← Atoi wfdstr;
  if negb (rfd =? wfd) then None else
  let '(aname, mopts) := take "aname" mopts in
  let aname := default "/" aname in
  let '(cache, mopts) := take "cache" mopts in
  policy ← match cache with
           | None => Some (InteropModeExclusive, false)
           | Some cache =>
             if String.eqb cache "fscache"
             then Some (InteropModeExclusive, false)
             else if String.eqb cache "fscache_writethrough"
             then Some (InteropModeWritethrough, false)
             else if String.eqb cache "none"
             then Some (InteropModeShared, true)
             else if String.eqb cache "remote_revalidating"
             then Some (InteropModeShared, false)
             else None
           end;
  let '(msizestr, mopts) := take "msize" mopts in
  msize ← match msizestr with
          | None => Some (1024 * 1024)
          | Some msizestr => Int.u32 <$> ParseUint msizestr 32
          end;
  let '(version, mopts) := take "version" mopts in
  let version := default HighestVersionString version in
  let '(limit, mopts) := take "dentry_cache_limit" mopts in
  maxCachedDentries ← match limit with
                      | None => Some 1000
                      | Some str => ParseUint str 64
                      end;
  let '(force, mopts) := take "force_page_cache" mopts in
  let '(limitFD, mopts) := take "limit_host_fd_translation" mopts in
  let '(stale, mopts) := take "overlayfs_stale_read" mopts in
  if negb (bool_decide (mopts = ∅)) then None
  else
    Some (mkOptions rfd aname policy.1 msize version maxCachedDentries
            (bool_decide (is_Some force)) (bool_decide (is_Some limitFD))
            (bool_decide (is_Some stale)) policy.2).

End GetFilesystem.

(** The option names that [GetFilesystem] knows. *)
Definition knownOptions : list string :=
  ["trans"; "rfdno"; "wfdno"; "aname"; "cache"; "msize"; "version";
   "dentry_cache_limit"; "force_page_cache"; "limit_host_fd_translation";
   "overlayfs_stale_read"].

End mount.

(** ** Release of the filesystem *)

(** The body of the loop of [filesystem.Release] for the dentry at [p]: dirty
    pages are written back through a writable handle, the cache is dropped
    and an open host descriptor is closed and forgotten. *)
Definition releaseDentry (p : nat) (fs : filesystem) : filesystem :=
  match heap fs !! p with
  | None => fs
  | Some d =>
    let fs := if handleWritable d then emit (EvSyncDirtyAll p) fs else fs in
    let d := set_dirty [] (set_cache [] d) in
    if 0 <=? fd (handle d)
    then store p (set_handle (mkHandle (h_file (handle d)) (-1)) d)
           (emit (EvCloseFD (fd (handle d))) fs)
    else store p d fs
  end.

(** What [Release] does to the connection. *)
Inductive client_event : Type := ClientClose.

(** [filesystem.Release]: the loop over [fs.dentries], whose order Go leaves
    open and which is here the order of [elements], then the close of the
    client. *)
Definition Release (fs : filesystem) : filesystem * list client_event :=
  (foldr releaseDentry fs (elements (dentries fs)), [ClientClose]).

(** ** The life of a destroyed dentry *)

(** No destroyed dentry carries the [cached] flag. *)
Definition destroyed_uncached (fs : filesystem) : Prop :=
  forall q d, heap fs !! q = Some d -> refs d = -1 -> cached d = false.

(** From [fs] to [fs']: destroyed dentries are still uncached, every dentry
    that was destroyed in [fs] is the same object in [fs'], [fs.dentries]
    has not grown, and the evictions of [fs] are the first ones of [fs']. *)
Definition final_post (fs fs' : filesystem) : Prop :=
  destroyed_uncached fs'
  /\ (forall q d, heap fs !! q = Some d -> refs d = -1 -> heap fs' !! q = Some d)
  /\ dentries fs' ⊆ dentries fs
  /\ exists rest, evicted fs' = evicted fs ++ rest.

(** What [releaseDentry] leaves of a dentry. *)
Definition released (d : dentry) : dentry :=
  let d := set_dirty [] (set_cache [] d) in
  if 0 <=? fd (handle d)
  then set_handle (mkHandle (h_file (handle d)) (-1)) d
  else d.

(** ** More sample states *)

(** A server that refuses every setattr. *)
Definition refusingServer : Server :=
  mkServer
    (fun _ _ => inl EIO)
    (fun _ _ => Some (Eserver 28))
    (fun _ => inl EIO)
    (fun _ _ => inl EIO)
    (fun _ _ _ => Some EIO)
    (fun _ => Some EIO).

Definition refusingEnv : SetStatEnv :=
  mkSetStatEnv (fun _ _ _ _ => None) None refusingServer 5000.

(** A request for new access and modification times only. *)
Definition timesRequest : linux.Statx :=
  linux.mkStatx (Z.lor linux.STATX_ATIME linux.STATX_MTIME) 0 0 0 0 0 0 0 0
    (linux.mkStatxTimestamp 7 9) linux.zeroTimestamp linux.zeroTimestamp
    (linux.mkStatxTimestamp 0 linux.UTIME_NOW).

(** The sample file after [timesRequest] at time 5000. *)
Definition touchedFile : dentry :=
  set_ctime 5000 (set_mtime 5000 (set_atime 7000000009 sampleFile)).

(** A chmod to 0600. *)
Definition chmodRequest : linux.Statx :=
  linux.mkStatx linux.STATX_MODE 0 0 0 0 384 0 0 0 linux.zeroTimestamp
    linux.zeroTimestamp linux.zeroTimestamp linux.zeroTimestamp.

Definition chmodTrace : list event :=
  [EvCheckSetStat; EvCheckBeginWrite;
   EvSetAttr
     (p9.mkSetAttrMask true false false false false false true true)
     (p9.mkSetAttr 384 0 0 0 0 0 0 0);
   EvEndWrite].

(** The sample file after [chmodRequest] at time 5000. *)
Definition chmoddedFile : dentry := set_ctime 5000 (set_mode 33152 sampleFile).

(** A request that grows the file to 10000 bytes. *)
Definition grownFile : dentry :=
  set_size 10000 (set_ctime 5000 (set_mtime 5000 sampleFile)).

Definition growTrace : list event :=
  [EvCheckSetStat; EvCheckBeginWrite;
   EvSetAttr
     (p9.mkSetAttrMask false false false true false false true false)
     (p9.mkSetAttr 0 0 0 10000 0 0 0 linux.UTIME_NOW);
   EvEndWrite].

(** The attributes of a regular file of 100 bytes, of which the server
    reports the mode and the size. *)
Definition sizeAttr : p9.Attr := p9.mkAttr 33188 0 0 0 100 0 0 0 0 0 0 0 0 0.

Definition sizeAttrMask : p9.AttrMask :=
  p9.mkAttrMask true false false false false false false true false.

(** A server whose getattr answers [sizeAttr]. *)
Definition sizeServer : Server :=
  mkServer
    (fun _ _ => inr (sizeAttrMask, sizeAttr))
    (fun _ _ => None)
    (fun _ => inr [])
    (fun _ _ => inl EIO)
    (fun _ _ _ => None)
    (fun _ => None).

(** [cascadeFs] after the release of B: A and B are destroyed, P is
    cached. *)
Definition cascadeEnd : filesystem :=
  mkFilesystem 1 [1%nat] 1 {[0%nat; 1%nat]}
    (<[0%nat := node None 3 false]>
       (<[1%nat := node (Some 0%nat) 0 true]>
          (<[2%nat := set_file None
                        (set_vfsd_disowned true (node (Some 1%nat) (-1) false))]>
             (<[3%nat := set_file None
                           (set_vfsd_disowned true
                              (node (Some 0%nat) (-1) false))]> ∅))))
    [EvForceDeleteDentry 2; EvFileClose (Some 7%nat); EvForceDeleteDentry 3;
     EvFileClose (Some 7%nat)]
    [2%nat; 3%nat] 2.

(** A filesystem with a cap of 2 whose root has one child, unlinked while
    open: it is disowned and holds the only reference on itself. *)
Definition orphanFs : filesystem :=
  mkFilesystem 2 [] 0 {[0%nat; 1%nat]}
    (<[0%nat := node None 3 false]>
       (<[1%nat := set_vfsd_disowned true (node (Some 0%nat) 1 false)]> ∅))
    [] [] 0.

(** [orphanFs] after the last reference on the child is dropped. *)
Definition orphanEnd : filesystem :=
  mkFilesystem 2 [] 0 {[0%nat]}
    (<[0%nat := node None 2 false]>
       (<[1%nat := set_file None
                     (set_vfsd_disowned true (node (Some 0%nat) (-1) false))]>
          ∅))
    [EvFileClose (Some 7%nat)] [] 1.

(** A cache with A and B at addresses 1 and 2 on the list, B having been
    picked up again by path resolution. *)
Definition revisitedFs : filesystem :=
  mkFilesystem 2 [1%nat; 2%nat] 2 {[0%nat; 1%nat; 2%nat]}
    (<[0%nat := node None 4 false]>
       (<[1%nat := node (Some 0%nat) 0 true]>
          (<[2%nat := node (Some 0%nat) 1 true]> ∅)))
    [] [] 0.

(** A host on which dup3 fails. *)
Definition dupFailEnv : HandleEnv :=
  mkHandleEnv (fun _ _ _ _ => inr (mkHandle (Some 9%nat) 6))
    (fun _ _ => Some (Eserver 24)) (fun _ => None).

(** A parser of the decimal numbers that the sample option maps use. *)
Definition sampleAtoi (s : string) : option Z :=
  if String.eqb s "3" then Some 3
  else if String.eqb s "4" then Some 4
  else None.

Definition sampleParseUint (s : string) (bits : Z) : option Z :=
  if String.eqb s "65536" then Some 65536 else None.

(** [trans=fd,rfdno=3,wfdno=3,cache=none,overlayfs_stale_read]. *)
Definition sampleOptions : gmap string string :=
  <["trans" := "fd"]> (<["rfdno" := "3"]> (<["wfdno" := "3"]>
    (<["cache" := "none"]> (<["overlayfs_stale_read" := ""]> ∅)))).

Definition sampleParsed : mount.filesystemOptions :=
  mount.mkOptions 3 "/" InteropModeShared 1048576 "9P2000.L" 1000 false false
    true true.

(** A mounted filesystem: the root at address 0 and, at address 2, a file
    opened read-only with host descriptor 5 and two cached pages. *)
Definition mountedFs : filesystem :=
  mkFilesystem 1000 [] 0 {[0%nat; 2%nat]}
    (<[0%nat := node None 3 false]> (<[2%nat := readOnlyFile]> ∅))
    [] [] 0.

(** * Properties *)

(** ** The scenarios of the spec, run on the model *)

(** Scenario 2: after A, B and C are released in this order, A is destroyed,
    C and B are cached, [fs.dentries] holds the root, B and C, and the root
    has one reference less. *)
Example lru_eviction_scenario :
  observe (andThen (andThen (DecRef 5 1 scenarioFs) (DecRef 5 2)) (DecRef 5 3))
  = Some ([3%nat; 2%nat], [2%nat; 3%nat; 0%nat],
          [(2%nat, 0); (3%nat, 0); (1%nat, -1); (0%nat, 4)]).
Proof. vm_compute. reflexivity. Qed.

(** Scenario 4: the upgrade of a read-only handle with a host descriptor
    keeps the descriptor number by dup3, sets both flags and clunks the old
    fid once. *)
Example handle_upgrade_scenario :
  ensureSharedHandle false fdEnv readOnlyFile true true false
  = (None,
     set_handleWritable true
       (set_handleReadable true
          (set_handle (mkHandle (Some 9%nat) 5) readOnlyFile)),
     [EvOpenHandle (Some 7%nat) true true false; EvDup3 6 5; EvCloseFD 6;
      EvFileClose (Some 8%nat)]).
Proof. reflexivity. Qed.

(** ** SetStat: the mask *)

(** C10: a SetStat request with an empty mask returns success at once: the
    trace is empty (no server round trip, no permission check) and the dentry
    is returned as it was. *)
Theorem setStat_empty_mask (interop : InteropMode) (env : SetStatEnv)
    (d : dentry) (stat : linux.Statx) :
  linux.Mask stat = 0 ->
  setStat interop env d stat = (None, d, []).
Proof.
  intros Hmask. unfold setStat. rewrite Hmask. reflexivity.
Qed.

Lemma setStat_empty_mask_witness :
  setStat InteropModeExclusive okEnv sampleFile linux.zeroStatx
  = (None, sampleFile, []).
Proof. apply setStat_empty_mask. reflexivity. Defined.

Lemma outside_bit_andnot (mask allowed : Z) :
  (exists n, Z.testbit mask n = true /\ Z.testbit allowed n = false) ->
  Int.andnot mask allowed <> 0.
Proof.
  intros [n [Hm Ha]] Hz.
  assert (Hbit : Z.testbit (Int.andnot mask allowed) n = true).
  { unfold Int.andnot. rewrite Z.ldiff_spec, Hm, Ha. reflexivity. }
  rewrite Hz, Z.testbit_0_l in Hbit. discriminate.
Qed.

(** C6: a SetStat request whose non-zero mask has a bit outside mode, uid,
    gid, atime, mtime and size fails with EPERM; the trace is empty (the
    server was not contacted) and the dentry is unchanged. *)
Theorem setStat_foreign_bit_EPERM (interop : InteropMode) (env : SetStatEnv)
    (d : dentry) (stat : linux.Statx) :
  linux.Mask stat <> 0 ->
  (exists n, Z.testbit (linux.Mask stat) n = true
             /\ Z.testbit writableStatxMask n = false) ->
  setStat interop env d stat = (Some EPERM, d, []).
Proof.
  intros Hnz Hout. apply outside_bit_andnot in Hout.
  unfold setStat.
  destruct (Z.eqb_spec (linux.Mask stat) 0) as [E | _]; [contradiction |].
  destruct (Z.eqb_spec (Int.andnot (linux.Mask stat) writableStatxMask) 0)
    as [E | _]; [contradiction | reflexivity].
Qed.

Lemma setStat_foreign_bit_EPERM_witness :
  setStat InteropModeExclusive okEnv sampleFile
    (linux.set_Mask (Z.lor linux.STATX_SIZE linux.STATX_CTIME) (sizeRequest 0))
  = (Some EPERM, sampleFile, []).
Proof.
  apply setStat_foreign_bit_EPERM.
  - discriminate.
  - exists 7. split; reflexivity.
Defined.

(** ** SetStat: metadata *)

(** C5: in Shared interop mode a successful SetStat returns the dentry as it
    was: mode, uid, gid, the three timestamps and the size keep their
    values. *)
Theorem setStat_shared_no_local_update (env : SetStatEnv) (d d' : dentry)
    (stat : linux.Statx) (t : list event) :
  setStat InteropModeShared env d stat = (None, d', t) ->
  d' = d
  /\ mode d' = mode d /\ uid d' = uid d /\ gid d' = gid d
  /\ atime d' = atime d /\ mtime d' = mtime d /\ ctime d' = ctime d
  /\ size d' = size d.
Proof.
  unfold setStat. cbn [isShared negb andb orb].
  intros H.
  assert (d' = d) as ->; [| by repeat split].
  repeat case_match; simplify_eq; reflexivity.
Qed.

Lemma setStat_shared_no_local_update_witness :
  setStat InteropModeShared okEnv sampleFile (sizeRequest 3000)
  = (None, sampleFile, sharedTruncateTrace)
  /\ size sampleFile = 8192.
Proof.
  assert (H : setStat InteropModeShared okEnv sampleFile (sizeRequest 3000)
              = (None, sampleFile, sharedTruncateTrace)) by reflexivity.
  split; [exact H |].
  destruct (setStat_shared_no_local_update okEnv sampleFile sampleFile
              (sizeRequest 3000) sharedTruncateTrace H)
    as (_ & _ & _ & _ & _ & _ & _ & Hsize).
  exact Hsize.
Defined.

Lemma has_size_without_timestamps (m : Z) :
  Int.has (Int.andnot m (Z.lor linux.STATX_ATIME linux.STATX_MTIME))
    linux.STATX_SIZE
  = Int.has m linux.STATX_SIZE.
Proof.
  unfold Int.has, Int.andnot. f_equal. f_equal.
  apply Z.bits_inj'. intros n _.
  rewrite !Z.land_spec, Z.ldiff_spec.
  destruct (Z.eq_dec n 9) as [-> | Hn].
  - cbn. rewrite andb_true_r. reflexivity.
  - change linux.STATX_SIZE with (2 ^ 9).
    rewrite Z.pow2_bits_false by congruence. rewrite !andb_false_r. reflexivity.
Qed.

(** A successful SetStat outside Shared mode returns what [setStatApply]
    computes from the request edited by [setStatLocalTimes]. *)
Lemma setStat_local_success (interop : InteropMode) (env : SetStatEnv)
    (d d' : dentry) (stat : linux.Statx) (t : list event) :
  isShared interop = false ->
  linux.Mask stat <> 0 ->
  setStat interop env d stat = (None, d', t) ->
  d' = (setStatApply (Now env) (setStatLocalTimes interop stat).1.2
          (setStatLocalTimes interop stat).2
          (setStatLocalTimes interop stat).1.1 d).1.
Proof.
  intros Hlocal Hnz. unfold setStat.
  destruct (Z.eqb_spec (linux.Mask stat) 0) as [E | _]; [contradiction |].
  destruct (negb _); [discriminate |].
  destruct (CheckSetStat _ _ _ _ _); [discriminate |].
  destruct (CheckBeginWrite _); [discriminate |].
  destruct (setStatLocalTimes interop stat) as [[stat' a] m]. cbn [fst snd].
  rewrite Hlocal.
  destruct (if negb _ then _ else _); [discriminate |].
  destruct (setStatApply _ _ _ _ _) as [d1 inv]. cbn [fst].
  intros H; injection H as <- _. reflexivity.
Qed.

Lemma has_nonzero (m bit : Z) : Int.has m bit = true -> m <> 0.
Proof.
  unfold Int.has. intros H ->. rewrite Z.land_0_l in H. discriminate.
Qed.





(** ** Stat *)

Lemma statTo_mask (d : dentry) :
  Forall (fun bit => Z.land (linux.Mask (statTo d)) bit = bit) statBits.
Proof. repeat constructor. Qed.

Lemma statTo_blocks (d : dentry) :
  linux.Blocks (statTo d) = Int.u64 (linux.Size (statTo d) + 511) / 512.
Proof. reflexivity. Qed.

(** C9: the snapshot of a successful Stat has type, mode, nlink, uid, gid,
    atime, mtime, ctime, ino, size, blocks and btime in its mask, and its
    blocks field is (size+511)/512 of its own size, in the 64-bit unsigned
    arithmetic of the code; for a size up to 2^64 - 512 that is the exact
    quotient. *)
Theorem Stat_snapshot (interop : InteropMode) (srv : Server) (d d' : dentry)
    (opts : StatOptions) (stat : linux.Statx) (t : list event) :
  Stat interop srv d opts = (Returns (inr stat), d', t) ->
  Forall (fun bit => Z.land (linux.Mask stat) bit = bit) statBits
  /\ linux.Blocks stat = Int.u64 (linux.Size stat + 511) / 512
  /\ (0 <= linux.Size stat <= 2 ^ 64 - 512 ->
      linux.Blocks stat = (linux.Size stat + 511) / 512).
Proof.
  intros Hrun.
  assert (Hsnap : exists d0, stat = statTo d0).
  { unfold Stat in Hrun.
    destruct (_ && _ && _).
    - destruct (updateFromGetattr srv d) as [[[[err |] d1] | msg] t1];
        simplify_eq; eauto.
    - simplify_eq; eauto. }
  destruct Hsnap as [d0 ->].
  split; [apply statTo_mask |]. split; [apply statTo_blocks |].
  intros Hsize. rewrite statTo_blocks. unfold Int.u64.
  rewrite Z.mod_small; [reflexivity | lia].
Qed.

Lemma Stat_snapshot_witness :
  Stat InteropModeExclusive okServer sampleFile (mkStatOptions 2047 0)
  = (Returns (inr (statTo sampleFile)), sampleFile, [])
  /\ linux.Blocks (statTo sampleFile) = 16.
Proof.
  assert (H : Stat InteropModeExclusive okServer sampleFile
                (mkStatOptions 2047 0)
              = (Returns (inr (statTo sampleFile)), sampleFile, []))
    by reflexivity.
  split; [exact H |].
  destruct (Stat_snapshot _ _ _ _ _ _ _ H) as (_ & _ & Hexact).
  rewrite Hexact; [reflexivity | cbn; lia].
Defined.

(** ** Reference counts *)




Lemma TryIncRef_live (d : dentry) :
  0 < refs d < Int.MaxInt64 ->
  TryIncRef [] d = (true, set_refs (refs d + 1) d).
Proof.
  intros Hrefs. cbn.
  destruct (Z.leb_spec (refs d) 0); [lia |].
  f_equal. f_equal. unfold Int.i64, Int.MaxInt64 in *.
  rewrite Z.mod_small; lia.
Qed.

(** ** Extended attributes *)

(** C8, as the code has it: for a name without the "user." prefix the three
    operations fail without a request to the server (the trace is empty);
    the error is EOPNOTSUPP when the permission check passes, and the error
    of the permission check otherwise. *)
Theorem xattr_foreign_name (srv : Server) (creds : vfs.Credentials)
    (d : dentry) (name value : string) (sz flags : Z) :
  HasPrefix name linux.XATTR_USER_PREFIX = false ->
  getxattr srv creds d name sz
  = (inl (default EOPNOTSUPP (checkPermissions creds vfs.MayRead d)), [])
  /\ setxattr srv creds d name value flags
     = (Some (default EOPNOTSUPP (checkPermissions creds vfs.MayWrite d)), [])
  /\ removexattr srv creds d name
     = (Some (default EOPNOTSUPP (checkPermissions creds vfs.MayWrite d)), []).
Proof.
  intros Hname. unfold getxattr, setxattr, removexattr. rewrite Hname.
  repeat split;
    [destruct (checkPermissions creds vfs.MayRead d)
    | destruct (checkPermissions creds vfs.MayWrite d)
    | destruct (checkPermissions creds vfs.MayWrite d)]; reflexivity.
Qed.

Lemma xattr_foreign_name_witness :
  HasPrefix "security.selinux" linux.XATTR_USER_PREFIX = false
  /\ getxattr okServer owner sampleFile "security.selinux" 64
     = (inl EOPNOTSUPP, []).
Proof.
  split; [reflexivity |].
  apply (xattr_foreign_name okServer owner sampleFile "security.selinux"
           "" 64 0).
  reflexivity.
Defined.

(** C8 as stated fails: a caller who may not read the file gets the
    permission error for getxattr("security.selinux"), not EOPNOTSUPP. *)
Lemma getxattr_selinux_permission_first :
  getxattr okServer stranger privateFile "security.selinux" 64
  = (inl EACCES, [])
  /\ getxattr okServer stranger privateFile "security.selinux" 64
     <> (inl EOPNOTSUPP, []).
Proof. split; [reflexivity | discriminate]. Qed.

(** ** The handle-upgrade protocol *)

(** C1: when [ensureSharedHandle] opens a new handle while an old handle is
    open and exactly one of the two has a host file descriptor, it closes the
    new handle and fails with EIO; the dentry, and with it the installed
    handle and the readable and writable flags, is unchanged. *)
Theorem ensureSharedHandle_fd_mismatch (overlayfsStaleRead : bool)
    (env : HandleEnv) (d : dentry) (read write trunc : bool) (h : Handle) :
  (read && negb (handleReadable d)) || (write && negb (handleWritable d))
    || trunc = true ->
  openHandle env (file d) (handleReadable d || read)
    (handleWritable d || write) trunc = inr h ->
  isNil (h_file (handle d)) = false ->
  (0 <=? fd (handle d)) <> (0 <=? fd h) ->
  ensureSharedHandle overlayfsStaleRead env d read write trunc
  = (Some EIO, d,
     [EvOpenHandle (file d) (handleReadable d || read)
        (handleWritable d || write) trunc;
      EvWarning; EvHandleClose h])
  /\ handle (ensureSharedHandle overlayfsStaleRead env d read write trunc).1.2
     = handle d
  /\ handleReadable
       (ensureSharedHandle overlayfsStaleRead env d read write trunc).1.2
     = handleReadable d
  /\ handleWritable
       (ensureSharedHandle overlayfsStaleRead env d read write trunc).1.2
     = handleWritable d.
Proof.
  intros Hneed Hopen Hold Hfd.
  assert (Hrun :
    ensureSharedHandle overlayfsStaleRead env d read write trunc
    = (Some EIO, d,
       [EvOpenHandle (file d) (handleReadable d || read)
          (handleWritable d || write) trunc;
        EvWarning; EvHandleClose h])).
  { unfold ensureSharedHandle.
    assert (Hfast :
      negb trunc && ((negb read || handleReadable d)
                     && (negb write || handleWritable d)) = false).
    { destruct trunc, read, write, (handleReadable d), (handleWritable d);
        try reflexivity; discriminate Hneed. }
    rewrite Hfast, Hneed, Hopen, Hold. cbn [negb].
    destruct (0 <=? fd (handle d)), (0 <=? fd h);
      try reflexivity; contradiction. }
  rewrite Hrun. repeat split.
Qed.

Lemma ensureSharedHandle_fd_mismatch_witness :
  ensureSharedHandle false noFDEnv readOnlyFile true true false
  = (Some EIO, readOnlyFile,
     [EvOpenHandle (Some 7%nat) true true false; EvWarning;
      EvHandleClose (mkHandle (Some 9%nat) (-1))]).
Proof.
  apply (ensureSharedHandle_fd_mismatch false noFDEnv readOnlyFile true true
           false (mkHandle (Some 9%nat) (-1)));
    [reflexivity | reflexivity | reflexivity | discriminate].
Defined.

(** ** Truncation *)







(** Outside Shared mode the request that reaches the local stores has the
    size bit and the size of the caller's request. *)
Lemma setStatLocalTimes_size (interop : InteropMode) (stat : linux.Statx) :
  isShared interop = false ->
  Int.has (linux.Mask (setStatLocalTimes interop stat).1.1) linux.STATX_SIZE
  = Int.has (linux.Mask stat) linux.STATX_SIZE
  /\ linux.Size (setStatLocalTimes interop stat).1.1 = linux.Size stat.
Proof.
  intros Hlocal. unfold setStatLocalTimes. rewrite Hlocal.
  cbn [negb linux.Mask linux.set_Mask].
  rewrite has_size_without_timestamps.
  destruct (negb _ && _); cbn; rewrite ?has_size_without_timestamps; auto.
Qed.

(** The stores that precede the size leave size, cache, dirty set and
    mappings alone. *)
Lemma setStatApply_size_part (now : Z) (a m : bool) (stat : linux.Statx)
    (d : dentry) :
  Int.has (linux.Mask stat) linux.STATX_SIZE = true ->
  exists d0,
    setStatApply now a m stat d = setStatSize stat d0
    /\ size d0 = size d /\ cache d0 = cache d /\ dirty d0 = dirty d
    /\ mappings d0 = mappings d.
Proof.
  intros Hsize. unfold setStatApply. rewrite Hsize.
  eexists. split; [reflexivity |].
  repeat case_match; repeat split.
Qed.





(** ** The dentry cache *)

Lemma elem_of_Remove (p q : nat) (l : list nat) :
  q ∈ Remove p l <-> q ∈ l /\ q <> p.
Proof.
  unfold Remove. rewrite !list_elem_of_In, filter_In, negb_true_iff.
  rewrite Nat.eqb_neq. reflexivity.
Qed.

Lemma NoDup_Remove (p : nat) (l : list nat) : NoDup l -> NoDup (Remove p l).
Proof.
  rewrite !NoDup_ListNoDup. apply List.NoDup_filter.
Qed.

Lemma Remove_absent (p : nat) (l : list nat) : p ∉ l -> Remove p l = l.
Proof.
  induction l as [| q l IH]; [reflexivity |].
  rewrite not_elem_of_cons. intros [Hne Hnotin]. cbn.
  destruct (Nat.eqb_spec q p) as [-> | _]; [contradiction |].
  cbn. f_equal. apply IH, Hnotin.
Qed.

Lemma length_Remove (p : nat) (l : list nat) :
  NoDup l -> p ∈ l -> S (length (Remove p l)) = length l.
Proof.
  induction l as [| q l IH]; intros Hnd Hin.
  - apply elem_of_nil in Hin. contradiction.
  - apply NoDup_cons in Hnd as [Hq Hnd]. cbn.
    destruct (Nat.eqb_spec q p) as [-> | Hne]; cbn.
    + fold (Remove p l). rewrite Remove_absent by assumption. reflexivity.
    + fold (Remove p l). f_equal. apply IH; [assumption |].
      apply elem_of_cons in Hin as [-> | Hin]; [contradiction | assumption].
Qed.

(** *** Steps that keep the invariant *)

Lemma lru_wf_store (p : nat) (d d' : dentry) (fs : filesystem) :
  lru_wf fs -> heap fs !! p = Some d -> cached d' = cached d ->
  lru_wf (store p d' fs).
Proof.
  intros [Hlen Hmax Hroom Hnd Hc Hh] Hp Hflag. constructor; cbn; try assumption.
  - intros q dq. destruct (decide (p = q)) as [-> | Hne].
    + rewrite lookup_insert_eq. intros [= <-]. rewrite Hflag. apply Hc, Hp.
    + rewrite lookup_insert_ne by assumption. apply Hc.
  - intros q Hq. destruct (decide (p = q)) as [-> | Hne].
    + rewrite lookup_insert_eq. eauto.
    + rewrite lookup_insert_ne by assumption. apply Hh, Hq.
Qed.

Lemma lru_wf_uncache (p : nat) (d : dentry) (fs : filesystem) :
  lru_wf fs -> heap fs !! p = Some d -> cached d = true ->
  lru_wf (uncache p d fs)
  /\ cachedDentriesLen (uncache p d fs) = cachedDentriesLen fs - 1.
Proof.
  intros [Hlen Hmax Hroom Hnd Hc Hh] Hp Hflag.
  assert (Hin : p ∈ cachedDentries fs) by (apply (Hc p d); assumption).
  pose proof (length_Remove p _ Hnd Hin) as Hrem.
  assert (Hu : Int.u64 (cachedDentriesLen fs - 1) = cachedDentriesLen fs - 1).
  { unfold Int.u64. apply Z.mod_small. lia. }
  split; [| exact Hu].
  constructor; cbn; try assumption.
  - rewrite Hu, Hlen. lia.
  - rewrite Hu. lia.
  - apply NoDup_Remove, Hnd.
  - intros q dq. rewrite elem_of_Remove.
    destruct (decide (p = q)) as [-> | Hne].
    + rewrite lookup_insert_eq. intros [= <-]. cbn. split; [discriminate |].
      intros [_ Hq]. contradiction.
    + rewrite lookup_insert_ne by assumption. intros Hq.
      rewrite (Hc q dq Hq). split; [intros; split; [assumption | congruence] |].
      intros [? _]. assumption.
  - intros q Hq. apply elem_of_Remove in Hq as [Hq Hne].
    rewrite lookup_insert_ne by congruence. apply Hh, Hq.
Qed.

Lemma lru_wf_push (p : nat) (d : dentry) (fs : filesystem) :
  lru_ok fs -> heap fs !! p = Some d -> cached d = false ->
  let fs' :=
    store p (set_cached true d)
      (set_len (Int.u64 (cachedDentriesLen fs + 1))
         (set_list (PushFront p (cachedDentries fs)) fs)) in
  lru_wf fs' /\ cachedDentriesLen fs' = cachedDentriesLen fs + 1.
Proof.
  intros [[Hlen Hmax Hroom Hnd Hc Hh] Hcap] Hp Hflag fs'.
  assert (Hnotin : p ∉ cachedDentries fs).
  { intros Hin. apply (Hc p d Hp) in Hin. congruence. }
  assert (Hu : Int.u64 (cachedDentriesLen fs + 1) = cachedDentriesLen fs + 1).
  { unfold Int.u64. apply Z.mod_small. lia. }
  split; [| exact Hu].
  constructor; cbn; try assumption.
  - rewrite Hu, Hlen. lia.
  - rewrite Hu. lia.
  - apply NoDup_cons. split; assumption.
  - intros q dq. unfold PushFront. rewrite elem_of_cons.
    destruct (decide (p = q)) as [-> | Hne].
    + rewrite lookup_insert_eq. intros [= <-]. cbn. split; auto.
    + rewrite lookup_insert_ne by assumption. intros Hq.
      rewrite (Hc q dq Hq). split; [auto |]. intros [-> | ?]; [congruence | auto].
  - intros q Hq. apply elem_of_cons in Hq.
    destruct (decide (p = q)) as [-> | Hne].
    + rewrite lookup_insert_eq. eauto.
    + rewrite lookup_insert_ne by assumption.
      destruct Hq as [-> | Hq]; [congruence | apply Hh, Hq].
Qed.

Lemma lru_wf_front (p : nat) (d : dentry) (fs : filesystem) :
  lru_wf fs -> heap fs !! p = Some d -> cached d = true ->
  lru_wf (set_list (PushFront p (Remove p (cachedDentries fs))) fs).
Proof.
  intros [Hlen Hmax Hroom Hnd Hc Hh] Hp Hflag.
  assert (Hin : p ∈ cachedDentries fs) by (apply (Hc p d); assumption).
  assert (Hmem : forall q, q ∈ PushFront p (Remove p (cachedDentries fs))
                           <-> q ∈ cachedDentries fs).
  { intros q. unfold PushFront. rewrite elem_of_cons, elem_of_Remove.
    destruct (decide (q = p)) as [-> | Hne]; [tauto | tauto]. }
  constructor; cbn; try assumption.
  - rewrite Hlen. cbn [length]. rewrite (length_Remove p _ Hnd Hin).
    reflexivity.
  - apply NoDup_cons. split; [| apply NoDup_Remove, Hnd].
    rewrite elem_of_Remove. tauto.
  - intros q dq Hq. rewrite Hmem. apply Hc, Hq.
  - intros q Hq. apply Hh, Hmem, Hq.
Qed.

(** The bookkeeping fields are no part of the invariant. *)
Lemma lru_wf_same (fs fs' : filesystem) :
  maxCachedDentries fs' = maxCachedDentries fs ->
  cachedDentries fs' = cachedDentries fs ->
  cachedDentriesLen fs' = cachedDentriesLen fs ->
  heap fs' = heap fs ->
  lru_wf fs -> lru_wf fs'.
Proof.
  intros Hm Hl Hn Hh [Hlen Hmax Hroom Hnd Hc Hhp].
  constructor; rewrite ?Hm, ?Hl, ?Hn, ?Hh; assumption.
Qed.

Lemma lru_post_refl (fs : filesystem) : lru_ok fs -> lru_post fs fs.
Proof. intros H. split; [exact H | split; [reflexivity | lia]]. Qed.

(** *** [destroyLocked] and [checkCachingLocked] *)

Lemma destroyLocked_post (check : nat -> filesystem -> run) (p : nat)
    (fs fs' : filesystem) :
  (forall q fs1 fs2, lru_ok fs1 -> check q fs1 = Done fs2 -> lru_post fs1 fs2) ->
  lru_ok fs ->
  destroyLocked check p fs = Done fs' ->
  lru_post fs fs'.
Proof.
  intros Hcheck [Hwf Hcap]. unfold destroyLocked.
  destruct (heap fs !! p) as [d |] eqn:Hp; [| discriminate].
  destruct (refs d =? 0); [| destruct (refs d =? -1); discriminate].
  set (d1 := set_refs (-1) d).
  (* the handle and the fid are closed; neither touches the list *)
  assert (Hclosed : forall d2 fs2,
    cached d2 = cached d -> vfsd_parent d2 = vfsd_parent d ->
    lru_ok fs2 -> heap fs2 !! p = Some d ->
    maxCachedDentries fs2 = maxCachedDentries fs ->
    evicted fs2 = evicted fs -> calls fs2 = calls fs ->
    match vfsd_parent d2 with
    | None => Done (set_dentries (dentries fs2 ∖ {[p]}) (store p d2 fs2))
    | Some pp =>
      match heap (set_dentries (dentries fs2 ∖ {[p]}) (store p d2 fs2)) !! pp with
      | None => Panic "nil dentry"
      | Some parent =>
        let r := Int.i64 (refs parent - 1) in
        let fs3 := store pp (set_refs r parent)
                     (set_dentries (dentries fs2 ∖ {[p]}) (store p d2 fs2)) in
        if r =? 0 then check pp fs3
        else if r <? 0
        then Panic "gofer.dentry.DecRef() called without holding a reference"
        else Done fs3
      end
    end = Done fs' -> lru_post fs fs').
  { intros d2 fs2 Hflag Hpar [Hwf2 Hcap2] Hp2 Hm He Hc.
    assert (Hwf3 : lru_wf (set_dentries (dentries fs2 ∖ {[p]}) (store p d2 fs2))).
    { eapply lru_wf_same; [| | | | eapply (lru_wf_store p d d2 fs2); eauto];
        reflexivity. }
    destruct (vfsd_parent d2) as [pp |].
    - destruct (heap _ !! pp) as [parent |] eqn:Hpp; [| discriminate].
      cbn zeta.
      assert (Hok4 : lru_ok (store pp (set_refs (Int.i64 (refs parent - 1)) parent)
                       (set_dentries (dentries fs2 ∖ {[p]}) (store p d2 fs2)))).
      { split; [eapply lru_wf_store; eauto | exact Hcap2]. }
      destruct (_ =? 0).
      + intros Hrun. apply Hcheck in Hrun; [| exact Hok4].
        destruct Hrun as (Hok' & Hm' & Hcnt). cbn in Hm', Hcnt.
        split; [exact Hok' | split; [congruence |]].
        rewrite <- He, <- Hc. exact Hcnt.
      + destruct (_ <? 0); [discriminate |]. intros [= <-].
        split; [exact Hok4 | split; [exact Hm |]].
        cbn. rewrite He, Hc. lia.
    - intros [= <-]. split; [split; [exact Hwf3 | exact Hcap2] |].
      split; [exact Hm |]. cbn. rewrite He, Hc. lia. }
  destruct (negb (isNil (h_file (handle d1)))) eqn:Hopen;
    destruct (negb (isNil (file _))) eqn:Hfile; cbn [fst snd];
    apply Hclosed; try reflexivity; try assumption;
    repeat (destruct (handleWritable _)); cbn;
    try (split; [eapply lru_wf_same; [| | | | exact Hwf]; reflexivity | exact Hcap]);
    try assumption; reflexivity.
Qed.

Lemma lru_post_step (fs fs1 fs' : filesystem) (k : nat) :
  maxCachedDentries fs1 = maxCachedDentries fs ->
  (length (evicted fs1) + calls fs + k <= length (evicted fs) + calls fs1)%nat ->
  lru_post fs1 fs' -> lru_post fs fs'.
Proof.
  intros Hm Hcnt (Hok & Hm' & Hcnt').
  split; [exact Hok | split; [congruence | lia]].
Qed.

Lemma checkCachingLocked_post (fuel : nat) :
  forall (p : nat) (fs fs' : filesystem),
    lru_ok fs -> checkCachingLocked fuel p fs = Done fs' -> lru_post fs fs'.
Proof.
  induction fuel as [| fuel IH]; intros p fs fs' Hok; [discriminate |].
  pose proof Hok as [Hwf Hcap].
  cbn [checkCachingLocked].
  assert (Hok0 : lru_ok (note_call fs)).
  { split; [eapply lru_wf_same; [| | | | exact Hwf]; reflexivity | exact Hcap]. }
  change (heap (note_call fs)) with (heap fs).
  destruct (heap fs !! p) as [d |] eqn:Hp; [| discriminate].
  assert (Hunc : cached d = true ->
    lru_ok (uncache p d (note_call fs))).
  { intros Hflag.
    destruct (lru_wf_uncache p d (note_call fs)) as [Hwf1 Hlen1];
      [apply Hok0 | exact Hp | exact Hflag |].
    split; [exact Hwf1 |]. rewrite Hlen1. cbn. lia. }
  assert (Hmaybe : lru_ok (if cached d then uncache p d (note_call fs)
                           else note_call fs)).
  { destruct (cached d) eqn:Hflag; [apply Hunc; reflexivity | exact Hok0]. }
  assert (Hstep : forall fs1, lru_ok fs1 ->
    maxCachedDentries fs1 = maxCachedDentries fs ->
    evicted fs1 = evicted fs -> calls fs1 = S (calls fs) ->
    lru_post fs fs1).
  { intros fs1 Hok1 Hm He Hc.
    split; [exact Hok1 | split; [exact Hm | rewrite He, Hc; lia]]. }
  destruct (0 <? refs d).
  { intros [= <-]. apply Hstep; [exact Hmaybe | | |];
      destruct (cached d); reflexivity. }
  destruct (refs d =? -1).
  { intros [= <-]. apply Hstep; [exact Hok0 | | |]; reflexivity. }
  destruct (negb (bool_decide (is_Some (vfsd_parent d))) || vfsd_disowned d).
  { intros Hrun.
    apply (destroyLocked_post _ _ _ _ (IH)) in Hrun; [| exact Hmaybe].
    eapply (lru_post_step _ _ _ 0); [| | exact Hrun];
      destruct (cached d); cbn; try reflexivity; lia. }
  destruct (cached d) eqn:Hflag.
  { intros [= <-]. apply Hstep; [| reflexivity | reflexivity | reflexivity].
    split; [| exact Hcap].
    apply (lru_wf_front p d (note_call fs)); [apply Hok0 | exact Hp | exact Hflag]. }
  (* push, then evict when over the cap *)
  destruct (lru_wf_push p d (note_call fs) Hok0 Hp Hflag) as [Hwf3 Hlen3].
  cbn zeta in Hwf3, Hlen3.
  set (fs3 := store p (set_cached true d)
                (set_len (Int.u64 (cachedDentriesLen (note_call fs) + 1))
                   (set_list (PushFront p (cachedDentries (note_call fs)))
                      (note_call fs)))) in *.
  change (cachedDentriesLen (set_list (PushFront p (cachedDentries (note_call fs))) (note_call fs)))
    with (cachedDentriesLen (note_call fs)).
  fold fs3.
  destruct (Z.ltb_spec (maxCachedDentries fs3) (cachedDentriesLen fs3))
    as [Hover | Hfits].
  2: { intros [= <-]. apply Hstep; [| reflexivity | reflexivity | reflexivity].
       split; [exact Hwf3 | exact Hfits]. }
  destruct (Back (cachedDentries fs3)) as [v |] eqn:Hback; [| discriminate].
  destruct (heap fs3 !! v) as [victim |] eqn:Hv; [| discriminate].
  assert (Hvin : v ∈ cachedDentries fs3) by (apply last_Some_elem_of, Hback).
  assert (Hvflag : cached victim = true) by (apply (wf_cached _ Hwf3 v); assumption).
  destruct (lru_wf_uncache v victim fs3 Hwf3 Hv Hvflag) as [Hwf4 Hlen4].
  assert (Hok4 : lru_ok (note_evicted v (uncache v victim fs3))).
  { split; [eapply lru_wf_same; [| | | | exact Hwf4]; reflexivity |].
    change (cachedDentriesLen (note_evicted v (uncache v victim fs3)))
      with (cachedDentriesLen (uncache v victim fs3)).
    rewrite Hlen4, Hlen3. cbn. cbn in Hcap. lia. }
  destruct (refs victim =? 0).
  2: { intros [= <-].
       split; [exact Hok4 | split; [reflexivity |]].
       cbn. rewrite length_app. cbn. lia. }
  intros Hrun.
  apply (destroyLocked_post _ _ _ _ (IH)) in Hrun.
  - eapply (lru_post_step _ _ _ 0); [| | exact Hrun];
      destruct (_ && _); cbn; try reflexivity;
      rewrite length_app; cbn; lia.
  - destruct (_ && _); [| exact Hok4].
    destruct Hok4 as [Hwf5 Hcap5].
    split; [| exact Hcap5].
    eapply lru_wf_same;
      [| | | | eapply (lru_wf_store v (set_cached false victim)
                         (set_vfsd_disowned true (set_cached false victim))
                         (note_evicted v (uncache v victim fs3)));
               [exact Hwf5 | cbn; apply lookup_insert_eq | reflexivity]];
      reflexivity.
Qed.

(** *** Fuel: every nested call follows one more destruction *)







(** ** The cap of the dentry cache *)


Lemma cascadeFs_ok : lru_ok cascadeFs.
Proof.
  split; [| cbn; lia].
  constructor.
  - reflexivity.
  - cbn. lia.
  - cbn. lia.
  - cbn. apply NoDup_singleton.
  - apply (proj1 (map_Forall_lookup
                    (fun (p : nat) (d : dentry) => cached d = true <-> p ∈ [2%nat])
                    (heap cascadeFs))).
    refine (@bool_decide_unpack _ _ _). vm_compute. exact I.
  - intros p Hp. apply list_elem_of_singleton in Hp as ->.
    vm_compute. eauto.
Qed.



(** * Further properties of the metadata operations *)

Lemma u32_land (x : Z) : Int.u32 x = Z.land x (Z.ones 32).
Proof. unfold Int.u32. rewrite Z.land_ones by lia. reflexivity. Qed.

Lemma fileType_u32 (a : Z) :
  Z.land (Int.u32 a) linux.S_IFMT = Int.u32 (Z.land a linux.S_IFMT).
Proof.
  rewrite !u32_land, <- !Z.land_assoc. f_equal.
Qed.

(** A power of two other than the atime and mtime bits survives their
    removal from a mask. *)
Lemma has_without_timestamps (m k : Z) :
  0 <= k -> k <> 5 -> k <> 6 ->
  Int.has (Int.andnot m (Z.lor linux.STATX_ATIME linux.STATX_MTIME)) (2 ^ k)
  = Int.has m (2 ^ k).
Proof.
  intros Hk H5 H6. unfold Int.has, Int.andnot. f_equal. f_equal.
  apply Z.bits_inj'. intros n _.
  rewrite !Z.land_spec, Z.ldiff_spec.
  destruct (Z.eq_dec n k) as [-> | Hn].
  - change linux.STATX_ATIME with (2 ^ 5). change linux.STATX_MTIME with (2 ^ 6).
    rewrite Z.lor_spec, !Z.pow2_bits_false by congruence.
    cbn. rewrite andb_true_r. reflexivity.
  - rewrite Z.pow2_bits_false by congruence. rewrite !andb_false_r. reflexivity.
Qed.

Lemma has_timestamp_removed (m : Z) :
  Int.has (Int.andnot m (Z.lor linux.STATX_ATIME linux.STATX_MTIME))
    linux.STATX_ATIME = false
  /\ Int.has (Int.andnot m (Z.lor linux.STATX_ATIME linux.STATX_MTIME))
       linux.STATX_MTIME = false.
Proof.
  unfold Int.has, Int.andnot.
  split; apply negb_false_iff, Z.eqb_eq, Z.bits_inj'; intros n _;
    rewrite Z.land_spec, Z.ldiff_spec, Z.bits_0.
  - change linux.STATX_ATIME with (2 ^ 5). change linux.STATX_MTIME with (2 ^ 6).
    destruct (Z.eq_dec n 5) as [-> | Hn].
    + rewrite Z.lor_spec, Z.pow2_bits_true by lia. cbn.
      rewrite andb_false_r. reflexivity.
    + rewrite (Z.pow2_bits_false 5 n) by congruence. apply andb_false_r.
  - change linux.STATX_ATIME with (2 ^ 5). change linux.STATX_MTIME with (2 ^ 6).
    destruct (Z.eq_dec n 6) as [-> | Hn].
    + rewrite Z.lor_spec, (Z.pow2_bits_true 6) by lia. rewrite orb_true_r.
      cbn. rewrite andb_false_r. reflexivity.
    + rewrite (Z.pow2_bits_false 6 n) by congruence. apply andb_false_r.
Qed.

(** The request after [setStatLocalTimes] outside Shared mode: its mask is
    the caller's without the two timestamp bits, its other fields but
    [Mtime.Nsec] are the caller's. *)
Lemma setStatLocalTimes_local (interop : InteropMode) (stat : linux.Statx) :
  isShared interop = false ->
  let stat' := (setStatLocalTimes interop stat).1.1 in
  linux.Mask stat'
  = Int.andnot (linux.Mask stat) (Z.lor linux.STATX_ATIME linux.STATX_MTIME)
  /\ linux.Mode stat' = linux.Mode stat
  /\ linux.UID stat' = linux.UID stat
  /\ linux.GID stat' = linux.GID stat
  /\ linux.Size stat' = linux.Size stat
  /\ linux.Atime stat' = linux.Atime stat.
Proof.
  intros Hlocal. unfold setStatLocalTimes. rewrite Hlocal.
  cbn [negb]. destruct (negb _ && _); cbn; repeat split.
Qed.

(** How [setStat] ends: with an error and the dentry as it was, or with
    success. *)
Lemma setStat_cases (interop : InteropMode) (env : SetStatEnv) (d : dentry)
    (stat : linux.Statx) :
  (exists err t, setStat interop env d stat = (Some err, d, t))
  \/ (exists d' t, setStat interop env d stat = (None, d', t)).
Proof.
  unfold setStat.
  destruct (linux.Mask stat =? 0); [right; eauto |].
  destruct (negb _); [left; eauto |].
  destruct (CheckSetStat _ _ _ _ _); [left; eauto |].
  destruct (CheckBeginWrite _); [left; eauto |].
  destruct (setStatLocalTimes interop stat) as [[stat' a] m].
  destruct (if negb _ then _ else _); [left; eauto |].
  destruct (isShared interop); [right; eauto |].
  destruct (setStatApply _ _ _ _ _). right; eauto.
Qed.

(** X1: a SetStat that fails leaves the dentry as it was, in every interop
    mode and whichever check or call failed. *)
Theorem setStat_error_keeps_dentry (interop : InteropMode) (env : SetStatEnv)
    (d d' : dentry) (stat : linux.Statx) (err : errno) (t : list event) :
  setStat interop env d stat = (Some err, d', t) ->
  d' = d.
Proof.
  intros Hrun.
  destruct (setStat_cases interop env d stat) as [(e & t0 & H) | (d0 & t0 & H)];
    rewrite H in Hrun; [injection Hrun as _ <- _; reflexivity | discriminate].
Qed.

Lemma setStat_error_keeps_dentry_witness :
  setStat InteropModeExclusive refusingEnv sampleFile (sizeRequest 3000)
  = (Some (Eserver 28), sampleFile,
     [EvCheckSetStat; EvCheckBeginWrite;
      EvSetAttr
        (p9.mkSetAttrMask false false false true false false true false)
        (p9.mkSetAttr 0 0 0 3000 0 0 0 linux.UTIME_NOW);
      EvEndWrite])
  /\ sampleFile = sampleFile.
Proof.
  assert (H : setStat InteropModeExclusive refusingEnv sampleFile
                (sizeRequest 3000)
              = (Some (Eserver 28), sampleFile,
                 [EvCheckSetStat; EvCheckBeginWrite;
                  EvSetAttr
                    (p9.mkSetAttrMask false false false true false false true
                       false)
                    (p9.mkSetAttr 0 0 0 3000 0 0 0 linux.UTIME_NOW);
                  EvEndWrite]))
    by (vm_compute; reflexivity).
  split; [exact H |].
  exact (setStat_error_keeps_dentry _ _ _ _ _ _ _ H).
Defined.

(** The trace of a SetStat that got past [CheckBeginWrite] is the two
    checks, then events other than [EvEndWrite], then [EvEndWrite]. *)
Lemma setStat_trace_shape (interop : InteropMode) (env : SetStatEnv)
    (d : dentry) (stat : linux.Statx) :
  (setStat interop env d stat).2 = []
  \/ (setStat interop env d stat).2 = [EvCheckSetStat]
  \/ ((setStat interop env d stat).2 = [EvCheckSetStat; EvCheckBeginWrite]
      /\ is_Some (CheckBeginWrite env))
  \/ (CheckBeginWrite env = None
      /\ exists mid,
           (setStat interop env d stat).2
           = [EvCheckSetStat; EvCheckBeginWrite] ++ mid ++ [EvEndWrite]
           /\ EvEndWrite ∉ mid).
Proof.
  unfold setStat.
  destruct (linux.Mask stat =? 0); [left; reflexivity |].
  destruct (negb _); [left; reflexivity |].
  destruct (CheckSetStat _ _ _ _ _); [right; left; reflexivity |].
  destruct (CheckBeginWrite _) eqn:Hgate;
    [right; right; left; split; [reflexivity | eauto] |].
  right; right; right. split; [reflexivity |].
  destruct (setStatLocalTimes interop stat) as [[stat' a] m].
  assert (Hsent : forall b : bool,
    EvEndWrite ∉ (if b then [EvSetAttr (setAttrMaskOf stat') (setAttrOf stat')]
                  else [])).
  { intros [|]; [| apply not_elem_of_nil].
    intros H. apply list_elem_of_singleton in H. discriminate. }
  destruct (if negb _ then _ else _).
  { eexists. split; [reflexivity | apply Hsent]. }
  destruct (isShared interop).
  { eexists. split; [reflexivity | apply Hsent]. }
  destruct (setStatApply _ _ _ _ _) as [d1 inv] eqn:Happly.
  exists ((if negb (linux.Mask stat' =? 0)
           then [EvSetAttr (setAttrMaskOf stat') (setAttrOf stat')] else [])
          ++ inv).
  split; [cbn; rewrite <- app_assoc; reflexivity |].
  rewrite elem_of_app. intros [H | H]; [exact (Hsent _ H) |].
  unfold setStatApply in Happly.
  destruct (Int.has (linux.Mask stat') linux.STATX_SIZE).
  - unfold setStatSize in Happly.
    repeat case_match; simplify_eq;
      try (apply elem_of_nil in H; contradiction);
      apply list_elem_of_singleton in H; discriminate.
  - simplify_eq. apply elem_of_nil in H. contradiction.
Qed.

(** X2: [mnt.EndWrite] pairs with [mnt.CheckBeginWrite]: the trace of a
    SetStat contains [EvEndWrite] exactly when [CheckBeginWrite] was reached
    and succeeded, and then it is the last event and occurs once. *)
Theorem setStat_EndWrite_paired (interop : InteropMode) (env : SetStatEnv)
    (d : dentry) (stat : linux.Statx) :
  let t := (setStat interop env d stat).2 in
  (EvEndWrite ∈ t <-> EvCheckBeginWrite ∈ t /\ CheckBeginWrite env = None)
  /\ (EvEndWrite ∈ t ->
      exists t0, t = t0 ++ [EvEndWrite] /\ EvEndWrite ∉ t0).
Proof.
  cbn zeta.
  destruct (setStat_trace_shape interop env d stat)
    as [-> | [-> | [[-> [e He]] | [Hgate (mid & -> & Hmid)]]]].
  - split; [split |]; [intros H | intros [H _] | intros H];
      apply elem_of_nil in H; contradiction.
  - split; [split |]; [intros H | intros [H _] | intros H];
      apply list_elem_of_singleton in H; discriminate.
  - split; [split |]; [intros H | intros [_ H] | intros H];
      try congruence;
      apply elem_of_cons in H as [H | H]; try discriminate;
      apply list_elem_of_singleton in H; discriminate.
  - split; [split |].
    + intros _. split; [| exact Hgate].
      apply elem_of_cons. right. apply elem_of_cons. left. reflexivity.
    + intros _. rewrite !elem_of_app. right. right.
      apply list_elem_of_singleton. reflexivity.
    + intros _. exists ([EvCheckSetStat; EvCheckBeginWrite] ++ mid).
      split; [rewrite <- app_assoc; reflexivity |].
      rewrite elem_of_app. intros [H | H]; [| exact (Hmid H)].
      apply elem_of_cons in H as [H | H]; try discriminate.
      apply list_elem_of_singleton in H. discriminate.
Qed.

Lemma setStat_EndWrite_paired_witness :
  EvEndWrite ∈ (setStat InteropModeExclusive okEnv sampleFile
                  (sizeRequest 3000)).2
  /\ exists t0,
       (setStat InteropModeExclusive okEnv sampleFile (sizeRequest 3000)).2
       = t0 ++ [EvEndWrite]
       /\ EvEndWrite ∉ t0.
Proof.
  assert (H : EvEndWrite ∈ (setStat InteropModeExclusive okEnv sampleFile
                              (sizeRequest 3000)).2).
  { apply list_elem_of_In. vm_compute. auto 10. }
  split; [exact H |].
  exact (proj2 (setStat_EndWrite_paired InteropModeExclusive okEnv sampleFile
                  (sizeRequest 3000)) H).
Defined.

(** X3: outside Shared interop mode the timestamps stay on the client: no
    setattr that SetStat sends asks the server for an atime or an mtime. *)
Theorem setStat_timestamps_stay_local (interop : InteropMode)
    (env : SetStatEnv) (d : dentry) (stat : linux.Statx)
    (m : p9.SetAttrMask) (a : p9.SetAttr) :
  isShared interop = false ->
  EvSetAttr m a ∈ (setStat interop env d stat).2 ->
  p9.mATime m = false /\ p9.mMTime m = false.
Proof.
  intros Hlocal. unfold setStat.
  assert (Hnil : EvSetAttr m a ∉ @nil event) by apply not_elem_of_nil.
  destruct (linux.Mask stat =? 0); [intros H; contradiction |].
  destruct (negb _); [intros H; contradiction |].
  destruct (CheckSetStat _ _ _ _ _).
  { intros H. apply list_elem_of_singleton in H. discriminate. }
  destruct (CheckBeginWrite _).
  { intros H. apply elem_of_cons in H as [H | H]; [discriminate |].
    apply list_elem_of_singleton in H. discriminate. }
  pose proof (setStatLocalTimes_local interop stat Hlocal) as (Hmask & _).
  cbn zeta in Hmask.
  destruct (setStatLocalTimes interop stat) as [[stat' sa] sm].
  cbn [fst] in Hmask.
  assert (Hsent : forall b : bool,
    EvSetAttr m a ∈ (if b then [EvSetAttr (setAttrMaskOf stat') (setAttrOf stat')]
                     else []) ->
    p9.mATime m = false /\ p9.mMTime m = false).
  { intros [|] H; [| contradiction].
    apply list_elem_of_singleton in H. injection H as -> ->.
    unfold setAttrMaskOf. cbn. rewrite Hmask. apply has_timestamp_removed. }
  assert (Hother : forall t1 t2 : list event,
    (EvSetAttr m a ∈ t1 -> p9.mATime m = false /\ p9.mMTime m = false) ->
    EvSetAttr m a ∉ t2 ->
    EvSetAttr m a ∈ [EvCheckSetStat; EvCheckBeginWrite] ++ t1 ++ t2 ->
    p9.mATime m = false /\ p9.mMTime m = false).
  { intros t1 t2 H1 H2 H. rewrite !elem_of_app in H.
    destruct H as [H | [H | H]]; [| auto | contradiction].
    apply elem_of_cons in H as [H | H]; [discriminate |].
    apply list_elem_of_singleton in H. discriminate. }
  assert (Hend : EvSetAttr m a ∉ [EvEndWrite]).
  { intros H. apply list_elem_of_singleton in H. discriminate. }
  destruct (if negb _ then _ else _); [apply Hother; [apply Hsent | exact Hend] |].
  rewrite Hlocal.
  destruct (setStatApply _ _ _ _ _) as [d1 inv] eqn:Happly.
  apply Hother; [apply Hsent |].
  rewrite elem_of_app. intros [H | H]; [| exact (Hend H)].
  unfold setStatApply, setStatSize in Happly.
  repeat case_match; simplify_eq;
    try (apply elem_of_nil in H; contradiction);
    apply list_elem_of_singleton in H; discriminate.
Qed.

Lemma setStat_timestamps_stay_local_witness :
  isShared InteropModeExclusive = false
  /\ EvSetAttr
       (p9.mkSetAttrMask false false false true false false true false)
       (p9.mkSetAttr 0 0 0 3000 0 0 0 linux.UTIME_NOW)
     ∈ (setStat InteropModeExclusive okEnv sampleFile (sizeRequest 3000)).2
  /\ p9.mATime
       (p9.mkSetAttrMask false false false true false false true false)
     = false.
Proof.
  assert (H : EvSetAttr
                (p9.mkSetAttrMask false false false true false false true false)
                (p9.mkSetAttr 0 0 0 3000 0 0 0 linux.UTIME_NOW)
              ∈ (setStat InteropModeExclusive okEnv sampleFile
                   (sizeRequest 3000)).2).
  { apply list_elem_of_In. vm_compute. auto 10. }
  split; [reflexivity |]. split; [exact H |].
  exact (proj1 (setStat_timestamps_stay_local InteropModeExclusive okEnv
                  sampleFile (sizeRequest 3000) _ _ eq_refl H)).
Defined.

(** X4: outside Shared interop mode a request for timestamps alone that
    passes the two checks succeeds without a word to the server; the times
    are stored in the dentry. *)
Theorem setStat_times_only_no_server (interop : InteropMode)
    (env : SetStatEnv) (d : dentry) (stat : linux.Statx) :
  isShared interop = false ->
  linux.Mask stat <> 0 ->
  Int.andnot (linux.Mask stat) (Z.lor linux.STATX_ATIME linux.STATX_MTIME) = 0 ->
  CheckSetStat env stat (Int.u16 (mode d)) (uid d) (gid d) = None ->
  CheckBeginWrite env = None ->
  exists d',
    setStat interop env d stat
    = (None, d', [EvCheckSetStat; EvCheckBeginWrite; EvEndWrite])
    /\ contacts_server (setStat interop env d stat).2 = false
    /\ ctime d' = Now env
    /\ size d' = size d.
Proof.
  intros Hlocal Hnz Honly Hperm Hgate. unfold setStat.
  destruct (Z.eqb_spec (linux.Mask stat) 0) as [E | _]; [contradiction |].
  assert (Hvalid : Int.andnot (linux.Mask stat) writableStatxMask = 0).
  { apply Z.bits_inj'. intros n _.
    assert (Hn : Z.testbit (Int.andnot (linux.Mask stat)
                   (Z.lor linux.STATX_ATIME linux.STATX_MTIME)) n = false)
      by (rewrite Honly; apply Z.bits_0).
    unfold Int.andnot in *. rewrite Z.ldiff_spec in *. rewrite Z.bits_0.
    apply andb_false_iff in Hn as [Hn | Hn]; [rewrite Hn; reflexivity |].
    apply negb_false_iff in Hn.
    assert (Hw : Z.testbit writableStatxMask n = true).
    { change writableStatxMask
        with (Z.lor (Z.lor linux.STATX_ATIME linux.STATX_MTIME) 538).
      rewrite Z.lor_spec, Hn. reflexivity. }
    rewrite Hw. apply andb_false_r. }
  rewrite Hvalid, Hperm, Hgate. cbn [Z.eqb negb].
  unfold setStatLocalTimes. rewrite Hlocal. cbn [negb linux.Mask linux.set_Mask].
  rewrite Honly.
  change (Int.has 0 linux.STATX_SIZE) with false. rewrite andb_false_r.
  cbn [linux.Mask linux.set_Mask Z.eqb negb].
  unfold setStatApply. cbn [linux.Mask linux.set_Mask].
  change (Int.has 0 linux.STATX_MODE) with false.
  change (Int.has 0 linux.STATX_UID) with false.
  change (Int.has 0 linux.STATX_GID) with false.
  change (Int.has 0 linux.STATX_SIZE) with false.
  eexists. split; [reflexivity |]. split; [reflexivity |].
  split; [reflexivity |]. repeat case_match; reflexivity.
Qed.

Lemma setStat_times_only_no_server_witness :
  setStat InteropModeExclusive okEnv sampleFile timesRequest
  = (None, touchedFile, [EvCheckSetStat; EvCheckBeginWrite; EvEndWrite]).
Proof.
  destruct (setStat_times_only_no_server InteropModeExclusive okEnv sampleFile
              timesRequest) as (d' & Hrun & _);
    [reflexivity | discriminate | reflexivity | reflexivity | reflexivity |].
  vm_compute. reflexivity.
Defined.

Lemma fields_setStatSize (stat : linux.Statx) (d : dentry) :
  let d' := (setStatSize stat d).1 in
  mode d' = mode d /\ uid d' = uid d /\ gid d' = gid d
  /\ ctime d' = ctime d /\ atime d' = atime d /\ ino d' = ino d
  /\ refs d' = refs d /\ handle d' = handle d.
Proof.
  cbn zeta. unfold setStatSize. repeat case_match; repeat split.
Qed.

Lemma ctime_setStatApply (now : Z) (a m : bool) (stat : linux.Statx)
    (d : dentry) :
  ctime (setStatApply now a m stat d).1 = now.
Proof.
  unfold setStatApply.
  destruct (Int.has (linux.Mask stat) linux.STATX_SIZE); [| reflexivity].
  match goal with
  | |- ctime (setStatSize _ ?d0).1 = _ =>
    destruct (fields_setStatSize stat d0) as (_ & _ & _ & -> & _)
  end.
  reflexivity.
Qed.

(** X5: outside Shared interop mode every successful SetStat with a
    non-empty mask stamps the change time with the client clock. *)
Theorem setStat_stamps_ctime (interop : InteropMode) (env : SetStatEnv)
    (d d' : dentry) (stat : linux.Statx) (t : list event) :
  isShared interop = false ->
  linux.Mask stat <> 0 ->
  setStat interop env d stat = (None, d', t) ->
  ctime d' = Now env.
Proof.
  intros Hlocal Hnz Hrun.
  apply setStat_local_success in Hrun; [| assumption | assumption].
  subst d'. apply ctime_setStatApply.
Qed.

Lemma setStat_stamps_ctime_witness :
  setStat InteropModeExclusive okEnv sampleFile chmodRequest
  = (None, chmoddedFile, chmodTrace)
  /\ ctime chmoddedFile = Now okEnv.
Proof.
  assert (H : setStat InteropModeExclusive okEnv sampleFile chmodRequest
              = (None, chmoddedFile, chmodTrace)) by (vm_compute; reflexivity).
  split; [exact H |].
  apply (setStat_stamps_ctime InteropModeExclusive okEnv sampleFile
           chmoddedFile chmodRequest chmodTrace);
    [reflexivity | discriminate | exact H].
Defined.

Lemma mode_setStatApply (now : Z) (a m : bool) (stat : linux.Statx)
    (d : dentry) :
  mode (setStatApply now a m stat d).1
  = if Int.has (linux.Mask stat) linux.STATX_MODE
    then Z.lor (fileType d) (linux.Mode stat)
    else mode d.
Proof.
  unfold setStatApply.
  destruct (Int.has (linux.Mask stat) linux.STATX_SIZE).
  - match goal with
    | |- mode (setStatSize _ ?d0).1 = _ =>
      destruct (fields_setStatSize stat d0) as (-> & _)
    end.
    repeat case_match; reflexivity.
  - cbn [fst]. repeat case_match; reflexivity.
Qed.

(** X6: chmod keeps the file type.  After a successful SetStat outside Shared
    mode whose mode field carries permission bits only, the file type of the
    dentry is what it was; when the mask has the mode, the new mode is the
    old type with the requested permissions. *)
Theorem setStat_keeps_file_type (interop : InteropMode) (env : SetStatEnv)
    (d d' : dentry) (stat : linux.Statx) (t : list event) :
  isShared interop = false ->
  Z.land (linux.Mode stat) linux.S_IFMT = 0 ->
  setStat interop env d stat = (None, d', t) ->
  fileType d' = fileType d
  /\ (Int.has (linux.Mask stat) linux.STATX_MODE = true ->
      mode d' = Z.lor (fileType d) (linux.Mode stat)).
Proof.
  intros Hlocal Hperm Hrun.
  destruct (Z.eq_dec (linux.Mask stat) 0) as [Hz | Hnz].
  { unfold setStat in Hrun. rewrite Hz in Hrun. cbn in Hrun.
    injection Hrun as <- _. split; [reflexivity |].
    unfold Int.has. rewrite Hz. discriminate. }
  apply setStat_local_success in Hrun; [| assumption | assumption].
  pose proof (setStatLocalTimes_local interop stat Hlocal)
    as (Hmask & Hmode & _). cbn zeta in Hmask, Hmode.
  assert (Hbit : Int.has (linux.Mask (setStatLocalTimes interop stat).1.1)
                   linux.STATX_MODE
                 = Int.has (linux.Mask stat) linux.STATX_MODE).
  { rewrite Hmask. apply (has_without_timestamps _ 1); lia. }
  subst d'. unfold fileType at 1. rewrite mode_setStatApply, Hbit, Hmode.
  destruct (Int.has (linux.Mask stat) linux.STATX_MODE).
  - split; [| reflexivity].
    rewrite Z.land_lor_distr_l, Hperm, Z.lor_0_r.
    unfold fileType. rewrite <- Z.land_assoc, Z.land_diag. reflexivity.
  - split; [reflexivity | discriminate].
Qed.

Lemma setStat_keeps_file_type_witness :
  setStat InteropModeExclusive okEnv sampleFile chmodRequest
  = (None, chmoddedFile, chmodTrace)
  /\ fileType chmoddedFile = linux.S_IFREG
  /\ mode chmoddedFile = 33152.
Proof.
  assert (H : setStat InteropModeExclusive okEnv sampleFile chmodRequest
              = (None, chmoddedFile, chmodTrace)) by (vm_compute; reflexivity).
  split; [exact H |].
  destruct (setStat_keeps_file_type InteropModeExclusive okEnv sampleFile
              chmoddedFile chmodRequest chmodTrace)
    as [Htype Hmode]; [reflexivity | reflexivity | exact H |].
  split; [rewrite Htype; reflexivity | rewrite Hmode; reflexivity].
Defined.

Lemma setStatSize_grow (stat : linux.Statx) (d : dentry) :
  size d <= linux.Size stat ->
  setStatSize stat d = (set_size (linux.Size stat) d, []).
Proof.
  intros Hgrow. unfold setStatSize. cbn [size set_size].
  destruct (Z.ltb_spec (linux.Size stat) (size d)); [lia | reflexivity].
Qed.

(** X7: a SetStat outside Shared mode that does not shrink the file stores
    the new size and leaves the page cache, the dirty set and the mappings
    alone; nothing is invalidated. *)
Theorem setStat_grow_keeps_cache (interop : InteropMode) (env : SetStatEnv)
    (d d' : dentry) (stat : linux.Statx) (t : list event) :
  isShared interop = false ->
  Int.has (linux.Mask stat) linux.STATX_SIZE = true ->
  size d <= linux.Size stat ->
  setStat interop env d stat = (None, d', t) ->
  size d' = linux.Size stat
  /\ cache d' = cache d /\ dirty d' = dirty d /\ mappings d' = mappings d.
Proof.
  intros Hlocal Hsize Hgrow Hrun.
  apply setStat_local_success in Hrun;
    [| assumption | eapply has_nonzero; eassumption].
  destruct (setStatLocalTimes_size interop stat Hlocal) as [Hbit Hsz].
  rewrite Hsize in Hbit.
  destruct (setStatApply_size_part (Now env)
              (setStatLocalTimes interop stat).1.2
              (setStatLocalTimes interop stat).2
              (setStatLocalTimes interop stat).1.1 d Hbit)
    as (d0 & Happly & Hs & Hc & Hd & Hm).
  rewrite Happly in Hrun. subst d'.
  rewrite setStatSize_grow by (rewrite Hsz, Hs; exact Hgrow).
  cbn. rewrite Hsz. auto.
Qed.

Lemma setStat_grow_keeps_cache_witness :
  setStat InteropModeExclusive okEnv sampleFile (sizeRequest 10000)
  = (None, grownFile, growTrace)
  /\ size grownFile = 10000
  /\ cache grownFile = [(0, 8192)].
Proof.
  assert (H : setStat InteropModeExclusive okEnv sampleFile (sizeRequest 10000)
              = (None, grownFile, growTrace)) by (vm_compute; reflexivity).
  split; [exact H |].
  destruct (setStat_grow_keeps_cache InteropModeExclusive okEnv sampleFile
              grownFile (sizeRequest 10000) growTrace)
    as (Hs & Hc & _); [reflexivity | reflexivity | discriminate | exact H |].
  split; [exact Hs | exact Hc].
Defined.

Lemma owner_setStatApply (now : Z) (a m : bool) (stat : linux.Statx)
    (d : dentry) :
  uid (setStatApply now a m stat d).1
  = (if Int.has (linux.Mask stat) linux.STATX_UID then linux.UID stat
     else uid d)
  /\ gid (setStatApply now a m stat d).1
     = (if Int.has (linux.Mask stat) linux.STATX_GID then linux.GID stat
        else gid d).
Proof.
  unfold setStatApply.
  destruct (Int.has (linux.Mask stat) linux.STATX_SIZE).
  - match goal with
    | |- uid (setStatSize _ ?d0).1 = _ /\ _ =>
      destruct (fields_setStatSize stat d0) as (_ & -> & -> & _)
    end.
    split; repeat case_match; reflexivity.
  - cbn [fst]. split; repeat case_match; reflexivity.
Qed.

(** X8: SetStat, then Stat.  Outside Shared mode a Stat that follows a
    successful SetStat asks the server nothing and reports the owner, the
    group and the size that the SetStat carried in its mask. *)
Theorem SetStat_then_Stat (interop : InteropMode) (env : SetStatEnv)
    (d d' : dentry) (stat : linux.Statx) (t : list event)
    (opts : StatOptions) :
  isShared interop = false ->
  SetStat interop env d stat = (None, d', t) ->
  Stat interop (server env) d' opts = (Returns (inr (statTo d')), d', [])
  /\ (Int.has (linux.Mask stat) linux.STATX_UID = true ->
      linux.UID (statTo d') = linux.UID stat)
  /\ (Int.has (linux.Mask stat) linux.STATX_GID = true ->
      linux.GID (statTo d') = linux.GID stat)
  /\ (Int.has (linux.Mask stat) linux.STATX_SIZE = true ->
      linux.Size (statTo d') = linux.Size stat).
Proof.
  intros Hlocal Hrun. unfold SetStat in Hrun.
  split; [unfold Stat; rewrite Hlocal; reflexivity |].
  destruct (Z.eq_dec (linux.Mask stat) 0) as [Hz | Hnz].
  { unfold Int.has. rewrite Hz. repeat split; discriminate. }
  apply setStat_local_success in Hrun; [| assumption | assumption].
  pose proof (setStatLocalTimes_local interop stat Hlocal)
    as (Hmask & _ & Huid & Hgid & Hsz & _).
  cbn zeta in Hmask, Huid, Hgid, Hsz.
  pose proof (owner_setStatApply (Now env)
                (setStatLocalTimes interop stat).1.2
                (setStatLocalTimes interop stat).2
                (setStatLocalTimes interop stat).1.1 d) as [Hu Hg].
  rewrite Hmask, Huid in Hu. rewrite Hmask, Hgid in Hg.
  rewrite (has_without_timestamps _ 3) in Hu by lia.
  rewrite (has_without_timestamps _ 4) in Hg by lia.
  change (2 ^ 3) with linux.STATX_UID in Hu.
  change (2 ^ 4) with linux.STATX_GID in Hg.
  subst d'. cbn [statTo linux.UID linux.GID linux.Size].
  split; [intros H; rewrite Hu, H; reflexivity |].
  split; [intros H; rewrite Hg, H; reflexivity |].
  intros Hsize.
  destruct (setStatLocalTimes_size interop stat Hlocal) as [Hbit _].
  rewrite Hsize in Hbit.
  destruct (setStatApply_size_part (Now env)
              (setStatLocalTimes interop stat).1.2
              (setStatLocalTimes interop stat).2
              (setStatLocalTimes interop stat).1.1 d Hbit)
    as (d0 & Happly & _).
  rewrite Happly. unfold setStatSize. rewrite Hsz.
  repeat case_match; reflexivity.
Qed.

Lemma SetStat_then_Stat_witness :
  SetStat InteropModeExclusive okEnv sampleFile (sizeRequest 3000)
  = (None, truncatedFile, exclusiveTruncateTrace)
  /\ Stat InteropModeExclusive okServer truncatedFile (mkStatOptions 2047 0)
     = (Returns (inr (statTo truncatedFile)), truncatedFile, [])
  /\ linux.Size (statTo truncatedFile) = 3000.
Proof.
  assert (H : SetStat InteropModeExclusive okEnv sampleFile (sizeRequest 3000)
              = (None, truncatedFile, exclusiveTruncateTrace))
    by (vm_compute; reflexivity).
  split; [exact H |].
  destruct (SetStat_then_Stat InteropModeExclusive okEnv sampleFile
              truncatedFile (sizeRequest 3000) exclusiveTruncateTrace
              (mkStatOptions 2047 0) eq_refl H)
    as (Hstat & _ & _ & Hsize).
  split; [exact Hstat | apply Hsize; reflexivity].
Defined.

(** What [updateFromP9Attrs] stores when it returns. *)
Lemma updateFromP9Attrs_fields (mask : p9.AttrMask) (attr : p9.Attr)
    (d d' : dentry) :
  updateFromP9Attrs mask attr d = Returns d' ->
  fileType d' = fileType d
  /\ ino d' = ino d /\ refs d' = refs d /\ cached d' = cached d
  /\ handle d' = handle d /\ file d' = file d
  /\ cache d' = cache d /\ dirty d' = dirty d /\ mappings d' = mappings d
  /\ size d' = (if p9.Size mask then p9.aSize attr else size d)
  /\ uid d' = (if p9.UID mask then Int.u32 (p9.aUID attr) else uid d)
  /\ gid d' = (if p9.GID mask then Int.u32 (p9.aGID attr) else gid d)
  /\ nlink d' = (if p9.NLink mask then Int.u32 (p9.aNLink attr) else nlink d).
Proof.
  unfold updateFromP9Attrs.
  destruct (p9.Mode mask) eqn:Hmode; cbn [andb].
  - destruct (Z.eqb_spec (Int.u32 (p9.FileType (p9.aMode attr))) (fileType d))
      as [Htype | _]; [| discriminate].
    cbn [negb]. intros [= <-].
    split.
    + transitivity (Z.land (Int.u32 (p9.aMode attr)) linux.S_IFMT).
      * unfold fileType. repeat case_match; reflexivity.
      * rewrite fileType_u32. exact Htype.
    + repeat case_match; repeat split.
  - intros [= <-]. repeat case_match; repeat split.
Qed.

(** X9: a Stat never changes what a dentry is: whatever the server answers
    in Shared mode, after a Stat that returns the dentry has the file type,
    the inode number, the reference count, the handle and the cached pages it
    had; an error leaves the whole dentry as it was. *)
Theorem Stat_keeps_identity (interop : InteropMode) (srv : Server)
    (d d' : dentry) (opts : StatOptions) (r : errno + linux.Statx)
    (t : list event) :
  Stat interop srv d opts = (Returns r, d', t) ->
  fileType d' = fileType d /\ ino d' = ino d /\ refs d' = refs d
  /\ handle d' = handle d /\ cache d' = cache d /\ dirty d' = dirty d
  /\ (forall err, r = inl err -> d' = d).
Proof.
  unfold Stat, updateFromGetattr.
  destruct (_ && _ && _).
  - destruct (getAttr srv _ dentryAttrMask) as [err | [attrMask attr]].
    + intros [= <- <- _]. repeat split.
    + destruct (updateFromP9Attrs attrMask attr d) as [d1 | msg] eqn:Hupd;
        [| discriminate].
      intros [= <- <- _].
      apply updateFromP9Attrs_fields in Hupd
        as (Ht & Hi & Hr & _ & Hh & _ & Hc & Hd & _).
      repeat split; try assumption. discriminate.
  - intros [= <- <- _]. repeat split.
Qed.

Lemma Stat_keeps_identity_witness :
  Stat InteropModeShared sizeServer sampleFile (mkStatOptions 2047 0)
  = (Returns (inr (statTo (set_size 100 sampleFile))), set_size 100 sampleFile,
     [EvGetAttr (Some 7%nat)])
  /\ fileType (set_size 100 sampleFile) = fileType sampleFile
  /\ ino (set_size 100 sampleFile) = ino sampleFile.
Proof.
  assert (H : Stat InteropModeShared sizeServer sampleFile
                (mkStatOptions 2047 0)
              = (Returns (inr (statTo (set_size 100 sampleFile))),
                 set_size 100 sampleFile, [EvGetAttr (Some 7%nat)]))
    by (vm_compute; reflexivity).
  split; [exact H |].
  destruct (Stat_keeps_identity _ _ _ _ _ _ _ H) as (Ht & Hi & _).
  split; [exact Ht | exact Hi].
Defined.

(** X10: revalidation.  In Shared mode a Stat that asks for a cached attribute
    and may sync sends one getattr, on the fid of the open handle when there
    is one and on the dentry's own fid otherwise; a server error is returned
    with the dentry untouched, and the snapshot of a successful Stat has the
    server's size, owner and group for the attributes in the server's
    mask. *)
Theorem Stat_shared_revalidates (srv : Server) (d : dentry)
    (opts : StatOptions) :
  Z.land (optMask opts) validMask <> 0 ->
  optSync opts <> linux.AT_STATX_DONT_SYNC ->
  let f := if isNil (h_file (handle d)) then file d else h_file (handle d) in
  (Stat InteropModeShared srv d opts).2 = [EvGetAttr f]
  /\ (forall err, getAttr srv f dentryAttrMask = inl err ->
        Stat InteropModeShared srv d opts
        = (Returns (inl err), d, [EvGetAttr f]))
  /\ (forall mask attr stat d',
        getAttr srv f dentryAttrMask = inr (mask, attr) ->
        Stat InteropModeShared srv d opts = (Returns (inr stat), d', [EvGetAttr f]) ->
        (p9.Size mask = true -> linux.Size stat = p9.aSize attr)
        /\ (p9.UID mask = true -> linux.UID stat = Int.u32 (p9.aUID attr))
        /\ (p9.GID mask = true -> linux.GID stat = Int.u32 (p9.aGID attr))).
Proof.
  intros Hmask Hsync. cbn zeta. unfold Stat, updateFromGetattr.
  destruct (Z.eqb_spec (Z.land (optMask opts) validMask) 0) as [E | _];
    [contradiction |].
  destruct (Z.eqb_spec (optSync opts) linux.AT_STATX_DONT_SYNC) as [E | _];
    [contradiction |].
  cbn [isShared negb andb].
  destruct (isNil (h_file (handle d))); cbn [negb];
    match goal with
    | |- context [getAttr srv ?f dentryAttrMask] =>
      destruct (getAttr srv f dentryAttrMask) as [err | [mask attr]] eqn:Hget
    end;
    (split; [try reflexivity | split]);
    try (destruct (updateFromP9Attrs mask attr d) eqn:Hupd; reflexivity);
    try (intros ? [= <-]; reflexivity);
    try (intros ? ?; discriminate);
    try (intros ? ? ? ? ?; discriminate);
    intros mask' attr' stat d' [= <- <-];
    destruct (updateFromP9Attrs mask attr d) as [d1 | msg] eqn:Hupd;
    try discriminate;
    intros [= <- <-];
    apply updateFromP9Attrs_fields in Hupd
      as (_ & _ & _ & _ & _ & _ & _ & _ & _ & Hs & Hu & Hg & _);
    cbn [statTo linux.Size linux.UID linux.GID];
    rewrite Hs, Hu, Hg;
    (split; [intros ->; reflexivity | split; intros ->; reflexivity]).
Qed.

Lemma Stat_shared_revalidates_witness :
  (Stat InteropModeShared sizeServer readOnlyFile (mkStatOptions 2047 0)).2
  = [EvGetAttr (Some 8%nat)]
  /\ (Stat InteropModeShared okServer readOnlyFile (mkStatOptions 2047 0))
     = (Returns (inl EIO), readOnlyFile, [EvGetAttr (Some 8%nat)]).
Proof.
  split.
  - apply (Stat_shared_revalidates sizeServer readOnlyFile
             (mkStatOptions 2047 0)); discriminate.
  - apply (Stat_shared_revalidates okServer readOnlyFile
             (mkStatOptions 2047 0)); [discriminate | discriminate |].
    reflexivity.
Defined.

(** * Further properties of the reference counts and of the cache *)


Lemma set_cached_own (d : dentry) : set_cached (cached d) d = d.
Proof. destruct d; reflexivity. Qed.

Lemma store_own (p : nat) (d : dentry) (fs : filesystem) :
  heap fs !! p = Some d -> store p d fs = fs.
Proof.
  intros Hp. destruct fs as [m l n s h t e c]. unfold store. cbn in *.
  rewrite insert_id by exact Hp. reflexivity.
Qed.

Lemma store_store (p : nat) (d1 d2 : dentry) (fs : filesystem) :
  store p d2 (store p d1 fs) = store p d2 fs.
Proof. unfold store. cbn. rewrite insert_insert_eq. reflexivity. Qed.



(** X12: a DecRef by a caller that holds no reference faults: on a count of 0
    or below the function panics instead of caching or destroying. *)
Theorem DecRef_without_reference_panics (fuel : nat) (p : nat)
    (fs : filesystem) (d : dentry) :
  heap fs !! p = Some d ->
  Int.MinInt64 < refs d <= 0 ->
  DecRef fuel p fs
  = Panic "gofer.dentry.DecRef() called without holding a reference".
Proof.
  intros Hp Hrefs. unfold DecRef. rewrite Hp.
  assert (Hr : Int.i64 (refs d - 1) = refs d - 1).
  { unfold Int.i64, Int.MinInt64 in *. rewrite Z.mod_small; lia. }
  rewrite Hr.
  destruct (Z.eqb_spec (refs d - 1) 0); [lia |].
  destruct (Z.ltb_spec (refs d - 1) 0); [reflexivity | lia].
Qed.

Lemma DecRef_without_reference_panics_witness :
  DecRef 5 2 cascadeFs
  = Panic "gofer.dentry.DecRef() called without holding a reference".
Proof.
  apply (DecRef_without_reference_panics 5 2 cascadeFs
           (node (Some 1%nat) 0 true)).
  - reflexivity.
  - split; reflexivity.
Defined.

(** X13: IncRef, then DecRef.  On a dentry that is referenced, taking a
    reference and dropping it again gives the filesystem back as it was:
    the cache is not consulted. *)
Theorem IncRef_then_DecRef (fuel : nat) (p : nat) (fs : filesystem)
    (d : dentry) :
  heap fs !! p = Some d ->
  0 < refs d < Int.MaxInt64 ->
  DecRef fuel p (store p (IncRef d) fs) = Done fs.
Proof.
  intros Hp Hrefs. unfold DecRef, IncRef.
  change (heap (store p (set_refs (Int.i64 (refs d + 1)) d) fs))
    with (<[p := set_refs (Int.i64 (refs d + 1)) d]> (heap fs)).
  rewrite lookup_insert_eq.
  assert (Hup : Int.i64 (refs d + 1) = refs d + 1).
  { unfold Int.i64, Int.MaxInt64 in *. rewrite Z.mod_small; lia. }
  rewrite Hup. cbn [refs set_refs].
  replace (refs d + 1 - 1) with (refs d) by lia.
  assert (Hdown : Int.i64 (refs d) = refs d).
  { unfold Int.i64, Int.MaxInt64 in *. rewrite Z.mod_small; lia. }
  rewrite Hdown.
  destruct (Z.eqb_spec (refs d) 0); [lia |].
  destruct (Z.ltb_spec (refs d) 0); [lia |].
  rewrite store_store.
  replace (set_refs (refs d) (set_refs (refs d + 1) d)) with d
    by (destruct d; reflexivity).
  rewrite store_own by exact Hp. reflexivity.
Qed.

Lemma IncRef_then_DecRef_witness :
  DecRef 5 3 (store 3 (IncRef (node (Some 0%nat) 1 false)) cascadeFs)
  = Done cascadeFs.
Proof.
  apply (IncRef_then_DecRef 5 3 cascadeFs (node (Some 0%nat) 1 false)).
  - reflexivity.
  - split; reflexivity.
Defined.

(** *** Destruction is final *)

Lemma final_post_refl (fs : filesystem) :
  destroyed_uncached fs -> final_post fs fs.
Proof.
  intros H. split; [exact H |]. split; [auto |]. split; [reflexivity |].
  exists []. rewrite app_nil_r. reflexivity.
Qed.

Lemma final_post_trans (fs1 fs2 fs3 : filesystem) :
  final_post fs1 fs2 -> final_post fs2 fs3 -> final_post fs1 fs3.
Proof.
  intros (_ & Hs1 & Hd1 & r1 & He1) (Hu & Hs2 & Hd2 & r2 & He2).
  split; [exact Hu |]. split; [| split].
  - intros q d Hq Hdead. apply Hs2; [apply Hs1; assumption | exact Hdead].
  - etransitivity; eassumption.
  - exists (r1 ++ r2). rewrite He2, He1, app_assoc. reflexivity.
Qed.

Lemma final_same (fs fs' : filesystem) :
  heap fs' = heap fs -> dentries fs' ⊆ dentries fs ->
  (exists rest, evicted fs' = evicted fs ++ rest) ->
  destroyed_uncached fs -> final_post fs fs'.
Proof.
  intros Hh Hd He Hu. unfold final_post, destroyed_uncached.
  rewrite Hh. auto.
Qed.

Lemma final_store (fs : filesystem) (p : nat) (d d' : dentry) :
  destroyed_uncached fs -> heap fs !! p = Some d ->
  (refs d = -1 -> d' = d) -> (refs d' = -1 -> cached d' = false) ->
  final_post fs (store p d' fs).
Proof.
  intros Hu Hp Hkeep Hflag. split; [| split; [| split]].
  - intros q dq. cbn. destruct (decide (p = q)) as [-> | Hne].
    + rewrite lookup_insert_eq. intros [= <-]. exact Hflag.
    + rewrite lookup_insert_ne by assumption. apply Hu.
  - intros q dq Hq Hdead. cbn. destruct (decide (p = q)) as [-> | Hne].
    + rewrite lookup_insert_eq. rewrite Hp in Hq. injection Hq as <-.
      rewrite Hkeep by exact Hdead. reflexivity.
    + rewrite lookup_insert_ne by assumption. exact Hq.
  - reflexivity.
  - exists []. cbn. rewrite app_nil_r. reflexivity.
Qed.

Lemma final_uncache (fs : filesystem) (p : nat) (d : dentry) :
  destroyed_uncached fs -> heap fs !! p = Some d ->
  final_post fs (uncache p d fs).
Proof.
  intros Hu Hp. unfold uncache.
  eapply final_post_trans.
  - apply (final_same fs (set_len (Int.u64 (cachedDentriesLen fs - 1))
                            (set_list (Remove p (cachedDentries fs)) fs)));
      [reflexivity | reflexivity | | exact Hu].
    exists []. cbn. rewrite app_nil_r. reflexivity.
  - apply (final_store _ p d); [exact Hu | exact Hp | | reflexivity].
    intros Hdead. rewrite <- (Hu p d Hp Hdead). apply set_cached_own.
Qed.

Lemma i64_pred_nonneg_live (r : Z) : 0 <= Int.i64 (r - 1) -> r <> -1.
Proof. intros H ->. vm_compute in H. apply H. reflexivity. Qed.

(** [destroyLocked] leaves the dentry destroyed and out of [fs.dentries],
    whatever the caching check of the parent does afterwards. *)
Lemma destroyLocked_final (check : nat -> filesystem -> run) (p : nat)
    (fs fs' : filesystem) (d : dentry) :
  (forall q fs1 fs2, destroyed_uncached fs1 -> check q fs1 = Done fs2 ->
                     final_post fs1 fs2) ->
  destroyed_uncached fs ->
  heap fs !! p = Some d -> cached d = false ->
  destroyLocked check p fs = Done fs' ->
  final_post fs fs'
  /\ (exists d', heap fs' !! p = Some d' /\ refs d' = -1 /\ file d' = None)
  /\ p ∉ dentries fs'.
Proof.
  intros Hcheck Hu Hp Hflag. unfold destroyLocked. rewrite Hp.
  destruct (Z.eqb_spec (refs d) 0) as [Hzero | _];
    [| destruct (refs d =? -1); discriminate].
  assert (Hclosed : forall d2 fs2,
    refs d2 = -1 -> cached d2 = false -> file d2 = None ->
    final_post fs fs2 -> heap fs2 !! p = Some d ->
    match vfsd_parent d2 with
    | None => Done (set_dentries (dentries fs2 ∖ {[p]}) (store p d2 fs2))
    | Some pp =>
      match heap (set_dentries (dentries fs2 ∖ {[p]}) (store p d2 fs2)) !! pp with
      | None => Panic "nil dentry"
      | Some parent =>
        let r := Int.i64 (refs parent - 1) in
        let fs3 := store pp (set_refs r parent)
                     (set_dentries (dentries fs2 ∖ {[p]}) (store p d2 fs2)) in
        if r =? 0 then check pp fs3
        else if r <? 0
        then Panic "gofer.dentry.DecRef() called without holding a reference"
        else Done fs3
      end
    end = Done fs' ->
    final_post fs fs'
    /\ (exists d', heap fs' !! p = Some d' /\ refs d' = -1 /\ file d' = None)
    /\ p ∉ dentries fs').
  { intros d2 fs2 Hdead Hflag2 Hfile2 Hpost2 Hp2.
    pose proof Hpost2 as (Hu2 & _).
    set (fs3 := set_dentries (dentries fs2 ∖ {[p]}) (store p d2 fs2)).
    assert (Hpost3 : final_post fs fs3).
    { eapply final_post_trans; [exact Hpost2 |].
      eapply final_post_trans.
      - apply (final_store fs2 p d d2); [exact Hu2 | exact Hp2 | lia | auto].
      - apply final_same;
          [reflexivity
          | cbn; intros x Hx; apply elem_of_difference in Hx; tauto | |].
        + exists []. cbn. rewrite app_nil_r. reflexivity.
        + apply (final_store fs2 p d d2); [exact Hu2 | exact Hp2 | lia | auto]. }
    assert (Hp3 : heap fs3 !! p = Some d2) by (cbn; apply lookup_insert_eq).
    assert (Hout3 : p ∉ dentries fs3).
    { cbn. intros Hx. apply elem_of_difference in Hx as [_ Hx].
      apply Hx, elem_of_singleton. reflexivity. }
    destruct (vfsd_parent d2) as [pp |].
    - destruct (heap fs3 !! pp) as [parent |] eqn:Hpp; [| discriminate].
      cbn zeta.
      set (r := Int.i64 (refs parent - 1)).
      assert (Hlive : 0 <= r -> pp <> p /\ refs parent <> -1).
      { intros Hr. apply i64_pred_nonneg_live in Hr.
        split; [| exact Hr]. intros ->. rewrite Hp3 in Hpp.
        injection Hpp as <-. contradiction. }
      assert (Hpost4 : 0 <= r ->
        final_post fs (store pp (set_refs r parent) fs3)
        /\ heap (store pp (set_refs r parent) fs3) !! p = Some d2).
      { intros Hr. destruct (Hlive Hr) as [Hne Halive]. split.
        - eapply final_post_trans; [exact Hpost3 |].
          apply (final_store fs3 pp parent);
            [apply Hpost3 | exact Hpp | contradiction | cbn; lia].
        - cbn. rewrite lookup_insert_ne by exact Hne. exact Hp3. }
      destruct (Z.eqb_spec r 0) as [Hr0 | Hrne].
      + intros Hrun. destruct Hpost4 as [Hpost4 Hp4]; [lia |].
        apply Hcheck in Hrun; [| apply Hpost4].
        split; [eapply final_post_trans; eassumption |].
        destruct Hrun as (_ & Hstable & Hsub & _).
        split; [exists d2; split; [apply Hstable; assumption | auto] |].
        intros Hin. apply Hsub in Hin. exact (Hout3 Hin).
      + destruct (Z.ltb_spec r 0); [discriminate |]. intros [= <-].
        destruct Hpost4 as [Hpost4 Hp4]; [lia |].
        split; [exact Hpost4 |].
        split; [exists d2; split; [exact Hp4 | auto] | exact Hout3].
    - intros [= <-].
      split; [exact Hpost3 |].
      split; [exists d2; split; [exact Hp3 | auto] | exact Hout3]. }
  destruct (negb (isNil (h_file (handle (set_refs (-1) d)))));
    destruct (isNil (file _)) eqn:Hfile; cbn [negb fst snd];
    apply Hclosed; try reflexivity; try exact Hflag;
    try (destruct (file _); [discriminate Hfile | reflexivity]);
    repeat (destruct (handleWritable _)); cbn;
    try exact Hp;
    apply final_same; try reflexivity; try exact Hu;
    eexists; cbn; symmetry; apply app_nil_r.
Qed.

Lemma checkCachingLocked_final (fuel : nat) :
  forall (p : nat) (fs fs' : filesystem),
    destroyed_uncached fs -> checkCachingLocked fuel p fs = Done fs' ->
    final_post fs fs'.
Proof.
  induction fuel as [| fuel IH]; intros p fs fs' Hu; [discriminate |].
  cbn [checkCachingLocked].
  assert (Hu0 : destroyed_uncached (note_call fs)) by exact Hu.
  assert (Hcall : final_post fs (note_call fs)).
  { apply final_same; [reflexivity | reflexivity | | exact Hu].
    exists []. cbn. rewrite app_nil_r. reflexivity. }
  change (heap (note_call fs)) with (heap fs).
  destruct (heap fs !! p) as [d |] eqn:Hp; [| discriminate].
  assert (Hmaybe : final_post fs (if cached d then uncache p d (note_call fs)
                                  else note_call fs)).
  { destruct (cached d); [| exact Hcall].
    eapply final_post_trans; [exact Hcall |].
    apply final_uncache; assumption. }
  destruct (0 <? refs d); [intros [= <-]; exact Hmaybe |].
  destruct (Z.eqb_spec (refs d) (-1)) as [_ | Halive];
    [intros [= <-]; exact Hcall |].
  destruct (negb (bool_decide (is_Some (vfsd_parent d))) || vfsd_disowned d).
  { intros Hrun. eapply final_post_trans; [exact Hmaybe |].
    destruct (cached d) eqn:Hflag.
    - apply (fun H1 H2 H3 =>
               proj1 (destroyLocked_final _ p _ _ (set_cached false d) IH
                        H1 H2 H3 Hrun));
        [apply Hmaybe | cbn; apply lookup_insert_eq | reflexivity].
    - apply (fun H1 H2 H3 =>
               proj1 (destroyLocked_final _ p _ _ d IH H1 H2 H3 Hrun));
        [exact Hu0 | exact Hp | exact Hflag]. }
  destruct (cached d) eqn:Hflag.
  { intros [= <-]. apply final_same; [reflexivity | reflexivity | | exact Hu].
    exists []. cbn. rewrite app_nil_r. reflexivity. }
  set (fs3 := store p (set_cached true d) _).
  assert (Hpost3 : final_post fs fs3).
  { eapply final_post_trans; [exact Hcall |].
    eapply final_post_trans;
      [| apply (final_store _ p d); [| exact Hp | contradiction | cbn; lia]].
    - apply final_same; [reflexivity | reflexivity | | exact Hu0].
      exists []. cbn. rewrite app_nil_r. reflexivity.
    - exact Hu0. }
  destruct (_ <? _); [| intros [= <-]; exact Hpost3].
  destruct (Back _) as [v |]; [| discriminate].
  destruct (heap fs3 !! v) as [victim |] eqn:Hv; [| discriminate].
  assert (Hpost4 : final_post fs (note_evicted v (uncache v victim fs3))).
  { eapply final_post_trans; [exact Hpost3 |].
    eapply final_post_trans; [apply final_uncache; [apply Hpost3 | exact Hv] |].
    apply final_same; [reflexivity | reflexivity | eexists; reflexivity |].
    apply (final_uncache fs3 v victim); [apply Hpost3 | exact Hv]. }
  assert (Hv4 : heap (note_evicted v (uncache v victim fs3)) !! v
                = Some (set_cached false victim))
    by (cbn; apply lookup_insert_eq).
  destruct (Z.eqb_spec (refs victim) 0) as [Hzero | _];
    [| intros [= <-]; exact Hpost4].
  intros Hrun. eapply final_post_trans; [exact Hpost4 |].
  destruct (_ && _).
  - assert (Hforce : final_post (note_evicted v (uncache v victim fs3))
              (emit (EvForceDeleteDentry v)
                 (store v (set_vfsd_disowned true (set_cached false victim))
                    (note_evicted v (uncache v victim fs3))))).
    { assert (Hst : final_post (note_evicted v (uncache v victim fs3))
                (store v (set_vfsd_disowned true (set_cached false victim))
                   (note_evicted v (uncache v victim fs3)))).
      { apply (final_store _ v (set_cached false victim)
                 (set_vfsd_disowned true (set_cached false victim)));
          [apply Hpost4 | exact Hv4 | cbn; lia | reflexivity]. }
      eapply final_post_trans; [exact Hst |].
      apply final_same; [reflexivity | reflexivity | | apply Hst].
      exists []. cbn. rewrite app_nil_r. reflexivity. }
    eapply final_post_trans; [exact Hforce |].
    apply (fun H1 H2 H3 =>
             proj1 (destroyLocked_final _ v _ _
                      (set_vfsd_disowned true (set_cached false victim)) IH
                      H1 H2 H3 Hrun));
      [apply Hforce | cbn; apply lookup_insert_eq | reflexivity].
  - apply (fun H1 H2 H3 =>
             proj1 (destroyLocked_final _ v _ _ (set_cached false victim) IH
                      H1 H2 H3 Hrun));
      [apply Hpost4 | exact Hv4 | reflexivity].
Qed.

(** The step of [DecRef] before the caching check keeps both invariants
    when the count it stores is not negative. *)
Lemma DecRef_store_ok (p : nat) (fs : filesystem) (d : dentry) :
  heap fs !! p = Some d ->
  0 <= Int.i64 (refs d - 1) ->
  (lru_ok fs -> lru_ok (store p (set_refs (Int.i64 (refs d - 1)) d) fs))
  /\ (destroyed_uncached fs ->
      final_post fs (store p (set_refs (Int.i64 (refs d - 1)) d) fs)).
Proof.
  intros Hp Hr. split.
  - intros [Hwf Hcap]. split; [eapply lru_wf_store; eauto | exact Hcap].
  - intros Hu. apply (final_store fs p d); [exact Hu | exact Hp | |].
    + intros Hdead. apply i64_pred_nonneg_live in Hr. contradiction.
    + cbn. lia.
Qed.

(** X14: destruction is final.  From a state in which no destroyed dentry is
    flagged as cached, a DecRef that returns leaves every destroyed dentry
    exactly as it was, adds nothing to [fs.dentries], and no destroyed dentry
    is on the LRU list afterwards. *)
Theorem DecRef_destruction_final (fuel : nat) (p : nat)
    (fs fs' : filesystem) :
  lru_ok fs -> destroyed_uncached fs ->
  DecRef fuel p fs = Done fs' ->
  (forall q d, heap fs !! q = Some d -> refs d = -1 -> heap fs' !! q = Some d)
  /\ dentries fs' ⊆ dentries fs
  /\ (forall q d, heap fs' !! q = Some d -> refs d = -1 ->
                  q ∉ cachedDentries fs').
Proof.
  intros Hok Hu. unfold DecRef.
  destruct (heap fs !! p) as [d |] eqn:Hp; [| discriminate].
  set (r := Int.i64 (refs d - 1)).
  assert (Hboth : 0 <= r ->
    checkCachingLocked fuel p (store p (set_refs r d) fs) = Done fs'
    \/ Done (store p (set_refs r d) fs) = Done fs' ->
    final_post fs fs' /\ lru_ok fs').
  { intros Hr Hrun.
    destruct (DecRef_store_ok p fs d Hp Hr) as [Hok1 Hfin1].
    specialize (Hok1 Hok). specialize (Hfin1 Hu).
    destruct Hrun as [Hrun | [= <-]]; [| split; assumption].
    split.
    - eapply final_post_trans; [exact Hfin1 |].
      eapply checkCachingLocked_final; [apply Hfin1 | exact Hrun].
    - eapply checkCachingLocked_post in Hrun; [apply Hrun | exact Hok1]. }
  assert (Hgoal : final_post fs fs' /\ lru_ok fs' ->
    (forall q d, heap fs !! q = Some d -> refs d = -1 -> heap fs' !! q = Some d)
    /\ dentries fs' ⊆ dentries fs
    /\ (forall q d, heap fs' !! q = Some d -> refs d = -1 ->
                    q ∉ cachedDentries fs')).
  { intros [(Hu' & Hstable & Hsub & _) [Hwf' _]].
    split; [exact Hstable |]. split; [exact Hsub |].
    intros q dq Hq Hdead Hin.
    apply (wf_cached _ Hwf' q dq Hq) in Hin.
    rewrite (Hu' q dq Hq Hdead) in Hin. discriminate. }
  destruct (Z.eqb_spec r 0) as [Hr0 | Hrne].
  - intros Hrun. apply Hgoal, Hboth; [lia | left; exact Hrun].
  - destruct (Z.ltb_spec r 0); [discriminate |].
    intros Hrun. apply Hgoal, Hboth; [lia | right; exact Hrun].
Qed.

Lemma cascadeFs_destroyed_uncached : destroyed_uncached cascadeFs.
Proof.
  unfold destroyed_uncached.
  apply (proj1 (map_Forall_lookup
                  (fun (_ : nat) (d : dentry) => refs d = -1 -> cached d = false)
                  (heap cascadeFs))).
  refine (@bool_decide_unpack _ _ _). vm_compute. exact I.
Qed.

Lemma DecRef_destruction_final_witness :
  lru_ok cascadeFs /\ destroyed_uncached cascadeFs
  /\ DecRef 5 3 cascadeFs = Done cascadeEnd
  /\ dentries cascadeEnd ⊆ dentries cascadeFs.
Proof.
  assert (H : DecRef 5 3 cascadeFs = Done cascadeEnd)
    by (vm_compute; reflexivity).
  split; [exact cascadeFs_ok |]. split; [exact cascadeFs_destroyed_uncached |].
  split; [exact H |].
  apply (DecRef_destruction_final 5 3 cascadeFs cascadeEnd cascadeFs_ok
           cascadeFs_destroyed_uncached H).
Defined.

(** X15: the last DecRef on a dentry that has no parent or is disowned
    destroys it at once: when the DecRef returns the dentry is destroyed
    (count -1), its fid is closed, it has left [fs.dentries] and it is not on
    the LRU list. *)
Theorem DecRef_orphan_destroyed (fuel : nat) (p : nat) (fs fs' : filesystem)
    (d : dentry) :
  lru_ok fs -> destroyed_uncached fs ->
  heap fs !! p = Some d -> refs d = 1 ->
  vfsd_parent d = None \/ vfsd_disowned d = true ->
  DecRef fuel p fs = Done fs' ->
  (exists d', heap fs' !! p = Some d' /\ refs d' = -1 /\ file d' = None)
  /\ (p ∉ dentries fs')
  /\ (p ∉ cachedDentries fs').
Proof.
  intros Hok Hu Hp Hone Horphan. unfold DecRef. rewrite Hp, Hone.
  change (Int.i64 (1 - 1)) with 0. cbn [Z.eqb].
  destruct (DecRef_store_ok p fs d Hp) as [Hok1 Hfin1];
    [rewrite Hone; vm_compute; discriminate |].
  rewrite Hone in Hok1, Hfin1. change (Int.i64 (1 - 1)) with 0 in Hok1, Hfin1.
  specialize (Hok1 Hok). specialize (Hfin1 Hu).
  set (fs1 := store p (set_refs 0 d) fs) in *.
  intros Hrun.
  assert (Hok' : lru_ok fs')
    by (eapply checkCachingLocked_post in Hrun; [apply Hrun | exact Hok1]).
  destruct fuel as [| fuel]; [discriminate |].
  cbn [checkCachingLocked] in Hrun.
  change (heap (note_call fs1)) with (heap fs1) in Hrun.
  assert (Hp1 : heap fs1 !! p = Some (set_refs 0 d))
    by (cbn; apply lookup_insert_eq).
  rewrite Hp1 in Hrun. cbn [refs set_refs Z.ltb Z.eqb Z.compare] in Hrun.
  assert (Hcond : (negb (bool_decide (is_Some (vfsd_parent (set_refs 0 d))))
                   || vfsd_disowned (set_refs 0 d)) = true).
  { cbn. destruct Horphan as [-> | ->];
      [reflexivity | apply orb_true_r]. }
  rewrite Hcond in Hrun.
  assert (Hdone : (exists d', heap fs' !! p = Some d' /\ refs d' = -1
                              /\ file d' = None)
                  /\ (p ∉ dentries fs')
                  /\ destroyed_uncached fs').
  { destruct (cached (set_refs 0 d)) eqn:Hflag.
    - destruct (destroyLocked_final _ p _ _
                  (set_cached false (set_refs 0 d))
                  (checkCachingLocked_final fuel)
                  (proj1 (final_uncache (note_call fs1) p _ (proj1 Hfin1) Hp1))
                  (lookup_insert_eq _ _ _) eq_refl Hrun)
        as (Hfin & Hdead & Hout).
      split; [exact Hdead |]. split; [exact Hout | apply Hfin].
    - destruct (destroyLocked_final _ p (note_call fs1) _ (set_refs 0 d)
                  (checkCachingLocked_final fuel)
                  (proj1 Hfin1) Hp1 Hflag Hrun)
        as (Hfin & Hdead & Hout).
      split; [exact Hdead |]. split; [exact Hout | apply Hfin]. }
  destruct Hdone as ((d' & Hp' & Hdead & Hfile) & Hout & Hu').
  split; [eauto |]. split; [exact Hout |].
  intros Hin. apply (wf_cached _ (proj1 Hok') p d' Hp') in Hin.
  rewrite (Hu' p d' Hp' Hdead) in Hin. discriminate.
Qed.

Lemma DecRef_orphan_destroyed_witness :
  lru_ok orphanFs /\ destroyed_uncached orphanFs
  /\ DecRef 5 1 orphanFs = Done orphanEnd
  /\ (1%nat ∉ dentries orphanEnd)
  /\ (1%nat ∉ cachedDentries orphanEnd).
Proof.
  assert (Hok : lru_ok orphanFs).
  { split; [| cbn; lia].
    assert (Hnone : forall q dq, heap orphanFs !! q = Some dq ->
                                 cached dq = true -> False).
    { apply (proj1 (map_Forall_lookup
               (fun (_ : nat) (d : dentry) => cached d = true -> False)
               (heap orphanFs))).
      refine (@bool_decide_unpack _ _ _). vm_compute. exact I. }
    constructor; cbn; try lia; try apply NoDup_nil_2.
    - intros q dq Hq. split; [intros H; destruct (Hnone q dq Hq H) |].
      intros H. apply elem_of_nil in H. contradiction.
    - intros q H. apply elem_of_nil in H. contradiction. }
  assert (Hu : destroyed_uncached orphanFs).
  { unfold destroyed_uncached.
    apply (proj1 (map_Forall_lookup
             (fun (_ : nat) (d : dentry) => refs d = -1 -> cached d = false)
             (heap orphanFs))).
    refine (@bool_decide_unpack _ _ _). vm_compute. exact I. }
  assert (H : DecRef 5 1 orphanFs = Done orphanEnd)
    by (vm_compute; reflexivity).
  split; [exact Hok |]. split; [exact Hu |]. split; [exact H |].
  apply (DecRef_orphan_destroyed 5 1 orphanFs orphanEnd
           (set_vfsd_disowned true (node (Some 0%nat) 1 false)) Hok Hu);
    [reflexivity | reflexivity | right; reflexivity | exact H].
Defined.

(** X16: a dentry that is released while it is still on the LRU list (path
    resolution had taken a reference on a cached dentry) moves to the front
    of the list: the list keeps its members and its length, nothing is
    evicted and nothing is destroyed. *)
Theorem DecRef_cached_moves_to_front (fuel : nat) (p : nat) (fs : filesystem)
    (d : dentry) :
  lru_ok fs ->
  heap fs !! p = Some d -> refs d = 1 -> cached d = true ->
  is_Some (vfsd_parent d) -> vfsd_disowned d = false ->
  exists fs',
    DecRef (S fuel) p fs = Done fs'
    /\ cachedDentries fs' = p :: Remove p (cachedDentries fs)
    /\ (forall q, q ∈ cachedDentries fs' <-> q ∈ cachedDentries fs)
    /\ length (cachedDentries fs') = length (cachedDentries fs)
    /\ evicted fs' = evicted fs
    /\ dentries fs' = dentries fs
    /\ heap fs' = <[p := set_refs 0 d]> (heap fs).
Proof.
  intros [Hwf Hcap] Hp Hone Hflag Hparent Hown.
  unfold DecRef. rewrite Hp, Hone.
  change (Int.i64 (1 - 1)) with 0. cbn [Z.eqb].
  cbn [checkCachingLocked].
  change (heap (note_call (store p (set_refs 0 d) fs)))
    with (<[p := set_refs 0 d]> (heap fs)).
  rewrite lookup_insert_eq.
  cbn [refs set_refs Z.ltb Z.eqb Z.compare vfsd_parent vfsd_disowned cached].
  rewrite (bool_decide_eq_true_2 _ Hparent), Hown, Hflag. cbn [negb orb].
  eexists. split; [reflexivity |].
  assert (Hin : p ∈ cachedDentries fs) by (apply (wf_cached _ Hwf p d); assumption).
  cbn [cachedDentries evicted dentries heap set_list note_call store].
  split; [reflexivity |]. split; [| split].
  - intros q. unfold PushFront. rewrite elem_of_cons, elem_of_Remove.
    destruct (decide (q = p)) as [-> | Hne]; tauto.
  - unfold PushFront. cbn [length].
    apply (length_Remove p _ (wf_nodup _ Hwf) Hin).
  - repeat split.
Qed.

Lemma DecRef_cached_moves_to_front_witness :
  lru_ok revisitedFs
  /\ exists fs',
       DecRef 1 2 revisitedFs = Done fs'
       /\ cachedDentries fs' = [2%nat; 1%nat].
Proof.
  assert (Hok : lru_ok revisitedFs).
  { split; [| cbn; lia].
    constructor; cbn; try lia.
    - apply NoDup_cons. split; [| apply NoDup_singleton].
      intros H. apply list_elem_of_singleton in H. discriminate.
    - apply (proj1 (map_Forall_lookup
               (fun (q : nat) (d : dentry) =>
                  cached d = true <-> q ∈ [1%nat; 2%nat])
               (heap revisitedFs))).
      refine (@bool_decide_unpack _ _ _). vm_compute. exact I.
    - apply (proj1 (Forall_forall
               (fun q : nat => is_Some (heap revisitedFs !! q)) [1%nat; 2%nat])).
      refine (@bool_decide_unpack _ _ _). vm_compute. exact I. }
  split; [exact Hok |].
  destruct (DecRef_cached_moves_to_front 0 2 revisitedFs
              (node (Some 0%nat) 1 true) Hok)
    as (fs' & Hrun & Hlist & _);
    [reflexivity | reflexivity | reflexivity | eexists; reflexivity
    | reflexivity |].
  exists fs'. split; [exact Hrun |]. rewrite Hlist. reflexivity.
Defined.

(** X17: when the cache is full, the release of a dentry that is not cached
    evicts the least recently used one: the first new victim is the tail of
    the list as it is after the push, so the oldest cached dentry, or the
    released dentry itself when the cap is 0. *)
Theorem DecRef_evicts_least_recent (fuel : nat) (p : nat)
    (fs fs' : filesystem) (d : dentry) :
  lru_ok fs -> destroyed_uncached fs ->
  heap fs !! p = Some d -> refs d = 1 -> cached d = false ->
  is_Some (vfsd_parent d) -> vfsd_disowned d = false ->
  cachedDentriesLen fs = maxCachedDentries fs ->
  DecRef fuel p fs = Done fs' ->
  exists v rest,
    last (p :: cachedDentries fs) = Some v
    /\ evicted fs' = evicted fs ++ v :: rest.
Proof.
  intros Hok Hu Hp Hone Hflag Hparent Hown Hfull.
  pose proof (wf_max _ (proj1 Hok)) as Hmax.
  unfold DecRef. rewrite Hp, Hone.
  change (Int.i64 (1 - 1)) with 0. cbn [Z.eqb].
  destruct (DecRef_store_ok p fs d Hp) as [_ Hfin1];
    [rewrite Hone; vm_compute; discriminate |].
  rewrite Hone in Hfin1. change (Int.i64 (1 - 1)) with 0 in Hfin1.
  specialize (Hfin1 Hu).
  set (fs1 := store p (set_refs 0 d) fs) in *.
  destruct fuel as [| fuel]; [discriminate |].
  cbn [checkCachingLocked].
  change (heap (note_call fs1)) with (<[p := set_refs 0 d]> (heap fs)).
  rewrite lookup_insert_eq.
  cbn [refs set_refs Z.ltb Z.eqb Z.compare vfsd_parent vfsd_disowned cached].
  rewrite (bool_decide_eq_true_2 _ Hparent), Hown, Hflag. cbn [negb orb].
  set (fs3 := store p (set_cached true (set_refs 0 d)) _).
  assert (Hlen3 : cachedDentriesLen fs3 = maxCachedDentries fs + 1).
  { cbn. rewrite Hfull. unfold Int.u64. apply Z.mod_small. lia. }
  assert (Hfin3 : final_post fs fs3).
  { eapply final_post_trans; [exact Hfin1 |].
    eapply final_post_trans.
    - apply (final_same fs1
               (set_len (Int.u64 (cachedDentriesLen fs1 + 1))
                  (set_list (PushFront p (cachedDentries fs1)) (note_call fs1))));
        [reflexivity | reflexivity | | apply Hfin1].
      exists []. cbn. rewrite app_nil_r. reflexivity.
    - apply (final_store _ p (set_refs 0 d));
        [apply Hfin1 | cbn; apply lookup_insert_eq | cbn; lia | cbn; lia]. }
  destruct (Z.ltb_spec (maxCachedDentries fs3) (cachedDentriesLen fs3))
    as [_ | Hno]; [| rewrite Hlen3 in Hno; cbn in Hno; lia].
  change (cachedDentries fs3) with (p :: cachedDentries fs).
  unfold Back.
  destruct (last (p :: cachedDentries fs)) as [v |] eqn:Hlast; [| discriminate].
  destruct (heap fs3 !! v) as [victim |] eqn:Hv; [| discriminate].
  assert (Hfin4 : final_post fs3 (note_evicted v (uncache v victim fs3))).
  { eapply final_post_trans;
      [apply final_uncache; [apply Hfin3 | exact Hv] |].
    apply final_same; [reflexivity | reflexivity | eexists; reflexivity |].
    apply (final_uncache fs3 v victim); [apply Hfin3 | exact Hv]. }
  assert (Hv4 : heap (note_evicted v (uncache v victim fs3)) !! v
                = Some (set_cached false victim))
    by (cbn; apply lookup_insert_eq).
  destruct (Z.eqb_spec (refs victim) 0) as [Hzero | _].
  2: { intros [= <-]. exists v, []. split; [reflexivity | reflexivity]. }
  intros Hrun. exists v.
  assert (Hrest : exists rest,
    evicted fs' = evicted (note_evicted v (uncache v victim fs3)) ++ rest).
  { destruct (_ && _).
    - assert (Hst : final_post (note_evicted v (uncache v victim fs3))
                (store v (set_vfsd_disowned true (set_cached false victim))
                   (note_evicted v (uncache v victim fs3)))).
      { apply (final_store _ v (set_cached false victim)
                 (set_vfsd_disowned true (set_cached false victim)));
          [apply Hfin4 | exact Hv4 | cbn; lia | reflexivity]. }
      pose proof (proj1 (destroyLocked_final _ v
                    (emit (EvForceDeleteDentry v)
                       (store v (set_vfsd_disowned true (set_cached false victim))
                          (note_evicted v (uncache v victim fs3))))
                    _ (set_vfsd_disowned true (set_cached false victim))
                    (checkCachingLocked_final fuel)
                    (proj1 Hst) (lookup_insert_eq _ _ _) eq_refl Hrun))
        as (_ & _ & _ & Hev).
      exact Hev.
    - pose proof (proj1 (destroyLocked_final _ v _ _ (set_cached false victim)
                    (checkCachingLocked_final fuel)
                    (proj1 Hfin4) Hv4 eq_refl Hrun))
        as (_ & _ & _ & Hev).
      exact Hev. }
  destruct Hrest as [rest Hrest]. exists rest.
  split; [reflexivity |]. rewrite Hrest. cbn. rewrite <- app_assoc. reflexivity.
Qed.

Lemma DecRef_evicts_least_recent_witness :
  lru_ok cascadeFs /\ destroyed_uncached cascadeFs
  /\ DecRef 5 3 cascadeFs = Done cascadeEnd
  /\ exists v rest,
       last (3%nat :: cachedDentries cascadeFs) = Some v
       /\ evicted cascadeEnd = evicted cascadeFs ++ v :: rest.
Proof.
  assert (H : DecRef 5 3 cascadeFs = Done cascadeEnd)
    by (vm_compute; reflexivity).
  split; [exact cascadeFs_ok |]. split; [exact cascadeFs_destroyed_uncached |].
  split; [exact H |].
  apply (DecRef_evicts_least_recent 5 3 cascadeFs cascadeEnd
           (node (Some 0%nat) 1 false) cascadeFs_ok
           cascadeFs_destroyed_uncached);
    [reflexivity | reflexivity | reflexivity | eexists; reflexivity
    | reflexivity | reflexivity | exact H].
Defined.

(** * Further properties of the handle upgrade *)

(** The ways [ensureSharedHandle] can end, with the handle [openHandle]
    returned when it was called. *)
Lemma ensureSharedHandle_cases (stale : bool) (env : HandleEnv) (d : dentry)
    (read write trunc : bool) :
  let wantR := handleReadable d || read in
  let wantW := handleWritable d || write in
  let run := ensureSharedHandle stale env d read write trunc in
  (* nothing to do *)
  (negb trunc && ((negb read || handleReadable d)
                  && (negb write || handleWritable d)) = true
   /\ run = (None, d, []))
  \/ (* the open failed *)
     (exists err, openHandle env (file d) wantR wantW trunc = inl err
                  /\ run = (Some err, d, [EvOpenHandle (file d) wantR wantW trunc]))
  \/ (* a later step failed and the new handle was closed *)
     (exists h err h' t, openHandle env (file d) wantR wantW trunc = inr h
                         /\ h_file h' = h_file h
                         /\ run = (Some err, d, t ++ [EvHandleClose h']))
  \/ (* the new handle was installed *)
     (exists h d' t, openHandle env (file d) wantR wantW trunc = inr h
                     /\ run = (None, d', t)
                     /\ h_file (handle d') = h_file h
                     /\ handleReadable d' = wantR
                     /\ handleWritable d' = wantW).
Proof.
  cbn zeta. unfold ensureSharedHandle.
  destruct (negb trunc && _) eqn:Hfast; [left; split; reflexivity |].
  right.
  assert (Hneed : (read && negb (handleReadable d))
                  || (write && negb (handleWritable d)) || trunc = true).
  { destruct trunc, read, write, (handleReadable d), (handleWritable d);
      try reflexivity; discriminate Hfast. }
  rewrite Hneed.
  destruct (openHandle env _ _ _ _) as [err | h] eqn:Hopen;
    [left; eauto |].
  right.
  destruct (negb (isNil (h_file (handle d)))).
  - destruct (negb (eqb _ _)).
    { left. exists h, EIO, h, [EvOpenHandle (file d)
                                 (handleReadable d || read)
                                 (handleWritable d || write) trunc; EvWarning].
      repeat split. }
    destruct (0 <=? fd (handle d)).
    + destruct (Dup3 env _ _).
      { left. exists h, e, h.
        exists [EvOpenHandle (file d) (handleReadable d || read)
                  (handleWritable d || write) trunc;
                EvDup3 (fd h) (fd (handle d)); EvWarning].
        repeat split. }
      destruct stale.
      * destruct (RegenerateMappings env _) eqn:Hregen.
        { left. exists h, e, (mkHandle (h_file h) (fd (handle d))).
          exists [EvOpenHandle (file d) (handleReadable d || read)
                    (handleWritable d || write) trunc;
                  EvDup3 (fd h) (fd (handle d)); EvCloseFD (fd h);
                  EvRegenerateMappings (fd (handle d)); EvWarning].
          repeat split. }
        right. do 3 eexists. split; [reflexivity |].
        split; [reflexivity |]. repeat split.
      * right. do 3 eexists. split; [reflexivity |].
        split; [reflexivity |]. repeat split.
    + right. do 3 eexists. split; [reflexivity |].
      rewrite andb_false_r. split; [reflexivity |]. repeat split.
  - right. do 3 eexists. split; [reflexivity |].
    rewrite andb_false_r. split; [reflexivity |]. repeat split.
Qed.

(** X18: handles are never downgraded.  Whatever [ensureSharedHandle]
    returns, a handle that was readable or writable still is; after success
    the handle has every capability that was asked for. *)
Theorem ensureSharedHandle_never_downgrades (stale : bool) (env : HandleEnv)
    (d d' : dentry) (read write trunc : bool) (r : option errno)
    (t : list event) :
  ensureSharedHandle stale env d read write trunc = (r, d', t) ->
  (handleReadable d = true -> handleReadable d' = true)
  /\ (handleWritable d = true -> handleWritable d' = true)
  /\ (r = None ->
      (read = true -> handleReadable d' = true)
      /\ (write = true -> handleWritable d' = true)).
Proof.
  intros Hrun.
  destruct (ensureSharedHandle_cases stale env d read write trunc)
    as [[Hfast H] | [(err & _ & H) | [(h & err & h' & t0 & _ & _ & H)
       | (h & d0 & t0 & _ & H & _ & Hr & Hw)]]];
    rewrite H in Hrun; injection Hrun as <- <- <-.
  - split; [auto |]. split; [auto |]. intros _.
    destruct trunc, read, write, (handleReadable d), (handleWritable d);
      try discriminate Hfast; split; auto.
  - split; [auto |]. split; [auto |]. discriminate.
  - split; [auto |]. split; [auto |]. discriminate.
  - rewrite Hr, Hw. split; [intros ->; reflexivity |].
    split; [intros ->; reflexivity |]. intros _.
    split; intros ->; apply orb_true_r.
Qed.

Lemma ensureSharedHandle_never_downgrades_witness :
  ensureSharedHandle false fdEnv readOnlyFile false true false
  = (None,
     set_handleWritable true
       (set_handleReadable true
          (set_handle (mkHandle (Some 9%nat) 5) readOnlyFile)),
     [EvOpenHandle (Some 7%nat) true true false; EvDup3 6 5; EvCloseFD 6;
      EvFileClose (Some 8%nat)])
  /\ handleReadable
       (set_handleWritable true
          (set_handleReadable true
             (set_handle (mkHandle (Some 9%nat) 5) readOnlyFile))) = true.
Proof.
  assert (H : ensureSharedHandle false fdEnv readOnlyFile false true false
              = (None,
                 set_handleWritable true
                   (set_handleReadable true
                      (set_handle (mkHandle (Some 9%nat) 5) readOnlyFile)),
                 [EvOpenHandle (Some 7%nat) true true false; EvDup3 6 5;
                  EvCloseFD 6; EvFileClose (Some 8%nat)]))
    by reflexivity.
  split; [exact H |].
  exact (proj1 (ensureSharedHandle_never_downgrades _ _ _ _ _ _ _ _ _ H)
           eq_refl).
Defined.

(** X19: a failed upgrade changes nothing and leaks nothing.  When
    [ensureSharedHandle] fails the dentry is as it was, and if the open had
    succeeded the last thing the function does is to close the handle of the
    fid it had just opened. *)
Theorem ensureSharedHandle_failure_closes (stale : bool) (env : HandleEnv)
    (d d' : dentry) (read write trunc : bool) (err : errno) (t : list event) :
  ensureSharedHandle stale env d read write trunc = (Some err, d', t) ->
  d' = d
  /\ (forall h,
        openHandle env (file d) (handleReadable d || read)
          (handleWritable d || write) trunc = inr h ->
        exists h' t0, t = t0 ++ [EvHandleClose h'] /\ h_file h' = h_file h).
Proof.
  intros Hrun.
  destruct (ensureSharedHandle_cases stale env d read write trunc)
    as [[Hfast H] | [(e & Hopen & H) | [(h & e & h' & t0 & Hopen & Hfile & H)
       | (h & d0 & t0 & _ & H & _)]]];
    rewrite H in Hrun; try discriminate; injection Hrun as <- <- <-.
  - split; [reflexivity |]. intros h Hh. rewrite Hh in Hopen. discriminate.
  - split; [reflexivity |]. intros h0 Hh. rewrite Hh in Hopen.
    injection Hopen as ->. eauto.
Qed.

Lemma ensureSharedHandle_failure_closes_witness :
  ensureSharedHandle false dupFailEnv readOnlyFile true true false
  = (Some (Eserver 24), readOnlyFile,
     [EvOpenHandle (Some 7%nat) true true false; EvDup3 6 5; EvWarning]
     ++ [EvHandleClose (mkHandle (Some 9%nat) 6)])
  /\ readOnlyFile = readOnlyFile.
Proof.
  assert (H : ensureSharedHandle false dupFailEnv readOnlyFile true true false
              = (Some (Eserver 24), readOnlyFile,
                 [EvOpenHandle (Some 7%nat) true true false; EvDup3 6 5;
                  EvWarning]
                 ++ [EvHandleClose (mkHandle (Some 9%nat) 6)]))
    by reflexivity.
  split; [exact H |].
  exact (proj1 (ensureSharedHandle_failure_closes _ _ _ _ _ _ _ _ _ H)).
Defined.

(** X20: an upgrade is done once.  After a successful
    [ensureSharedHandle], the same request without truncation, in any
    environment, finds the handle sufficient: it returns at once, opens
    nothing and leaves the dentry alone. *)
Theorem ensureSharedHandle_idempotent (stale stale' : bool)
    (env env' : HandleEnv) (d d' : dentry) (read write trunc : bool)
    (t : list event) :
  ensureSharedHandle stale env d read write trunc = (None, d', t) ->
  ensureSharedHandle stale' env' d' read write false = (None, d', []).
Proof.
  intros Hrun.
  assert (Hflags : (read = true -> handleReadable d' = true)
                   /\ (write = true -> handleWritable d' = true)).
  { destruct (ensureSharedHandle_cases stale env d read write trunc)
      as [[Hfast H] | [(err & _ & H) | [(h & err & h' & t0 & _ & _ & H)
         | (h & d0 & t0 & _ & H & _ & Hr & Hw)]]];
      rewrite H in Hrun; try discriminate; injection Hrun as <- <-.
    - destruct trunc, read, write, (handleReadable d), (handleWritable d);
        try discriminate Hfast; split; auto.
    - rewrite Hr, Hw. split; intros ->; apply orb_true_r. }
  destruct Hflags as [Hr Hw]. unfold ensureSharedHandle.
  destruct read, write; cbn [negb andb orb];
    rewrite ?Hr, ?Hw by reflexivity; reflexivity.
Qed.

Lemma ensureSharedHandle_idempotent_witness :
  ensureSharedHandle false fdEnv readOnlyFile true true false
  = (None,
     set_handleWritable true
       (set_handleReadable true
          (set_handle (mkHandle (Some 9%nat) 5) readOnlyFile)),
     [EvOpenHandle (Some 7%nat) true true false; EvDup3 6 5; EvCloseFD 6;
      EvFileClose (Some 8%nat)])
  /\ ensureSharedHandle true noFDEnv
       (set_handleWritable true
          (set_handleReadable true
             (set_handle (mkHandle (Some 9%nat) 5) readOnlyFile)))
       true true false
     = (None,
        set_handleWritable true
          (set_handleReadable true
             (set_handle (mkHandle (Some 9%nat) 5) readOnlyFile)), []).
Proof.
  assert (H : ensureSharedHandle false fdEnv readOnlyFile true true false
              = (None,
                 set_handleWritable true
                   (set_handleReadable true
                      (set_handle (mkHandle (Some 9%nat) 5) readOnlyFile)),
                 [EvOpenHandle (Some 7%nat) true true false; EvDup3 6 5;
                  EvCloseFD 6; EvFileClose (Some 8%nat)]))
    by reflexivity.
  split; [exact H |].
  exact (ensureSharedHandle_idempotent false true fdEnv noFDEnv _ _ _ _ _ _ H).
Defined.



(** * Link counts, new dentries, mount options, release *)

(** X22: link counts.  For a count in the range of [uint32], [incLinks]
    faults exactly on 0 and on 2^32 - 1 and [decLinks] exactly on 1; a count
    of 0 makes [decLinks] wrap to 2^32 - 1.  Where [incLinks] returns,
    [decLinks] undoes it. *)
Theorem links_faults_and_round_trip (d : dentry) :
  0 <= nlink d < 2 ^ 32 ->
  ((exists msg, incLinks d = Panics msg)
   <-> nlink d = 0 \/ nlink d = 2 ^ 32 - 1)
  /\ ((exists msg, decLinks d = Panics msg) <-> nlink d = 1)
  /\ (nlink d = 0 -> decLinks d = Returns (set_nlink (2 ^ 32 - 1) d))
  /\ (forall d1, incLinks d = Returns d1 ->
        nlink d1 = nlink d + 1 /\ decLinks d1 = Returns d).
Proof.
  intros Hrange. unfold incLinks, decLinks, Int.u32.
  assert (Hinc : nlink d < 2 ^ 32 - 1 -> (nlink d + 1) mod 2 ^ 32 = nlink d + 1)
    by (intros; apply Z.mod_small; lia).
  assert (Hinc' : nlink d = 2 ^ 32 - 1 -> (nlink d + 1) mod 2 ^ 32 = 0)
    by (intros ->; reflexivity).
  assert (Hdec : 0 < nlink d ->
                 (nlink d + (2 ^ 32 - 1)) mod 2 ^ 32 = nlink d - 1).
  { intros Hpos.
    replace (nlink d + (2 ^ 32 - 1)) with (nlink d - 1 + 1 * 2 ^ 32) by lia.
    rewrite Z.mod_add by lia. apply Z.mod_small. lia. }
  assert (Hdec0 : nlink d = 0 ->
                  (nlink d + (2 ^ 32 - 1)) mod 2 ^ 32 = 2 ^ 32 - 1)
    by (intros ->; reflexivity).
  split; [| split; [| split]].
  - destruct (Z.eq_dec (nlink d) (2 ^ 32 - 1)) as [Htop | Hnot].
    + rewrite (Hinc' Htop). cbn. split; eauto.
    + rewrite Hinc by lia.
      destruct (Z.ltb_spec (nlink d + 1) 2); split.
      * intros _. left. lia.
      * eauto.
      * intros [msg H']. discriminate.
      * intros [? | ?]; lia.
  - destruct (Z.eq_dec (nlink d) 0) as [Hz | Hnz].
    + rewrite (Hdec0 Hz). cbn. split; [intros [msg H']; discriminate | lia].
    + rewrite Hdec by lia.
      destruct (Z.eqb_spec (nlink d - 1) 0); split;
        try (intros [msg H']; discriminate); eauto; lia.
  - intros Hz. rewrite (Hdec0 Hz). reflexivity.
  - intros d1.
    destruct (Z.eq_dec (nlink d) (2 ^ 32 - 1)) as [Htop | Hnot];
      [rewrite (Hinc' Htop); discriminate |].
    rewrite Hinc by lia.
    destruct (Z.ltb_spec (nlink d + 1) 2); [discriminate |].
    intros [= <-]. cbn [nlink set_nlink]. split; [reflexivity |].
    replace ((nlink d + 1 + (2 ^ 32 - 1)) mod 2 ^ 32) with (nlink d).
    + destruct (Z.eqb_spec (nlink d) 0); [lia |].
      f_equal. destruct d; reflexivity.
    + replace (nlink d + 1 + (2 ^ 32 - 1)) with (nlink d + 1 * 2 ^ 32) by lia.
      rewrite Z.mod_add by lia. symmetry. apply Z.mod_small. lia.
Qed.

Lemma links_faults_and_round_trip_witness :
  0 <= nlink sampleFile < 2 ^ 32
  /\ incLinks sampleFile = Returns (set_nlink 2 sampleFile)
  /\ decLinks (set_nlink 2 sampleFile) = Returns sampleFile
  /\ exists msg, decLinks sampleFile = Panics msg.
Proof.
  assert (Hr : 0 <= nlink sampleFile < 2 ^ 32) by (split; [discriminate | reflexivity]).
  destruct (links_faults_and_round_trip sampleFile Hr)
    as (_ & Hdec & _ & Hround).
  split; [exact Hr |]. split; [reflexivity |].
  split; [apply (Hround (set_nlink 2 sampleFile)); reflexivity |].
  apply Hdec. reflexivity.
Defined.

Lemma if_keep (b : bool) (x y : dentry) :
  (b = true -> x = y) -> (if b then x else y) = y.
Proof. destruct b; auto. Qed.

Lemma proj_if {A : Type} (f : dentry -> A) (b : bool) (x y : dentry) :
  f x = f y -> f (if b then x else y) = f y.
Proof. destruct b; auto. Qed.

(** A dentry that already holds the attributes of an update is its fixed
    point. *)
Lemma updateFromP9Attrs_fixpoint (mask : p9.AttrMask) (attr : p9.Attr)
    (d : dentry) :
  (p9.Mode mask = true -> mode d = Int.u32 (p9.aMode attr)) ->
  (p9.UID mask = true -> uid d = Int.u32 (p9.aUID attr)) ->
  (p9.GID mask = true -> gid d = Int.u32 (p9.aGID attr)) ->
  (p9.aBlockSize attr <> 0 -> blockSize d = Int.u32 (p9.aBlockSize attr)) ->
  (p9.ATime mask = true ->
   atime d = dentryTimestampFromP9 (p9.ATimeSeconds attr)
               (p9.ATimeNanoSeconds attr)) ->
  (p9.MTime mask = true ->
   mtime d = dentryTimestampFromP9 (p9.MTimeSeconds attr)
               (p9.MTimeNanoSeconds attr)) ->
  (p9.CTime mask = true ->
   ctime d = dentryTimestampFromP9 (p9.CTimeSeconds attr)
               (p9.CTimeNanoSeconds attr)) ->
  (p9.BTime mask = true ->
   btime d = dentryTimestampFromP9 (p9.BTimeSeconds attr)
               (p9.BTimeNanoSeconds attr)) ->
  (p9.NLink mask = true -> nlink d = Int.u32 (p9.aNLink attr)) ->
  (p9.Size mask = true -> size d = p9.aSize attr) ->
  updateFromP9Attrs mask attr d = Returns d.
Proof.
  intros Hmode Huid Hgid Hblk Hat Hmt Hct Hbt Hnl Hsz.
  unfold updateFromP9Attrs.
  assert (Hcheck : p9.Mode mask
                   && negb (Int.u32 (p9.FileType (p9.aMode attr)) =? fileType d)
                   = false).
  { destruct (p9.Mode mask); [| reflexivity]. cbn [andb].
    apply negb_false_iff, Z.eqb_eq. unfold fileType, p9.FileType.
    rewrite Hmode by reflexivity. symmetry. apply fileType_u32. }
  rewrite Hcheck. cbv zeta.
  rewrite (if_keep (p9.Mode mask) _ d)
    by (intros H; rewrite <- (Hmode H); destruct d; reflexivity).
  rewrite (if_keep (p9.UID mask) _ d)
    by (intros H; rewrite <- (Huid H); destruct d; reflexivity).
  rewrite (if_keep (p9.GID mask) _ d)
    by (intros H; rewrite <- (Hgid H); destruct d; reflexivity).
  rewrite (if_keep (negb (p9.aBlockSize attr =? 0)) _ d).
  2: { intros H. apply negb_true_iff, Z.eqb_neq in H.
       rewrite <- (Hblk H). destruct d; reflexivity. }
  rewrite (if_keep (p9.ATime mask) _ d)
    by (intros H; rewrite <- (Hat H); destruct d; reflexivity).
  rewrite (if_keep (p9.MTime mask) _ d)
    by (intros H; rewrite <- (Hmt H); destruct d; reflexivity).
  rewrite (if_keep (p9.CTime mask) _ d)
    by (intros H; rewrite <- (Hct H); destruct d; reflexivity).
  rewrite (if_keep (p9.BTime mask) _ d)
    by (intros H; rewrite <- (Hbt H); destruct d; reflexivity).
  rewrite (if_keep (p9.NLink mask) _ d)
    by (intros H; rewrite <- (Hnl H); destruct d; reflexivity).
  rewrite (if_keep (p9.Size mask) _ d)
    by (intros H; rewrite <- (Hsz H); destruct d; reflexivity).
  reflexivity.
Qed.

Ltac through_ifs f := rewrite ?(proj_if f) by reflexivity.

(** The dentry that a successful [newDentry] stores. *)
Lemma newDentry_inv (fsuid fsgid : Z) (p : nat) (f : p9file) (path : Z)
    (mask : p9.AttrMask) (attr : p9.Attr) (fs fs' : filesystem) (q : nat) :
  newDentry fsuid fsgid p f path mask attr fs = (inr q, fs') ->
  q = p
  /\ p9.Mode mask = true
  /\ (p9.FileType (p9.aMode attr) = ModeRegular -> p9.Size mask = true)
  /\ exists d,
       fs' = set_dentries (dentries fs ∪ {[p]}) (store p d fs)
       /\ (refs d = 0 /\ cached d = false /\ vfsd_parent d = None
           /\ vfsd_disowned d = false)
       /\ (handle d = mkHandle None (-1)
           /\ handleReadable d = false /\ handleWritable d = false
           /\ cache d = [] /\ dirty d = [] /\ mappings d = [])
       /\ (ino d = path /\ file d = f /\ mode d = Int.u32 (p9.aMode attr))
       /\ uid d = Int.u32 (if p9.UID mask then p9.aUID attr else fsuid)
       /\ gid d = Int.u32 (if p9.GID mask then p9.aGID attr else fsgid)
       /\ size d = (if p9.Size mask then p9.aSize attr else 0)
       /\ updateFromP9Attrs mask attr d = Returns d.
Proof.
  unfold newDentry.
  destruct (p9.Mode mask) eqn:Hmode; [| discriminate]. cbn [negb].
  destruct ((p9.FileType (p9.aMode attr) =? ModeRegular) && negb (p9.Size mask))
    eqn:Hreg; [discriminate |].
  cbv zeta. intros [= <- <-].
  split; [reflexivity |]. split; [reflexivity |]. split.
  { intros Htype. rewrite Htype in Hreg. cbn in Hreg.
    apply negb_false_iff in Hreg. exact Hreg. }
  match goal with
  | |- context [store p ?D fs] => set (d0 := D)
  end.
  exists d0. split; [reflexivity |].
  assert (Huid : uid d0 = Int.u32 (if p9.UID mask then p9.aUID attr else fsuid)).
  { unfold d0. through_ifs uid. destruct (p9.UID mask); reflexivity. }
  assert (Hgid : gid d0 = Int.u32 (if p9.GID mask then p9.aGID attr else fsgid)).
  { unfold d0. through_ifs gid.
    destruct (p9.GID mask); through_ifs gid; reflexivity. }
  assert (Hsize : size d0 = (if p9.Size mask then p9.aSize attr else 0)).
  { unfold d0. through_ifs size.
    destruct (p9.Size mask); through_ifs size; reflexivity. }
  assert (Hmo : mode d0 = Int.u32 (p9.aMode attr))
    by (unfold d0; through_ifs mode; reflexivity).
  split; [repeat split; unfold d0;
          [through_ifs refs | through_ifs cached | through_ifs vfsd_parent
          | through_ifs vfsd_disowned]; reflexivity |].
  split; [repeat split; unfold d0;
          [through_ifs handle | through_ifs handleReadable
          | through_ifs handleWritable | through_ifs cache | through_ifs dirty
          | through_ifs mappings]; reflexivity |].
  split; [repeat split; [unfold d0; through_ifs ino; reflexivity
                        | unfold d0; through_ifs file; reflexivity
                        | exact Hmo] |].
  split; [exact Huid |]. split; [exact Hgid |]. split; [exact Hsize |].
  apply updateFromP9Attrs_fixpoint.
  - intros _. exact Hmo.
  - intros H. rewrite Huid, H. reflexivity.
  - intros H. rewrite Hgid, H. reflexivity.
  - intros H. unfold d0. through_ifs blockSize.
    destruct (Z.eqb_spec (p9.aBlockSize attr) 0); [contradiction | reflexivity].
  - intros H. unfold d0. through_ifs atime. rewrite H. reflexivity.
  - intros H. unfold d0. through_ifs mtime. rewrite H. reflexivity.
  - intros H. unfold d0. through_ifs ctime. rewrite H. reflexivity.
  - intros H. unfold d0. through_ifs btime. rewrite H. reflexivity.
  - intros H. unfold d0. through_ifs nlink. rewrite H. reflexivity.
  - intros H. rewrite Hsize, H. reflexivity.
Qed.

(** X23: [newDentry] refuses attributes without a file type, and attributes
    of a regular file without a size, with EIO and nothing but a warning;
    otherwise the dentry it registers is fresh: no references, not cached, no
    parent, no open handle, no cached pages, and the fid and inode number it
    was given. *)
Theorem newDentry_fresh (fsuid fsgid : Z) (p : nat) (f : p9file) (path : Z)
    (mask : p9.AttrMask) (attr : p9.Attr) (fs : filesystem) :
  let bad := negb (p9.Mode mask)
             || ((p9.FileType (p9.aMode attr) =? ModeRegular)
                 && negb (p9.Size mask)) in
  (bad = true ->
   newDentry fsuid fsgid p f path mask attr fs = (inl EIO, emit EvWarning fs))
  /\ (bad = false ->
      exists d,
        newDentry fsuid fsgid p f path mask attr fs
        = (inr p, set_dentries (dentries fs ∪ {[p]}) (store p d fs))
        /\ (refs d = 0 /\ cached d = false /\ vfsd_parent d = None
            /\ vfsd_disowned d = false)
        /\ (handle d = mkHandle None (-1)
            /\ handleReadable d = false /\ handleWritable d = false
            /\ cache d = [] /\ dirty d = [] /\ mappings d = [])
        /\ (ino d = path /\ file d = f /\ mode d = Int.u32 (p9.aMode attr))).
Proof.
  cbn zeta. split.
  - intros Hbad. unfold newDentry.
    destruct (p9.Mode mask); cbn [negb orb] in *; [| reflexivity].
    rewrite Hbad. reflexivity.
  - intros Hgood.
    destruct (newDentry fsuid fsgid p f path mask attr fs) as [[err | q] fs']
      eqn:Hrun.
    + exfalso. unfold newDentry in Hrun.
      destruct (p9.Mode mask); cbn [negb orb] in *; [| discriminate].
      rewrite Hgood in Hrun. cbv zeta in Hrun. discriminate.
    + apply newDentry_inv in Hrun
        as (-> & _ & _ & d & -> & H1 & H2 & H3 & _).
      exists d. auto.
Qed.

Lemma newDentry_fresh_witness :
  exists d,
    newDentry 0 0 4 (Some 11%nat) 77 sizeAttrMask sizeAttr cascadeFs
    = (inr 4%nat,
       set_dentries (dentries cascadeFs ∪ {[4%nat]}) (store 4 d cascadeFs))
    /\ refs d = 0 /\ ino d = 77.
Proof.
  destruct (proj2 (newDentry_fresh 0 0 4 (Some 11%nat) 77 sizeAttrMask
                     sizeAttr cascadeFs) eq_refl)
    as (d & Hrun & (Hrefs & _) & _ & (Hino & _)).
  exists d. split; [exact Hrun |]. split; [exact Hrefs | exact Hino].
Defined.

(** X24: [newDentry] at a free address keeps the cache invariant: the LRU
    list is untouched, every other dentry is as it was, and the new dentry
    is neither cached nor destroyed. *)
Theorem newDentry_keeps_invariants (fsuid fsgid : Z) (p : nat) (f : p9file)
    (path : Z) (mask : p9.AttrMask) (attr : p9.Attr) (fs fs' : filesystem)
    (r : errno + nat) :
  lru_ok fs -> destroyed_uncached fs -> heap fs !! p = None ->
  newDentry fsuid fsgid p f path mask attr fs = (r, fs') ->
  lru_ok fs' /\ destroyed_uncached fs'
  /\ cachedDentries fs' = cachedDentries fs
  /\ (forall q, q <> p -> heap fs' !! q = heap fs !! q).
Proof.
  intros [Hwf Hcap] Hu Hfree Hrun.
  destruct r as [err | q].
  - unfold newDentry in Hrun.
    assert (Hfs : fs' = emit EvWarning fs).
    { destruct (negb (p9.Mode mask)); [congruence |].
      destruct (_ && _); [congruence |]. cbv zeta in Hrun. discriminate. }
    subst fs'. split; [split; [| exact Hcap] |].
    + eapply lru_wf_same; [| | | | exact Hwf]; reflexivity.
    + split; [exact Hu |]. split; reflexivity.
  - apply newDentry_inv in Hrun
      as (-> & _ & _ & d & -> & (Hrefs & Hflag & _) & _).
    destruct Hwf as [Hlen Hmax Hroom Hnd Hc Hh].
    assert (Hnotin : p ∉ cachedDentries fs).
    { intros Hin. apply Hh in Hin as [d0 Hd0]. congruence. }
    split; [split; [constructor; cbn; try assumption | exact Hcap] |].
    + intros q dq. destruct (decide (p = q)) as [<- | Hne].
      * rewrite lookup_insert_eq. intros [= <-]. rewrite Hflag.
        split; [discriminate | contradiction].
      * rewrite lookup_insert_ne by assumption. apply Hc.
    + intros q Hq. destruct (decide (p = q)) as [<- | Hne];
        [contradiction |].
      rewrite lookup_insert_ne by assumption. apply Hh, Hq.
    + split; [| split; [reflexivity |]].
      * intros q dq. cbn. destruct (decide (p = q)) as [<- | Hne].
        -- rewrite lookup_insert_eq. intros [= <-]. lia.
        -- rewrite lookup_insert_ne by assumption. apply Hu.
      * intros q Hne. cbn. apply lookup_insert_ne. congruence.
Qed.

Lemma newDentry_keeps_invariants_witness :
  lru_ok cascadeFs /\ destroyed_uncached cascadeFs
  /\ lru_ok
       (newDentry 0 0 4 (Some 11%nat) 77 sizeAttrMask sizeAttr cascadeFs).2.
Proof.
  split; [exact cascadeFs_ok |]. split; [exact cascadeFs_destroyed_uncached |].
  apply (newDentry_keeps_invariants 0 0 4 (Some 11%nat) 77 sizeAttrMask
           sizeAttr cascadeFs _
           (newDentry 0 0 4 (Some 11%nat) 77 sizeAttrMask sizeAttr cascadeFs).1
           cascadeFs_ok cascadeFs_destroyed_uncached);
    [reflexivity | apply surjective_pairing].
Defined.

(** X25: a new dentry already holds what the server said.  Refreshing it
    from the attributes it was created from changes nothing, and its owner,
    group and size are the server's where the server's mask has them, the
    filesystem's owner and group and size 0 otherwise. *)
Theorem newDentry_holds_server_attrs (fsuid fsgid : Z) (p : nat)
    (f : p9file) (path : Z) (mask : p9.AttrMask) (attr : p9.Attr)
    (fs fs' : filesystem) (q : nat) :
  newDentry fsuid fsgid p f path mask attr fs = (inr q, fs') ->
  exists d,
    heap fs' !! q = Some d
    /\ updateFromP9Attrs mask attr d = Returns d
    /\ linux.UID (statTo d)
       = Int.u32 (if p9.UID mask then p9.aUID attr else fsuid)
    /\ linux.GID (statTo d)
       = Int.u32 (if p9.GID mask then p9.aGID attr else fsgid)
    /\ linux.Size (statTo d) = (if p9.Size mask then p9.aSize attr else 0).
Proof.
  intros Hrun.
  apply newDentry_inv in Hrun
    as (-> & _ & _ & d & -> & _ & _ & _ & Hu & Hg & Hs & Hfix).
  exists d. split; [cbn; apply lookup_insert_eq |].
  split; [exact Hfix |]. cbn [statTo linux.UID linux.GID linux.Size]. auto.
Qed.

Lemma newDentry_holds_server_attrs_witness :
  exists d,
    heap (newDentry 0 0 4 (Some 11%nat) 77 sizeAttrMask sizeAttr cascadeFs).2
      !! 4%nat = Some d
    /\ linux.Size (statTo d) = 100.
Proof.
  destruct (newDentry_holds_server_attrs 0 0 4 (Some 11%nat) 77 sizeAttrMask
              sizeAttr cascadeFs
              (newDentry 0 0 4 (Some 11%nat) 77 sizeAttrMask sizeAttr
                 cascadeFs).2 4 eq_refl)
    as (d & Hd & _ & _ & _ & Hsize).
  exists d. split; [exact Hd | exact Hsize].
Defined.

(** * Mount options *)

Lemma take_eq (k : string) (m : gmap string string) :
  mount.take k m = (m !! k, delete k m).
Proof.
  unfold mount.take. destruct (m !! k) eqn:Hk; [reflexivity |].
  rewrite delete_id by exact Hk. reflexivity.
Qed.

(** A map that is empty once the keys [ks] are deleted has no other key. *)
Lemma foldr_delete_empty (ks : list string) (m : gmap string string)
    (k : string) :
  foldr delete m ks = ∅ -> is_Some (m !! k) -> k ∈ ks.
Proof.
  revert m. induction ks as [| k0 ks IH]; intros m Hempty Hk; cbn in Hempty.
  - rewrite Hempty, lookup_empty in Hk. destruct Hk as [? Hk]. discriminate.
  - destruct (decide (k = k0)) as [-> | Hne]; [apply elem_of_cons; auto |].
    apply elem_of_cons. right.
    destruct (decide (k ∈ ks)) as [Hin | Hnotin]; [exact Hin | exfalso].
    assert (Hstill : forall (l : list string) (m0 : gmap string string),
              k ∉ l -> foldr delete m0 l !! k = m0 !! k).
    { induction l as [| x l IHl]; intros m0 Hl; [reflexivity |].
      apply not_elem_of_cons in Hl as [Hx Hl]. cbn.
      rewrite lookup_delete_ne by congruence. apply IHl, Hl. }
    assert (Hlook : delete k0 (foldr delete m ks) !! k = m !! k).
    { rewrite lookup_delete_ne by congruence. apply Hstill, Hnotin. }
    rewrite Hempty, lookup_empty in Hlook. rewrite <- Hlook in Hk.
    destruct Hk as [? Hk]. discriminate.
Qed.

Section ParseOptions.

Variable Atoi : string -> option Z.
Variable ParseUint : string -> Z -> option Z.
Variable Highest : string.

(** What a successful parse says about the option map. *)
Lemma parseOptions_inv (m : gmap string string) (o : mount.filesystemOptions) :
  mount.parseOptions Atoi ParseUint Highest m = Some o ->
  m !! "trans" = Some "fd"
  /\ (exists r w, m !! "rfdno" = Some r /\ m !! "wfdno" = Some w
                  /\ Atoi r = Some (mount.fd o) /\ Atoi w = Some (mount.fd o))
  /\ mount.aname o = default "/" (m !! "aname")
  /\ (match m !! "cache" with
      | None =>
        mount.interop o = InteropModeExclusive
        /\ mount.regularFilesUseSpecialFileFD o = false
      | Some c =>
        (c = "fscache" /\ mount.interop o = InteropModeExclusive
         /\ mount.regularFilesUseSpecialFileFD o = false)
        \/ (c = "fscache_writethrough"
            /\ mount.interop o = InteropModeWritethrough
            /\ mount.regularFilesUseSpecialFileFD o = false)
        \/ (c = "none" /\ mount.interop o = InteropModeShared
            /\ mount.regularFilesUseSpecialFileFD o = true)
        \/ (c = "remote_revalidating" /\ mount.interop o = InteropModeShared
            /\ mount.regularFilesUseSpecialFileFD o = false)
      end)
  /\ (match m !! "msize" with
      | None => mount.msize o = 1048576
      | Some s => exists v, ParseUint s 32 = Some v /\ mount.msize o = Int.u32 v
      end)
  /\ mount.version o = default Highest (m !! "version")
  /\ (match m !! "dentry_cache_limit" with
      | None => mount.maxCachedDentries o = 1000
      | Some s => ParseUint s 64 = Some (mount.maxCachedDentries o)
      end)
  /\ (mount.forcePageCache o = bool_decide (is_Some (m !! "force_page_cache"))
      /\ mount.limitHostFDTranslation o
         = bool_decide (is_Some (m !! "limit_host_fd_translation"))
      /\ mount.overlayfsStaleRead o
         = bool_decide (is_Some (m !! "overlayfs_stale_read")))
  /\ foldr delete m (rev mount.knownOptions) = ∅.
Proof.
  unfold mount.parseOptions.
  repeat (rewrite take_eq; cbn [fst snd]).
  rewrite !lookup_delete_ne by discriminate.
  destruct (m !! "trans") as [trans |]; [| discriminate]. cbn [mbind option_bind].
  destruct (String.eqb_spec trans "fd") as [-> | _]; [| discriminate].
  cbn [negb].
  destruct (m !! "rfdno") as [r |]; [| discriminate]. cbn [mbind option_bind].
  destruct (Atoi r) as [rfd |] eqn:Hr; [| discriminate]. cbn [mbind option_bind].
  destruct (m !! "wfdno") as [w |]; [| discriminate]. cbn [mbind option_bind].
  destruct (Atoi w) as [wfd |] eqn:Hw; [| discriminate]. cbn [mbind option_bind].
  destruct (Z.eqb_spec rfd wfd) as [<- | _]; [| discriminate]. cbn [negb].
  set (final := delete "overlayfs_stale_read" _).
  intros Hrun.
  assert (Hshape : exists policy msize limit,
    (match m !! "cache" with
     | Some cache =>
       if String.eqb cache "fscache" then Some (InteropModeExclusive, false)
       else if String.eqb cache "fscache_writethrough"
       then Some (InteropModeWritethrough, false)
       else if String.eqb cache "none" then Some (InteropModeShared, true)
       else if String.eqb cache "remote_revalidating"
       then Some (InteropModeShared, false)
       else None
     | None => Some (InteropModeExclusive, false)
     end = Some policy)
    /\ (match m !! "msize" with
        | Some msizestr => Int.u32 <$> ParseUint msizestr 32
        | None => Some (1024 * 1024)
        end = Some msize)
    /\ (match m !! "dentry_cache_limit" with
        | Some str => ParseUint str 64
        | None => Some 1000
        end = Some limit)
    /\ final = ∅
    /\ o = mount.mkOptions rfd (default "/" (m !! "aname")) policy.1 msize
             (default Highest (m !! "version")) limit
             (bool_decide (is_Some (m !! "force_page_cache")))
             (bool_decide (is_Some (m !! "limit_host_fd_translation")))
             (bool_decide (is_Some (m !! "overlayfs_stale_read"))) policy.2).
  { destruct (match m !! "cache" with Some _ => _ | None => _ end)
      as [policy |]; [| discriminate].
    cbn [mbind option_bind] in Hrun.
    destruct (match m !! "msize" with Some _ => _ | None => _ end)
      as [msize |]; [| discriminate].
    cbn [mbind option_bind] in Hrun.
    destruct (match m !! "dentry_cache_limit" with Some _ => _ | None => _ end)
      as [limit |]; [| discriminate].
    cbn [mbind option_bind] in Hrun.
    destruct (bool_decide_reflect (final = ∅)) as [Hempty | _];
      [| discriminate].
    cbn [negb] in Hrun. injection Hrun as <-.
    exists policy, msize, limit. repeat split; assumption. }
  destruct Hshape as (policy & msize & limit & Hpol & Hms & Hlim & Hempty & ->).
  cbn [mount.fd mount.aname mount.interop mount.msize mount.version
       mount.maxCachedDentries mount.forcePageCache
       mount.limitHostFDTranslation mount.overlayfsStaleRead
       mount.regularFilesUseSpecialFileFD].
  split; [reflexivity |].
  split; [exists r, w; repeat split; assumption |].
  split; [reflexivity |].
  split.
  { destruct (m !! "cache") as [c |].
    - clear Hrun.
      destruct (String.eqb_spec c "fscache") as [Hc | _].
      { subst c. injection Hpol as <-. left. repeat split. }
      destruct (String.eqb_spec c "fscache_writethrough") as [Hc | _].
      { subst c. injection Hpol as <-. right. left. repeat split. }
      destruct (String.eqb_spec c "none") as [Hc | _].
      { subst c. injection Hpol as <-. right. right. left. repeat split. }
      destruct (String.eqb_spec c "remote_revalidating") as [Hc | _];
        [| discriminate].
      subst c. injection Hpol as <-. right. right. right. repeat split.
    - injection Hpol as <-. split; reflexivity. }
  split.
  { destruct (m !! "msize") as [s |].
    - destruct (ParseUint s 32) as [v |]; [| discriminate].
      injection Hms as <-. eauto.
    - injection Hms as <-. reflexivity. }
  split; [reflexivity |]. split.
  { destruct (m !! "dentry_cache_limit") as [s |]; [exact Hlim |].
    injection Hlim as <-. reflexivity. }
  split; [repeat split |]. exact Hempty.
Qed.

(** X26: unknown mount options are a hard error: if the option map has a key
    that is none of the eleven options that GetFilesystem knows, the options
    are rejected, whatever the other options are. *)
Theorem parseOptions_unknown_option (m : gmap string string) (k : string) :
  k ∉ mount.knownOptions -> is_Some (m !! k) ->
  mount.parseOptions Atoi ParseUint Highest m = None.
Proof.
  intros Hunknown Hk.
  destruct (mount.parseOptions Atoi ParseUint Highest m) as [o |] eqn:Hrun; [exfalso | reflexivity].
  apply parseOptions_inv in Hrun as (_ & _ & _ & _ & _ & _ & _ & _ & Hempty).
  apply Hunknown.
  apply (foldr_delete_empty _ _ k Hempty) in Hk.
  apply elem_of_reverse in Hk. exact Hk.
Qed.

(** X27: the transport.  Options are accepted only with trans=fd and with
    rfdno and wfdno that parse to the same number, which becomes the
    descriptor of the connection. *)
Theorem parseOptions_transport (m : gmap string string)
    (o : mount.filesystemOptions) :
  mount.parseOptions Atoi ParseUint Highest m = Some o ->
  m !! "trans" = Some "fd"
  /\ exists r w, m !! "rfdno" = Some r /\ m !! "wfdno" = Some w
                 /\ Atoi r = Some (mount.fd o) /\ Atoi w = Some (mount.fd o).
Proof.
  intros Hrun. apply parseOptions_inv in Hrun as (Ht & Hfd & _).
  split; assumption.
Qed.

(** X28: the cache policy.  Of accepted options, cache=none and
    cache=remote_revalidating give Shared interop, cache=fscache_writethrough
    gives Writethrough, cache=fscache or no cache option gives Exclusive, and
    no other value is accepted; regular files use special-file FDs exactly
    with cache=none. *)
Theorem parseOptions_cache_policy (m : gmap string string)
    (o : mount.filesystemOptions) :
  mount.parseOptions Atoi ParseUint Highest m = Some o ->
  (mount.regularFilesUseSpecialFileFD o = true <-> m !! "cache" = Some "none")
  /\ (mount.interop o = InteropModeShared
      <-> m !! "cache" = Some "none"
          \/ m !! "cache" = Some "remote_revalidating")
  /\ (mount.interop o = InteropModeWritethrough
      <-> m !! "cache" = Some "fscache_writethrough")
  /\ (mount.interop o = InteropModeExclusive
      <-> m !! "cache" = None \/ m !! "cache" = Some "fscache").
Proof.
  intros Hrun. apply parseOptions_inv in Hrun as (_ & _ & _ & Hpol & _).
  destruct (m !! "cache") as [c |].
  - destruct Hpol as [(-> & -> & ->) | [(-> & -> & ->) | [(-> & -> & ->)
                    | (-> & -> & ->)]]];
      repeat split; intros; try discriminate; try reflexivity; auto;
      repeat match goal with
             | H : _ \/ _ |- _ => destruct H
             end; discriminate.
  - destruct Hpol as [-> ->].
    repeat split; intros; try discriminate; auto;
      repeat match goal with
             | H : _ \/ _ |- _ => destruct H
             end; discriminate.
Qed.

(** X29: defaults and switches.  Accepted options have the attach name "/",
    a message size of 1 MiB, the highest protocol version and a dentry cache
    limit of 1000 unless the map says otherwise, and each of the three
    switches is on exactly when its key is present. *)
Theorem parseOptions_defaults (m : gmap string string)
    (o : mount.filesystemOptions) :
  mount.parseOptions Atoi ParseUint Highest m = Some o ->
  mount.aname o = default "/" (m !! "aname")
  /\ mount.version o = default Highest (m !! "version")
  /\ (m !! "msize" = None -> mount.msize o = 1048576)
  /\ (m !! "dentry_cache_limit" = None -> mount.maxCachedDentries o = 1000)
  /\ (forall s, m !! "dentry_cache_limit" = Some s ->
                ParseUint s 64 = Some (mount.maxCachedDentries o))
  /\ (mount.forcePageCache o = true <-> is_Some (m !! "force_page_cache"))
  /\ (mount.limitHostFDTranslation o = true
      <-> is_Some (m !! "limit_host_fd_translation"))
  /\ (mount.overlayfsStaleRead o = true
      <-> is_Some (m !! "overlayfs_stale_read")).
Proof.
  intros Hrun.
  apply parseOptions_inv in Hrun
    as (_ & _ & Ha & _ & Hms & Hv & Hlim & (Hf & Hl & Hs) & _).
  split; [exact Ha |]. split; [exact Hv |].
  split; [intros H; rewrite H in Hms; exact Hms |].
  split; [intros H; rewrite H in Hlim; exact Hlim |].
  split; [intros s H; rewrite H in Hlim; exact Hlim |].
  rewrite Hf, Hl, Hs, !bool_decide_eq_true. repeat split; auto.
Qed.

End ParseOptions.

Lemma sampleOptions_parse :
  mount.parseOptions sampleAtoi sampleParseUint "9P2000.L" sampleOptions
  = Some sampleParsed.
Proof. vm_compute. reflexivity. Qed.

Lemma parseOptions_unknown_option_witness :
  ("debug" ∉ mount.knownOptions)
  /\ mount.parseOptions sampleAtoi sampleParseUint "9P2000.L"
       (<["debug" := "1"]> sampleOptions) = None.
Proof.
  assert (Hk : "debug" ∉ mount.knownOptions).
  { apply (proj1 (bool_decide_spec _)). vm_compute. exact I. }
  split; [exact Hk |].
  apply (parseOptions_unknown_option sampleAtoi sampleParseUint "9P2000.L"
           _ "debug" Hk).
  rewrite lookup_insert_eq. eauto.
Defined.

Lemma parseOptions_transport_witness :
  sampleOptions !! "trans" = Some "fd"
  /\ exists r w, sampleOptions !! "rfdno" = Some r
                 /\ sampleOptions !! "wfdno" = Some w
                 /\ sampleAtoi r = Some 3 /\ sampleAtoi w = Some 3.
Proof.
  exact (parseOptions_transport sampleAtoi sampleParseUint "9P2000.L"
           sampleOptions sampleParsed sampleOptions_parse).
Defined.

Lemma parseOptions_cache_policy_witness :
  mount.regularFilesUseSpecialFileFD sampleParsed = true
  <-> sampleOptions !! "cache" = Some "none".
Proof.
  exact (proj1 (parseOptions_cache_policy sampleAtoi sampleParseUint
                  "9P2000.L" sampleOptions sampleParsed sampleOptions_parse)).
Defined.

Lemma parseOptions_defaults_witness :
  mount.aname sampleParsed = "/"
  /\ mount.version sampleParsed = "9P2000.L".
Proof.
  destruct (parseOptions_defaults sampleAtoi sampleParseUint "9P2000.L"
              sampleOptions sampleParsed sampleOptions_parse)
    as (Ha & Hv & _).
  split; [exact Ha | exact Hv].
Defined.

(** * Release of the filesystem *)

Lemma released_idem (d : dentry) : released (released d) = released d.
Proof.
  unfold released. cbn [handle set_dirty set_cache fd].
  destruct (Z.leb_spec 0 (fd (handle d))) as [Hopen | Hclosed]; cbn.
  - reflexivity.
  - destruct (Z.leb_spec 0 (fd (handle d))); [lia | reflexivity].
Qed.

Lemma released_fields (d : dentry) :
  cache (released d) = [] /\ dirty (released d) = []
  /\ fd (handle (released d)) < 0
  /\ h_file (handle (released d)) = h_file (handle d)
  /\ refs (released d) = refs d /\ size (released d) = size d
  /\ cached (released d) = cached d.
Proof.
  unfold released. cbn [handle set_dirty set_cache fd].
  destruct (Z.leb_spec 0 (fd (handle d))); cbn; repeat split; lia.
Qed.

(** One turn of the loop of [Release]. *)
Lemma releaseDentry_step (p : nat) (fs : filesystem) :
  heap (releaseDentry p fs)
  = match heap fs !! p with
    | Some d => <[p := released d]> (heap fs)
    | None => heap fs
    end
  /\ dentries (releaseDentry p fs) = dentries fs
  /\ cachedDentries (releaseDentry p fs) = cachedDentries fs
  /\ cachedDentriesLen (releaseDentry p fs) = cachedDentriesLen fs
  /\ (exists t, trace (releaseDentry p fs) = trace fs ++ t)
  /\ (forall d, heap fs !! p = Some d -> 0 <= fd (handle d) ->
                EvCloseFD (fd (handle d)) ∈ trace (releaseDentry p fs)).
Proof.
  unfold releaseDentry, released.
  destruct (heap fs !! p) as [d |]; cbn [handle set_dirty set_cache fd].
  - destruct (Z.leb_spec 0 (fd (handle d))) as [Hopen | Hclosed];
      destruct (handleWritable d); cbn;
      repeat split; try (eexists; rewrite <- ?app_assoc; reflexivity);
      try (eexists; symmetry; apply app_nil_r);
      intros d0 [= <-] Hfd; try lia;
      rewrite !elem_of_app; right; apply list_elem_of_singleton; reflexivity.
  - repeat split; [exists []; symmetry; apply app_nil_r |].
    intros d0 H. discriminate.
Qed.

Lemma release_loop (l : list nat) (fs : filesystem) :
  let fs' := foldr releaseDentry fs l in
  (forall q, heap fs' !! q
             = if decide (q ∈ l) then released <$> heap fs !! q
               else heap fs !! q)
  /\ dentries fs' = dentries fs
  /\ cachedDentries fs' = cachedDentries fs
  /\ (exists t, trace fs' = trace fs ++ t)
  /\ (NoDup l -> forall p d, p ∈ l -> heap fs !! p = Some d ->
      0 <= fd (handle d) -> EvCloseFD (fd (handle d)) ∈ trace fs').
Proof.
  induction l as [| p l IH]; cbn zeta.
  - split; [intros q; destruct (decide (q ∈ [])) as [H | _];
            [apply elem_of_nil in H; contradiction | reflexivity] |].
    split; [reflexivity |]. split; [reflexivity |].
    split; [exists []; symmetry; apply app_nil_r |].
    intros _ p d H. apply elem_of_nil in H. contradiction.
  - cbn zeta in IH. destruct IH as (Hheap & Hset & Hlist & [t Ht] & Hclose).
    cbn [foldr].
    destruct (releaseDentry_step p (foldr releaseDentry fs l))
      as (Hh1 & Hs1 & Hl1 & _ & [t1 Ht1] & Hc1).
    split; [| split; [congruence | split; [congruence | split]]].
    + intros q. rewrite Hh1. pose proof (Hheap p) as Hp.
      destruct (decide (q = p)) as [-> | Hne].
      * destruct (decide (p ∈ p :: l)) as [_ | Hn];
          [| exfalso; apply Hn, elem_of_cons; auto].
        destruct (heap (foldr releaseDentry fs l) !! p) as [d1 |] eqn:E1.
        -- rewrite lookup_insert_eq.
           destruct (decide (p ∈ l)); destruct (heap fs !! p) as [d |];
             cbn in Hp |- *; try discriminate; injection Hp as ->;
             rewrite ?released_idem; reflexivity.
        -- rewrite E1.
           destruct (decide (p ∈ l)); destruct (heap fs !! p) as [d |];
             cbn in Hp |- *; try discriminate; reflexivity.
      * assert (Hq : heap (foldr releaseDentry fs l) !! q
                     = if decide (q ∈ p :: l) then released <$> heap fs !! q
                       else heap fs !! q).
        { rewrite Hheap.
          destruct (decide (q ∈ l)) as [Hin | Hnotin];
            destruct (decide (q ∈ p :: l)) as [Hin' | Hnotin'];
            try reflexivity.
          - exfalso. apply Hnotin', elem_of_cons. auto.
          - exfalso. apply elem_of_cons in Hin' as [? | ?]; auto. }
        destruct (heap (foldr releaseDentry fs l) !! p);
          [rewrite lookup_insert_ne by congruence |]; exact Hq.
    + exists (t ++ t1). rewrite Ht1, Ht, app_assoc. reflexivity.
    + intros Hnd q d Hq Hd Hfd. apply NoDup_cons in Hnd as [Hp Hnd].
      apply elem_of_cons in Hq as [-> | Hq].
      * apply (Hc1 d); [| exact Hfd].
        rewrite Hheap. destruct (decide (p ∈ l)); [contradiction | exact Hd].
      * rewrite Ht1. apply elem_of_app. left. eapply Hclose; eauto.
Qed.

(** X30: Release leaves nothing behind.  After [Release] every dentry of
    [fs.dentries] has an empty page cache and dirty set and no host
    descriptor, with its fid, count and size as before; every host descriptor
    that was open has been closed; dentries outside [fs.dentries], the set
    itself and the LRU list are untouched; the client is closed. *)
Theorem Release_leaves_nothing (fs : filesystem) :
  let fs' := (Release fs).1 in
  (forall p d, p ∈ dentries fs -> heap fs !! p = Some d ->
     exists d', heap fs' !! p = Some d'
                /\ cache d' = [] /\ dirty d' = [] /\ fd (handle d') < 0
                /\ h_file (handle d') = h_file (handle d)
                /\ refs d' = refs d /\ size d' = size d
                /\ (0 <= fd (handle d) ->
                    EvCloseFD (fd (handle d)) ∈ trace fs'))
  /\ (forall p, p ∉ dentries fs -> heap fs' !! p = heap fs !! p)
  /\ dentries fs' = dentries fs
  /\ cachedDentries fs' = cachedDentries fs
  /\ (Release fs).2 = [ClientClose].
Proof.
  cbn zeta. unfold Release. cbn [fst snd].
  destruct (release_loop (elements (dentries fs)) fs)
    as (Hheap & Hset & Hlist & _ & Hclose).
  cbn zeta in Hheap, Hset, Hlist, Hclose.
  split; [| split; [| split; [exact Hset | split; [exact Hlist | reflexivity]]]].
  - intros p d Hp Hd. exists (released d).
    destruct (released_fields d) as (Hc & Hdi & Hfd & Hf & Hr & Hs & _).
    split.
    { rewrite Hheap.
      destruct (decide (p ∈ elements (dentries fs))) as [_ | Hn];
        [rewrite Hd; reflexivity |].
      exfalso. apply Hn, elem_of_elements, Hp. }
    repeat split; try assumption.
    intros Hopen.
    apply (Hclose (NoDup_elements _) p d); [| exact Hd | exact Hopen].
    apply elem_of_elements, Hp.
  - intros p Hp. rewrite Hheap.
    destruct (decide (p ∈ elements (dentries fs))) as [Hin | _];
      [| reflexivity].
    exfalso. apply Hp, elem_of_elements, Hin.
Qed.

Lemma Release_leaves_nothing_witness :
  2%nat ∈ dentries mountedFs
  /\ exists d',
       heap (Release mountedFs).1 !! 2%nat = Some d'
       /\ cache d' = [] /\ dirty d' = [] /\ fd (handle d') < 0
       /\ EvCloseFD 5 ∈ trace (Release mountedFs).1.
Proof.
  assert (Hin : 2%nat ∈ dentries mountedFs).
  { apply (proj1 (bool_decide_spec _)). vm_compute. exact I. }
  split; [exact Hin |].
  destruct (proj1 (Release_leaves_nothing mountedFs) 2%nat readOnlyFile Hin
              eq_refl)
    as (d' & Hd & Hc & Hdi & Hfd & _ & _ & _ & Hclose).
  exists d'. split; [exact Hd |]. split; [exact Hc |]. split; [exact Hdi |].
  split; [exact Hfd |]. apply Hclose. discriminate.
Defined.
